(** * Knowledge resolution and human escalation: the receptionist agent
      (backend/agent.py) and the supervisor server (backend/server.py).

    The agent keeps two in-memory dictionaries keyed by the lower-cased
    question; the server keeps Firestore collections of documents and a
    list of live WebSocket connections.  Dictionaries and collections are
    finite maps, documents are maps from field names to JSON-like values,
    and handlers are programs in a state-and-exception monad over the
    server's world. *)

From Stdlib Require Import ZArith QArith Ascii String.
From stdpp Require Import gmap strings list fin_maps.

Set Warnings "-register-all".
Open Scope string_scope.
Open Scope list_scope.

(** ** Values shared by both programs *)

(** A JSON / Firestore value.  A Python float is represented by the exact
    rational it denotes, so that [<] on [Q] is the comparison Python
    performs (also between an int and a float). *)
Inductive value :=
| VNone
| VBool (b : bool)
| VStr (s : string)
| VInt (z : Z)
| VFloat (q : Q)
| VDict (kvs : list (string * value))
| VList (vs : list value).

(** The float literal [0.8]: the binary64 number closest to 4/5, which is
    0x3FE999999999999A = 3602879701896397 / 2^52 (slightly above 4/5). *)
Definition float_0_8 : Q := 3602879701896397 # 4503599627370496.

(** Python's [x > y] on numbers. *)
Definition py_gt (x y : Q) : bool := negb (Qle_bool x y).

(** [str.lower] restricted to ASCII letters, used to run the agent on
    concrete questions.  The agent itself is stated over any
    normalisation function. *)
Definition lower_ascii (c : ascii) : ascii :=
  let n := nat_of_ascii c in
  if (65 <=? n)%nat && (n <=? 90)%nat then ascii_of_nat (n + 32) else c.

Fixpoint ascii_lower (s : string) : string :=
  match s with
  | EmptyString => EmptyString
  | String c s' => String (lower_ascii c) (ascii_lower s')
  end.

(** ** backend/agent.py *)

Module Agent.

(** Values of [self.predefined_knowledge], as built by
    [load_knowledge_bases]. *)
Record predefined_entry := {
  p_answer : string;
  p_confidence : Q;
  p_verified : bool
}.

(** Values of [self.learned_knowledge], as built by
    [load_knowledge_bases]. *)
Record learned_entry := {
  answer : string;
  confidence : Q;
  verified : bool;
  times_used : Z;
  success_rate : Q;
  id : option string
}.

(** The JSON body of the usage update
    [PUT /knowledge-base/learned/{id}]. *)
Record usage_put := {
  put_id : string;
  put_question : string;
  put_answer : string;
  put_confidence : Q;
  put_verified : bool;
  put_times_used : Z;
  put_success_rate : Q
}.

(** The agent's knowledge state, with the requests it has sent. *)
Record agent := {
  predefined_knowledge : gmap string predefined_entry;
  learned_knowledge : gmap string learned_entry;
  sent_puts : list usage_put
}.

Definition with_times_used (n : Z) (e : learned_entry) : learned_entry :=
  {| answer := answer e; confidence := confidence e; verified := verified e;
     times_used := n; success_rate := success_rate e; id := id e |}.

Definition set_learned (q : string) (e : learned_entry) (a : agent) : agent :=
  {| predefined_knowledge := predefined_knowledge a;
     learned_knowledge := <[q := e]> (learned_knowledge a);
     sent_puts := sent_puts a |}.

Definition send_put (p : usage_put) (a : agent) : agent :=
  {| predefined_knowledge := predefined_knowledge a;
     learned_knowledge := learned_knowledge a;
     sent_puts := sent_puts a ++ [p] |}.

(** Truth value of [entry.get("id")]. *)
Definition truthy_id (i : option string) : option string :=
  match i with
  | Some s => if decide (s = "") then None else Some s
  | None => None
  end.

(** The acceptance test of a learned entry. *)
Definition trusted (entry : learned_entry) : bool :=
  verified entry
  || (py_gt (confidence entry) float_0_8 && py_gt (success_rate entry) float_0_8).

Section WithLower.

(** [str.lower]. *)
Variable lower : string -> string.

(** [check_knowledge_base(query)]: the answer, or [None], and the agent
    afterwards.  [put_raises] tells whether [requests.put] raises. *)
Definition check_knowledge_base (put_raises : bool) (query : string) (a : agent)
  : option string * agent :=
  let query := lower query in
  match predefined_knowledge a !! query with
  | Some entry => (Some (p_answer entry), a)
  | None =>
    match learned_knowledge a !! query with
    | Some entry =>
      if trusted entry then
        let entry := with_times_used (times_used entry + 1) entry in
        let a := set_learned query entry a in
        let a :=
          match truthy_id (id entry) with
          | Some i =>
            if put_raises then a
            else send_put {| put_id := i; put_question := query;
                             put_answer := answer entry;
                             put_confidence := confidence entry;
                             put_verified := verified entry;
                             put_times_used := times_used entry;
                             put_success_rate := success_rate entry |} a
          | None => a
          end in
        (Some (answer entry), a)
      else (None, a)
    | None => (None, a)
    end
  end.

End WithLower.

End Agent.

(** ** backend/server.py *)

Module Server.

Abbreviation doc := (gmap string value).
Abbreviation collection := (gmap string (gmap string value)).

(** A WebSocket object, by identity. *)
Definition conn := nat.

(** Exceptions, and the text of an [HTTPException]'s detail: [str(e)] is
    kept as the exception it prints. *)
Inductive exn :=
| HTTPException (status_code : Z) (detail : detail)
| KeyError (key : string)
| ValueError
| TypeError
| ValidationError
| JSONDecodeError
| UnicodeDecodeError
| StoreError
| WebSocketError (c : conn)
with detail :=
| Text (s : string)
| StrOf (e : exn)
| FailedToUpdate (e : exn).

Inductive result (A : Type) :=
| Ok (a : A)
| Raise (e : exn).
Arguments Ok {A} a.
Arguments Raise {A} e.

(** The server's mutable state: the three Firestore collections, the
    connection manager's list, and the text frames delivered so far
    (oldest first). *)
Record world := {
  help_requests : collection;
  knowledge_base : collection;
  learned_knowledge : collection;
  active_connections : list conn;
  delivered : list (conn * value)
}.

(** The Firestore calls of the handlers, by call site. *)
Inductive store_call :=
| HsrGet   (* handle_supervisor_response: doc_ref.get() *)
| UhrGet   (* update_help_request: doc_ref.get() *)
| UhrSet   (* update_help_request: doc_ref.set(update_data, merge=True) *)
| UkbSet   (* update_knowledge_base: doc_ref.set(entry.dict()) *)
| ChrSet   (* create_help_request: doc_ref.set(request.dict()) *)
| ApkSet   (* add_predefined_knowledge: doc_ref.set(entry.dict()) *)
| AlkSet.  (* add_learned_knowledge: doc_ref.set(new_entry) *)

(** What one handler call reads from outside the program. *)
Record env := {
  now : string;                      (* datetime.now().isoformat() *)
  import_time : string;              (* datetime.now() when the models were defined *)
  auto_id : string;                  (* the id chosen by .document() *)
  store_fails : store_call -> bool;  (* the Firestore call raises *)
  send_fails : conn -> bool;         (* send_text raises *)
  accept_fails : conn -> bool;       (* accept raises *)
  LIVEKIT_API_SECRET : option string (* os.getenv("LIVEKIT_API_SECRET") *)
}.

(** *** State and exceptions *)

Definition M (A : Type) : Type := world -> result A * world.

Definition ret {A} (a : A) : M A := fun w => (Ok a, w).

Definition raise {A} (e : exn) : M A := fun w => (Raise e, w).

Definition bind {A B} (m : M A) (k : A -> M B) : M B :=
  fun w =>
    match m w with
    | (Ok a, w') => k a w'
    | (Raise e, w') => (Raise e, w')
    end.

(** [try: m except Exception as e: h e].  Writes made before the
    exception stay. *)
Definition try_except {A} (m : M A) (h : exn -> M A) : M A :=
  fun w =>
    match m w with
    | (Ok a, w') => (Ok a, w')
    | (Raise e, w') => h e w'
    end.

Definition get_world : M world := fun w => (Ok w, w).

Definition modify (f : world -> world) : M unit := fun w => (Ok tt, f w).

Definition lift {A} (r : result A) : M A := fun w => (r, w).

Notation "'do' x <- m ;; k" := (bind m (fun x => k))
  (at level 10, x name, m at level 99, k at level 200, only parsing).
Notation "'exec' m ;; k" := (bind m (fun _ => k))
  (at level 10, m at level 99, k at level 200, only parsing).

Definition set_help_requests (f : collection -> collection) (w : world) : world :=
  {| help_requests := f (help_requests w);
     knowledge_base := knowledge_base w;
     learned_knowledge := learned_knowledge w;
     active_connections := active_connections w;
     delivered := delivered w |}.

Definition set_knowledge_base (f : collection -> collection) (w : world) : world :=
  {| help_requests := help_requests w;
     knowledge_base := f (knowledge_base w);
     learned_knowledge := learned_knowledge w;
     active_connections := active_connections w;
     delivered := delivered w |}.

Definition set_learned_knowledge (f : collection -> collection) (w : world) : world :=
  {| help_requests := help_requests w;
     knowledge_base := knowledge_base w;
     learned_knowledge := f (learned_knowledge w);
     active_connections := active_connections w;
     delivered := delivered w |}.

Definition set_active_connections (l : list conn) (w : world) : world :=
  {| help_requests := help_requests w;
     knowledge_base := knowledge_base w;
     learned_knowledge := learned_knowledge w;
     active_connections := l;
     delivered := delivered w |}.

Definition log_delivery (c : conn) (message : value) (w : world) : world :=
  {| help_requests := help_requests w;
     knowledge_base := knowledge_base w;
     learned_knowledge := learned_knowledge w;
     active_connections := active_connections w;
     delivered := delivered w ++ [(c, message)] |}.

(** The world after [message] has reached each of [cs], in order. *)
Definition log_deliveries (cs : list conn) (message : value) (w : world) : world :=
  {| help_requests := help_requests w;
     knowledge_base := knowledge_base w;
     learned_knowledge := learned_knowledge w;
     active_connections := active_connections w;
     delivered := delivered w ++ map (fun c => (c, message)) cs |}.

(** A Firestore call at site [c]: raises when the store is unavailable. *)
Definition store (e : env) (c : store_call) : M unit :=
  if store_fails e c then raise StoreError else ret tt.

(** *** Python and library primitives *)

(** [d[k]] on a dict. *)
Definition subscript (d : doc) (k : string) : result value :=
  match d !! k with
  | Some v => Ok v
  | None => Raise (KeyError k)
  end.

(** [DocumentSnapshot.get(field)] on an existing document: a missing
    field is a [KeyError]. *)
Definition snapshot_get (d : doc) (field : string) : result value :=
  subscript d field.

(** [d[k]] on a JSON object read as a list of pairs. *)
Fixpoint assoc (k : string) (kvs : list (string * value)) : option value :=
  match kvs with
  | [] => None
  | (k', v) :: kvs' => if decide (k' = k) then Some v else assoc k kvs'
  end.

Definition opt_str (o : option string) : value :=
  match o with
  | Some s => VStr s
  | None => VNone
  end.

Definition opt_dict (o : option (list (string * value))) : value :=
  match o with
  | Some kvs => VDict kvs
  | None => VNone
  end.

(** Truth value of an [Optional[str]]. *)
Definition truthy (o : option string) : bool :=
  match o with
  | Some s => negb (bool_decide (s = ""))
  | None => false
  end.

(** Validation of a [str] field.  [None] is rejected; so is, here, any
    value that is not a string. *)
Definition validate_str (v : value) : result string :=
  match v with
  | VStr s => Ok s
  | _ => Raise ValidationError
  end.

(** Validation of an [Optional[str]] field. *)
Definition validate_opt_str (v : value) : result (option string) :=
  match v with
  | VNone => Ok None
  | VStr s => Ok (Some s)
  | _ => Raise ValidationError
  end.

(** Validation of an [Optional[dict]] field. *)
Definition validate_opt_dict (v : option value)
  : result (option (list (string * value))) :=
  match v with
  | None | Some VNone => Ok None
  | Some (VDict kvs) => Ok (Some kvs)
  | Some _ => Raise ValidationError
  end.

(** A document id given to [.document(id)] is a string. *)
Definition as_document_id (v : value) : result string :=
  match v with
  | VStr s => Ok s
  | _ => Raise TypeError
  end.

(** Field [k] of the document stored under [i] in collection [c]. *)
Definition field (c : collection) (i k : string) : option value :=
  match c !! i with
  | Some d => d !! k
  | None => None
  end.

(** [list.remove(x)]: drops the first occurrence, [None] for the
    [ValueError] raised when [x] is absent. *)
Fixpoint list_remove (x : conn) (l : list conn) : option (list conn) :=
  match l with
  | [] => None
  | y :: l' =>
    if decide (y = x) then Some l'
    else match list_remove x l' with
         | Some r => Some (y :: r)
         | None => None
         end
  end.

Definition is_ascii (s : string) : bool :=
  forallb (fun c => (nat_of_ascii c <? 128)%nat) (list_ascii_of_string s).

(** *** Models *)

Record HelpRequest := {
  id : option string;
  caller_details : option (list (string * value));
  question : option string;
  context : option string;
  status : string;
  supervisor_response : option string
}.

(** [request.dict()]. *)
Definition HelpRequest_dict (r : HelpRequest) : list (string * value) :=
  [("id", opt_str (id r));
   ("caller_details", opt_dict (caller_details r));
   ("question", opt_str (question r));
   ("context", opt_str (context r));
   ("status", VStr (status r));
   ("supervisor_response", opt_str (supervisor_response r))].

Definition with_id (i : string) (r : HelpRequest) : HelpRequest :=
  {| id := Some i; caller_details := caller_details r; question := question r;
     context := context r; status := status r;
     supervisor_response := supervisor_response r |}.

Record KnowledgeBaseEntry := {
  kb_question : string;
  kb_answer : string;
  kb_confidence : Q;
  kb_last_updated : string;
  kb_source : string;
  kb_verified : bool
}.

(** [entry.dict()]. *)
Definition KnowledgeBaseEntry_dict (k : KnowledgeBaseEntry) : list (string * value) :=
  [("question", VStr (kb_question k));
   ("answer", VStr (kb_answer k));
   ("confidence", VFloat (kb_confidence k));
   ("last_updated", VStr (kb_last_updated k));
   ("source", VStr (kb_source k));
   ("verified", VBool (kb_verified k))].

(** [LearnedKnowledgeEntry(question=.., answer=.., confidence=..,
    source_request_id=..).dict()]: the other fields take the defaults of
    the class. *)
Definition LearnedKnowledgeEntry_dict (e : env)
    (question answer : string) (confidence : Q) (source_request_id : string)
  : list (string * value) :=
  [("question", VStr question);
   ("answer", VStr answer);
   ("confidence", VFloat confidence);
   ("last_updated", VStr (import_time e));
   ("verified", VBool false);
   ("source_request_id", VStr source_request_id);
   ("supervisor_id", VNone);
   ("times_used", VInt 0);
   ("success_rate", VFloat 1)].

Record LiveKitWebhook := {
  event : string;
  room : list (string * value);
  participant : option (list (string * value));
  track : option (list (string * value));
  recording : option (list (string * value))
}.

(** The JSON bodies the handlers answer with. *)
Inductive content :=
| Detail (d : detail)                          (* {"detail": d} *)
| Message (message : string)                   (* {"message": m} *)
| MessageData (message : string) (data : doc)  (* {"message": m, "data": d} *)
| MessageId (message : string) (i : string)    (* {"message": m, "id" or "request_id": i} *)
| Status (s : string).                         (* {"status": s} *)

Record JSONResponse := {
  status_code : Z;
  body_content : content
}.

(** *** ConnectionManager *)

(** [connect(websocket)]. *)
Definition connect (e : env) (websocket : conn) : M unit :=
  exec (if accept_fails e websocket then raise (WebSocketError websocket) else ret tt) ;;
  do w <- get_world ;;
  modify (set_active_connections (active_connections w ++ [websocket])).

(** [disconnect(websocket)]: [self.active_connections.remove(websocket)]. *)
Definition disconnect (websocket : conn) : M unit :=
  do w <- get_world ;;
  match list_remove websocket (active_connections w) with
  | Some l => modify (set_active_connections l)
  | None => raise ValueError
  end.

(** [await connection.send_text(message)]. *)
Definition send_text (e : env) (connection : conn) (message : value) : M unit :=
  if send_fails e connection then raise (WebSocketError connection)
  else modify (log_delivery connection message).

(** The loop of [broadcast] over the connections still to visit. *)
Fixpoint send_all (e : env) (connections : list conn) (message : value) : M unit :=
  match connections with
  | [] => ret tt
  | connection :: rest =>
    exec send_text e connection message ;;
    send_all e rest message
  end.

(** [broadcast(message)].  The message is kept as the value given to
    [json.dumps]. *)
Definition broadcast (e : env) (message : value) : M unit :=
  do w <- get_world ;;
  send_all e (active_connections w) message.

(** *** Help requests *)

(** [create_help_request(request)]. *)
Definition create_help_request (e : env) (request : HelpRequest) : M content :=
  try_except
    (let request := with_id (auto_id e) request in
     exec store e ChrSet ;;
     exec modify (set_help_requests
            (<[auto_id e := list_to_map (HelpRequest_dict request)]>)) ;;
     exec broadcast e (VDict [("type", VStr "new_request");
                              ("data", VDict (HelpRequest_dict request))]) ;;
     ret (MessageId "Help request created" (auto_id e)))
    (fun ex => raise (HTTPException 500 (StrOf ex))).

(** [update_knowledge_base(question, answer, request_id)]; [question] is
    the value read from the stored request. *)
Definition update_knowledge_base (e : env)
    (question : value) (answer request_id : string) : M unit :=
  try_except
    (do q <- lift (validate_str question) ;;
     exec store e UkbSet ;;
     modify (set_learned_knowledge
       (<[auto_id e :=
            list_to_map (LearnedKnowledgeEntry_dict e q answer 1 request_id)]>)))
    (fun ex => raise (HTTPException 500 (FailedToUpdate ex))).

(** The [update_data] dict of [update_help_request]. *)
Definition update_data (e : env) (request : HelpRequest) : doc :=
  let d : doc :=
    <["timestamp" := VStr (now e)]>
      (<["supervisor_response" := opt_str (supervisor_response request)]>
         (<["status" := VStr (status request)]> ∅)) in
  if truthy (question request)
  then <["question" := opt_str (question request)]> d
  else d.

(** The block of [update_help_request] under
    [if request.status == "resolved" and request.supervisor_response];
    [current_doc] is the snapshot read before the write. *)
Definition if_resolved_update_knowledge_base (e : env)
    (request_id : string) (request : HelpRequest) (current_doc : doc) : M unit :=
  match supervisor_response request with
  | Some response =>
    if bool_decide (status request = "resolved")
       && negb (bool_decide (response = ""))
    then
      do current_question <- lift (snapshot_get current_doc "question") ;;
      update_knowledge_base e current_question response request_id
    else ret tt
  | None => ret tt
  end.

(** [update_help_request(request_id, request)].  [set(.., merge=True)]
    writes the fields of [update_data] and keeps the others. *)
Definition update_help_request (e : env)
    (request_id : string) (request : HelpRequest) : M JSONResponse :=
  try_except
    (exec store e UhrGet ;;
     do w <- get_world ;;
     match help_requests w !! request_id with
     | None =>
       ret {| status_code := 404;
              body_content := Detail (Text "Help request not found") |}
     | Some current_doc =>
       let update_data := update_data e request in
       exec store e UhrSet ;;
       exec modify (set_help_requests
              (<[request_id := update_data ∪ current_doc]>)) ;;
       exec if_resolved_update_knowledge_base e request_id request current_doc ;;
       ret {| status_code := 200;
              body_content := MessageData "Help request updated" update_data |}
     end)
    (fun ex => ret {| status_code := 500; body_content := Detail (StrOf ex) |}).

(** The event broadcast by [handle_supervisor_response]. *)
Definition supervisor_response_event
    (request_id : string) (response question : value) : value :=
  VDict [("type", VStr "supervisor_response");
         ("data", VDict [("request_id", VStr request_id);
                         ("response", response);
                         ("question", question)])].

(** [handle_supervisor_response(data)]. *)
Definition handle_supervisor_response (e : env) (data : doc) : M unit :=
  do rid <- lift (subscript data "request_id") ;;
  do response <- lift (subscript data "response") ;;
  do request_id <- lift (as_document_id rid) ;;
  exec store e HsrGet ;;
  do w <- get_world ;;
  do question <- lift (match help_requests w !! request_id with
                    | Some current_doc => snapshot_get current_doc "question"
                    | None => Ok VNone
                    end) ;;
  do r <- lift (validate_opt_str response) ;;
  do q <- lift (validate_opt_str question) ;;
  do _ <- update_help_request e request_id
         {| id := None; caller_details := None; question := q; context := None;
            status := "resolved"; supervisor_response := r |} ;;
  broadcast e (supervisor_response_event request_id response question).

(** *** Knowledge base *)

(** [add_predefined_knowledge(entry)]. *)
Definition add_predefined_knowledge (e : env) (entry : KnowledgeBaseEntry)
  : M content :=
  try_except
    (let entry := {| kb_question := kb_question entry;
                     kb_answer := kb_answer entry;
                     kb_confidence := kb_confidence entry;
                     kb_last_updated := kb_last_updated entry;
                     kb_source := "predefined";
                     kb_verified := true |} in
     exec store e ApkSet ;;
     exec modify (set_knowledge_base
            (<[auto_id e := list_to_map (KnowledgeBaseEntry_dict entry)]>)) ;;
     ret (Message "Predefined knowledge entry added"))
    (fun ex => raise (HTTPException 500 (StrOf ex))).

(** [entry.get(k, default)]. *)
Definition get_default (entry : doc) (k : string) (default : value) : value :=
  match entry !! k with
  | Some v => v
  | None => default
  end.

(** The [new_entry] dict of [add_learned_knowledge]; the three required
    fields are given. *)
Definition new_entry (e : env) (entry : doc) (question answer confidence : value)
  : doc :=
  list_to_map
    [("question", question);
     ("answer", answer);
     ("confidence", confidence);
     ("verified", get_default entry "verified" (VBool false));
     ("last_updated", get_default entry "last_updated" (VStr (now e)));
     ("times_used", VInt 0);
     ("success_rate", VFloat 1);
     ("source_request_id", get_default entry "source_request_id" (VStr ""));
     ("supervisor_id", get_default entry "supervisor_id" VNone)].

(** [add_learned_knowledge(entry)]. *)
Definition add_learned_knowledge (e : env) (entry : doc) : M content :=
  try_except
    (match entry !! "question", entry !! "answer", entry !! "confidence" with
     | Some question, Some answer, Some confidence =>
       exec store e AlkSet ;;
       exec modify (set_learned_knowledge
              (<[auto_id e := new_entry e entry question answer confidence]>)) ;;
       ret (MessageId "Learned knowledge entry added" (auto_id e))
     | _, _, _ =>
       raise (HTTPException 422 (Text "Missing required fields"))
     end)
    (fun ex => raise (HTTPException 500 (StrOf ex))).

(** *** LiveKit webhook *)

(** The parts of the HTTP request the webhook reads. *)
Record Request := {
  LiveKit_Signature : option string;  (* request.headers.get("LiveKit-Signature") *)
  body : string                        (* await request.body() *)
}.

Section Webhook.

(** base64 of the HMAC-SHA256 of the body under the secret. *)
Variable hmac_sha256_b64 : string -> string -> string.
(** [json.loads], [None] when it raises. *)
Variable json_loads : string -> option value.
(** Whether [body.decode()] succeeds. *)
Variable utf8 : string -> bool.

(** [verify_livekit_signature(request, body)].  [hmac.compare_digest]
    raises [TypeError] on a string that is not ASCII. *)
Definition verify_livekit_signature (e : env) (request : Request) (body : string)
  : result bool :=
  match LiveKit_Signature request with
  | None => Ok false
  | Some signature =>
    if bool_decide (signature = "") then Ok false
    else
      match LIVEKIT_API_SECRET e with
      | None => Ok false
      | Some api_secret =>
        if bool_decide (api_secret = "") then Ok false
        else
          let expected_b64 := hmac_sha256_b64 api_secret body in
          if is_ascii signature && is_ascii expected_b64
          then Ok (bool_decide (signature = expected_b64))
          else Raise TypeError
      end
  end.

(** The [LiveKitWebhook] model built from the keys of [data]. *)
Definition LiveKitWebhook_validate (data : value) : result LiveKitWebhook :=
  match data with
  | VDict kvs =>
    match assoc "event" kvs, assoc "room" kvs with
    | Some (VStr ev), Some (VDict rm) =>
      match validate_opt_dict (assoc "participant" kvs),
            validate_opt_dict (assoc "track" kvs),
            validate_opt_dict (assoc "recording" kvs) with
      | Ok p, Ok t, Ok r =>
        Ok {| event := ev; room := rm; participant := p;
              track := t; recording := r |}
      | _, _, _ => Raise ValidationError
      end
    | _, _ => Raise ValidationError
    end
  | _ => Raise TypeError
  end.

(** [webhook.participant['identity']]. *)
Definition participant_identity (webhook : LiveKitWebhook) : result value :=
  match participant webhook with
  | None => Raise TypeError
  | Some p =>
    match assoc "identity" p with
    | Some v => Ok v
    | None => Raise (KeyError "identity")
    end
  end.

(** [webhook.room['name']]. *)
Definition room_name (webhook : LiveKitWebhook) : result value :=
  match assoc "name" (room webhook) with
  | Some v => Ok v
  | None => Raise (KeyError "name")
  end.

Definition participant_event (type : string) (webhook : LiveKitWebhook) : value :=
  VDict [("type", VStr type);
         ("data", VDict [("participant", opt_dict (participant webhook));
                         ("room", VDict (room webhook))])].

(** [livekit_webhook(request)]. *)
Definition livekit_webhook (e : env) (request : Request) : M content :=
  try_except
    (let body := body request in
     exec (if utf8 body then ret tt else raise UnicodeDecodeError) ;;
     do verified <- lift (verify_livekit_signature e request body) ;;
     if negb verified then raise (HTTPException 401 (Text "Invalid signature"))
     else
       do data <- lift (match json_loads body with
                     | Some v => Ok v
                     | None => Raise JSONDecodeError
                     end) ;;
       do webhook <- lift (LiveKitWebhook_validate data) ;;
       exec (if bool_decide (event webhook = "room.participant_joined") then
               do _ <- lift (participant_identity webhook) ;;
               broadcast e (participant_event "participant_joined" webhook)
             else if bool_decide (event webhook = "room.participant_left") then
               do _ <- lift (participant_identity webhook) ;;
               broadcast e (participant_event "participant_left" webhook)
             else if bool_decide (event webhook = "room.recording_started") then
               do _ <- lift (room_name webhook) ;; ret tt
             else if bool_decide (event webhook = "room.recording_finished") then
               do _ <- lift (room_name webhook) ;; ret tt
             else ret tt) ;;
       ret (Status "success"))
    (fun ex => raise (HTTPException 500 (StrOf ex))).

End Webhook.

End Server.

(** ** backend/server.py: listing, search and maintenance endpoints *)

Module Endpoints.
Import Server.

(** Whether the Firestore calls of one handler call raise: its read
    ([get] or [stream]) and its write ([set], [update] or [delete]). *)
Record faults := {
  read_fails : bool;
  write_fails : bool
}.

Definition read (f : faults) : M unit :=
  if read_fails f then raise StoreError else ret tt.

Definition write (f : faults) : M unit :=
  if write_fails f then raise StoreError else ret tt.

(** [[doc.to_dict() for doc in collection.stream()]]: the stored
    documents without their ids.  Firestore's order is not modelled;
    the list is in the order of [map_to_list]. *)
Definition stream (c : collection) : list doc := (map_to_list c).*2.

(** [.where(k, '==', s)] on one document, for a string [s]. *)
Definition field_is (k s : string) (d : doc) : bool :=
  match d !! k with
  | Some (VStr s') => bool_decide (s' = s)
  | _ => false
  end.

(** [get_help_requests(status)]. *)
Definition get_help_requests (f : faults) (status : option string)
  : M (list doc) :=
  try_except
    (do w <- get_world ;;
     exec read f ;;
     ret (match status with
          | Some s =>
            if bool_decide (s = "") then stream (help_requests w)
            else List.filter (field_is "status" s) (stream (help_requests w))
          | None => stream (help_requests w)
          end))
    (fun ex => raise (HTTPException 500 (StrOf ex))).

(** [get_predefined_knowledge()]. *)
Definition get_predefined_knowledge (f : faults) : M (list doc) :=
  try_except
    (do w <- get_world ;;
     exec read f ;;
     ret (List.filter (field_is "source" "predefined")
            (stream (knowledge_base w))))
    (fun ex => raise (HTTPException 500 (StrOf ex))).

(** [get_learned_knowledge()]. *)
Definition get_learned_knowledge (f : faults) : M (list doc) :=
  try_except
    (do w <- get_world ;;
     exec read f ;;
     ret (stream (learned_knowledge w)))
    (fun ex => raise (HTTPException 500 (StrOf ex))).

(** [a in b] on strings. *)
Fixpoint is_prefix (a b : string) : bool :=
  match a, b with
  | EmptyString, _ => true
  | String x a', String y b' => Ascii.eqb x y && is_prefix a' b'
  | String _ _, EmptyString => false
  end.

Fixpoint is_substring (a b : string) : bool :=
  is_prefix a b
  || match b with
     | EmptyString => false
     | String _ b' => is_substring a b'
     end.

(** The name Python prints for the type of a value. *)
Definition type_name (v : value) : string :=
  match v with
  | VNone => "NoneType"
  | VBool _ => "bool"
  | VStr _ => "str"
  | VInt _ => "int"
  | VFloat _ => "float"
  | VDict _ => "dict"
  | VList _ => "list"
  end.

Section Search.

(** [str.lower]. *)
Variable lower : string -> string.

(** [query.lower() in entry['question'].lower()], or [str(e)] of the
    exception it raises: [KeyError] without the key, [AttributeError]
    when the question is not a string. *)
Definition matches (query : string) (entry : doc) : bool + detail :=
  match entry !! "question" with
  | None => inr (StrOf (KeyError "question"))
  | Some (VStr q) => inl (is_substring (lower query) (lower q))
  | Some v =>
    inr (Text (String.append "'"
                 (String.append (type_name v)
                    "' object has no attribute 'lower'")))
  end.

(** [[entry for entry in entries if query.lower() in
    entry['question'].lower()]]: the first entry that raises ends it. *)
Fixpoint comprehension (query : string) (entries : list doc)
  : list doc + detail :=
  match entries with
  | [] => inl []
  | entry :: rest =>
    match matches query entry with
    | inr d => inr d
    | inl keep =>
      match comprehension query rest with
      | inr d => inr d
      | inl kept => inl (if keep then entry :: kept else kept)
      end
    end
  end.

(** The body shared by [search_knowledge_base] and
    [search_learned_knowledge], on the collection [c] selects. *)
Definition search (c : world -> collection) (f : faults) (query : option string)
  : M (list doc) :=
  fun w =>
    if read_fails f then (Raise (HTTPException 500 (StrOf StoreError)), w)
    else
      let entries := stream (c w) in
      match query with
      | Some q =>
        if bool_decide (q = "") then (Ok entries, w)
        else match comprehension q entries with
             | inl found => (Ok found, w)
             | inr d => (Raise (HTTPException 500 d), w)
             end
      | None => (Ok entries, w)
      end.

(** [search_knowledge_base(query)]. *)
Definition search_knowledge_base := search knowledge_base.

(** [search_learned_knowledge(query)]. *)
Definition search_learned_knowledge := search learned_knowledge.

End Search.

(** [verify_learned_entry(entry_id, verified)].  [doc_ref.update] of a
    document that does not exist raises. *)
Definition verify_learned_entry (f : faults) (e : env)
    (entry_id : string) (verified : bool) : M content :=
  try_except
    (exec write f ;;
     do w <- get_world ;;
     match learned_knowledge w !! entry_id with
     | None => raise StoreError
     | Some d =>
       exec modify (set_learned_knowledge
              (<[entry_id :=
                   ({[ "verified" := VBool verified;
                       "last_updated" := VStr (now e) ]} : doc) ∪ d]>)) ;;
       ret (Message "Learned knowledge entry verified")
     end)
    (fun ex => raise (HTTPException 500 (StrOf ex))).

(** The body shared by [update_knowledge_entry] and
    [update_predefined_knowledge]: [fields] is what [entry.dict()]
    holds when [doc_ref.update] is called. *)
Definition update_entry (f : faults) (entry_id : string)
    (fields : list (string * value)) (message : string) : M content :=
  try_except
    (exec read f ;;
     do w <- get_world ;;
     match knowledge_base w !! entry_id with
     | None => raise (HTTPException 404 (Text "Entry not found"))
     | Some d =>
       exec write f ;;
       exec modify (set_knowledge_base
              (<[entry_id := (list_to_map fields : doc) ∪ d]>)) ;;
       ret (Message message)
     end)
    (fun ex => raise (HTTPException 500 (StrOf ex))).

(** [update_knowledge_entry(entry_id, entry)]. *)
Definition update_knowledge_entry (f : faults) (entry_id : string)
    (entry : KnowledgeBaseEntry) : M content :=
  update_entry f entry_id (KnowledgeBaseEntry_dict entry)
    "Knowledge base entry updated".

(** [update_predefined_knowledge(entry_id, entry)]. *)
Definition update_predefined_knowledge (f : faults) (entry_id : string)
    (entry : KnowledgeBaseEntry) : M content :=
  update_entry f entry_id
    (KnowledgeBaseEntry_dict
       {| kb_question := kb_question entry; kb_answer := kb_answer entry;
          kb_confidence := kb_confidence entry;
          kb_last_updated := kb_last_updated entry;
          kb_source := "predefined"; kb_verified := true |})
    "Predefined knowledge entry updated".

(** The body shared by the three delete handlers, on the collection
    [c] selects and [set_c] writes. *)
Definition delete_entry (c : world -> collection)
    (set_c : (collection -> collection) -> world -> world)
    (f : faults) (entry_id : string) (answer : content) : M content :=
  try_except
    (exec read f ;;
     do w <- get_world ;;
     match c w !! entry_id with
     | None => raise (HTTPException 404 (Text "Entry not found"))
     | Some _ =>
       exec write f ;;
       exec modify (set_c (delete entry_id)) ;;
       ret answer
     end)
    (fun ex => raise (HTTPException 500 (StrOf ex))).

(** [delete_knowledge_entry(entry_id)]. *)
Definition delete_knowledge_entry (f : faults) (entry_id : string) : M content :=
  delete_entry knowledge_base set_knowledge_base f entry_id
    (Message "Knowledge base entry deleted").

(** [delete_predefined_knowledge(entry_id)]. *)
Definition delete_predefined_knowledge (f : faults) (entry_id : string)
  : M content :=
  delete_entry knowledge_base set_knowledge_base f entry_id
    (Message "Predefined knowledge entry deleted").

(** [delete_learned_knowledge(entry_id)]. *)
Definition delete_learned_knowledge (f : faults) (entry_id : string)
  : M content :=
  delete_entry learned_knowledge set_learned_knowledge f entry_id
    (MessageId "Learned knowledge entry deleted successfully" entry_id).

(** The [update_data] dict of [update_learned_knowledge]; the three
    required fields are given. *)
Definition learned_update_data (e : env) (entry : doc)
    (question answer confidence : value) : doc :=
  list_to_map
    [("question", question);
     ("answer", answer);
     ("confidence", confidence);
     ("verified", get_default entry "verified" (VBool false));
     ("last_updated", VStr (now e));
     ("times_used", get_default entry "times_used" (VInt 0));
     ("success_rate", get_default entry "success_rate" (VFloat 1))].

(** [update_learned_knowledge(entry_id, entry)].  Its first handler
    re-raises an [HTTPException] as it is; only other exceptions become
    a 500. *)
Definition update_learned_knowledge (f : faults) (e : env)
    (entry_id : string) (entry : doc) : M content :=
  try_except
    (if bool_decide (entry_id = "") || bool_decide (entry_id = "undefined")
     then raise (HTTPException 400 (Text "Invalid entry ID"))
     else
       exec read f ;;
       do w <- get_world ;;
       match learned_knowledge w !! entry_id with
       | None => raise (HTTPException 404 (Text "Entry not found"))
       | Some d =>
         match entry !! "question", entry !! "answer", entry !! "confidence" with
         | Some question, Some answer, Some confidence =>
           exec write f ;;
           exec modify (set_learned_knowledge
                  (<[entry_id :=
                       learned_update_data e entry question answer confidence
                       ∪ d]>)) ;;
           ret (MessageId "Learned knowledge entry updated successfully" entry_id)
         | _, _, _ =>
           raise (HTTPException 422 (Text "Missing required fields"))
         end
       end)
    (fun ex =>
       match ex with
       | HTTPException _ _ => raise ex
       | _ => raise (HTTPException 500 (StrOf ex))
       end).

(** The JSON body of the agent's usage report, as
    [update_learned_knowledge] receives it. *)
Definition usage_put_body (p : Agent.usage_put) : doc :=
  list_to_map
    [("question", VStr (Agent.put_question p));
     ("answer", VStr (Agent.put_answer p));
     ("confidence", VFloat (Agent.put_confidence p));
     ("verified", VBool (Agent.put_verified p));
     ("times_used", VInt (Agent.put_times_used p));
     ("success_rate", VFloat (Agent.put_success_rate p))].

End Endpoints.

(** ** backend/agent.py: loading, learning from a reply, a caller's turn *)

Module AgentFlow.
Import Agent.

(** The HTTP requests the agent sends besides the usage report. *)
Inductive http_request :=
| PutHelpRequest (request_id status supervisor_response question : string)
| PostLearnedKnowledge (question answer : string) (confidence : Q)
    (verified : bool) (source_request_id : string) (times_used : Z)
    (success_rate : Q)
| PostHelpRequest (track_id : option string)
    (timestamp question context status : string).

(** What [requests.post] does: it raises, or answers with a status and,
    in its JSON body, an id or none. *)
Inductive http_outcome :=
| HttpRaises
| HttpStatus (status_code : Z) (json_id : option string).

(** What [requests.get] does, with the entries of its JSON body. *)
Inductive get_outcome (A : Type) :=
| GetRaises
| GetStatus (status_code : Z) (entries : list A).
Arguments GetRaises {A}.
Arguments GetStatus {A} status_code entries.

(** What one handler call meets outside the agent.  [ask_openai] is the
    value that method returns: it catches every exception itself, and
    what it computes is the LLM library's business. *)
Record env := {
  now : string;                  (* datetime.now().isoformat() *)
  lookup_put_raises : bool;      (* requests.put of the usage report raises *)
  put_raises : bool;             (* requests.put of the help request raises *)
  post : http_outcome;           (* requests.post *)
  generate_reply_raises : bool;  (* session.generate_reply raises *)
  llm_probe_raises : bool;       (* dir(self.session.llm.chat) raises *)
  ask_openai : option string
}.

(** The agent with what it has sent and said.  The agent runs inside a
    started session: [self.session] is set. *)
Record session := {
  knowledge : agent;
  requests : list http_request;
  spoken : list string
}.

Definition with_knowledge (a : agent) (s : session) : session :=
  {| knowledge := a; requests := requests s; spoken := spoken s |}.

Definition send (r : http_request) (s : session) : session :=
  {| knowledge := knowledge s; requests := requests s ++ [r];
     spoken := spoken s |}.

Definition apology : string :=
  "I apologize, but I'm having trouble processing your request. Please try again in a moment.".

Definition supervisor_line : string :=
  "Let me check with my supervisor and get back to you.".

(** [speak_response(text)]: a failing [generate_reply] is logged and
    swallowed. *)
Definition speak_response (e : env) (text : string) (s : session) : session :=
  if generate_reply_raises e then s
  else {| knowledge := knowledge s; requests := requests s;
          spoken := spoken s ++ [text] |}.

(** The string of an option that Python takes as true: present and
    not empty. *)
Definition non_empty (o : option string) : option string :=
  match o with
  | Some t => if bool_decide (t = "") then None else Some t
  | None => None
  end.

(** One entry of [GET /knowledge-base/predefined/]: the two keys
    [load_knowledge_bases] reads. *)
Record predefined_wire := {
  w_question : string;
  w_answer : string
}.

(** A dict comprehension: a later entry replaces an earlier one under
    the same key. *)
Definition dict_of {A B : Type} (key : A -> string) (val : A -> B)
    (entries : list A) : gmap string B :=
  foldl (fun m x => <[key x := val x]> m) ∅ entries.

Definition with_predefined (p : gmap string predefined_entry) (a : agent)
  : agent :=
  {| predefined_knowledge := p; learned_knowledge := learned_knowledge a;
     sent_puts := sent_puts a |}.

Definition with_learned (l : gmap string learned_entry) (a : agent) : agent :=
  {| predefined_knowledge := predefined_knowledge a; learned_knowledge := l;
     sent_puts := sent_puts a |}.

(** The content of a chat message: a string, or a list of strings. *)
Inductive message_content :=
| ContentStr (text : string)
| ContentList (parts : list string).

(** [" ".join(str(x) for x in user_text)] when the content is a list. *)
Definition flatten (c : message_content) : string :=
  match c with
  | ContentStr text => text
  | ContentList parts => String.concat " " parts
  end.

Section WithLower.

(** [str.lower]. *)
Variable lower : string -> string.

(** [load_knowledge_bases()], on responses whose entries have the keys
    it reads: a learned entry comes as its question and the six values
    kept for it.  Any exception ends the loading where it stands. *)
Definition load_knowledge_bases
    (predefined : get_outcome predefined_wire)
    (learned : get_outcome (string * learned_entry)) (a : agent) : agent :=
  match predefined with
  | GetRaises => a
  | GetStatus code entries =>
    let a :=
      if bool_decide (code = 200%Z)
      then with_predefined
             (dict_of (fun x => lower (w_question x))
                (fun x => {| p_answer := w_answer x; p_confidence := 1;
                             p_verified := true |}) entries) a
      else a in
    match learned with
    | GetRaises => a
    | GetStatus code' entries' =>
      if bool_decide (code' = 200%Z)
      then with_learned (dict_of (fun x => lower (fst x)) snd entries') a
      else a
    end
  end.

(** The payload of a supervisor_response event whose request_id and
    response are strings; [question] is [data.get("question", "")],
    [None] for a null. *)
Record supervisor_data := {
  request_id : string;
  response : string;
  question : option string
}.

(** [handle_supervisor_response(data)].  The entry kept in
    [self.learned_knowledge] is shown by the six keys the lookup
    reads. *)
Definition handle_supervisor_response (e : env) (data : supervisor_data)
    (s : session) : session :=
  match non_empty (question data) with
  | None => s
  | Some q =>
    if put_raises e then s
    else
      let s := send (PutHelpRequest (request_id data) "resolved"
                       (response data) q) s in
      match post e with
      | HttpRaises => s
      | HttpStatus code json_id =>
        let s := send (PostLearnedKnowledge q (response data) 1 false
                         (request_id data) 0 1) s in
        let s :=
          if bool_decide (code = 200%Z)
          then with_knowledge
                 (set_learned (lower q)
                    {| answer := response data; confidence := 1;
                       verified := false; times_used := 0; success_rate := 1;
                       id := json_id |} (knowledge s)) s
          else s in
        speak_response e (response data) s
      end
  end.

(** [f"Call from track {track_id}"]. *)
Definition call_context (track_id : option string) : string :=
  String.append "Call from track "
    (match track_id with Some t => t | None => "None" end).

(** [create_help_request(question, track_id)]. *)
Definition create_help_request (e : env) (question : string)
    (track_id : option string) (s : session) : session :=
  match post e with
  | HttpRaises => speak_response e apology s
  | HttpStatus code _ =>
    let s := send (PostHelpRequest track_id (now e) question
                     (call_context track_id) "pending") s in
    if bool_decide (code = 200%Z) then speak_response e supervisor_line s
    else speak_response e apology s
  end.

(** [on_user_turn_completed(turn_ctx, new_message)], from the track id
    of the turn and the content of the message. *)
Definition on_user_turn_completed (e : env) (track_id : option string)
    (new_message : message_content) (s : session) : session :=
  let user_text := flatten new_message in
  let (answer, a) :=
    check_knowledge_base lower (lookup_put_raises e) user_text (knowledge s) in
  let s := with_knowledge a s in
  match non_empty answer with
  | Some text => speak_response e text s
  | None =>
    if llm_probe_raises e then speak_response e apology s
    else
      match non_empty (ask_openai e) with
      | Some text => speak_response e text s
      | None => create_help_request e user_text track_id s
      end
  end.

End WithLower.

End AgentFlow.

(** ** Concrete states used to run the programs *)

(** A learned entry that sits exactly on both thresholds. *)
Definition boundary_entry : Agent.learned_entry :=
  {| Agent.answer := "9am-6pm Mon-Sat"; Agent.confidence := float_0_8;
     Agent.verified := false; Agent.times_used := 0;
     Agent.success_rate := float_0_8; Agent.id := Some "k1" |}.

(** A learned entry fresh from a resolution: confidence and success rate 1. *)
Definition fresh_entry : Agent.learned_entry :=
  {| Agent.answer := "Yes, on Sundays too"; Agent.confidence := 1;
     Agent.verified := false; Agent.times_used := 0;
     Agent.success_rate := 1; Agent.id := Some "k2" |}.

Definition hours_entry : Agent.predefined_entry :=
  {| Agent.p_answer := "We open at 9am"; Agent.p_confidence := 1;
     Agent.p_verified := true |}.

Definition agent0 : Agent.agent :=
  {| Agent.predefined_knowledge := {[ "when do you open?" := hours_entry ]};
     Agent.learned_knowledge :=
       {[ "what are your hours?" := boundary_entry;
          "are you open on sunday?" := fresh_entry;
          "when do you open?" := fresh_entry ]};
     Agent.sent_puts := [] |}.

(** A call environment in which nothing fails. *)
Definition env_ok (auto_id : string) : Server.env :=
  {| Server.now := "2025-01-01T10:00:00";
     Server.import_time := "2025-01-01T09:00:00";
     Server.auto_id := auto_id;
     Server.store_fails := fun _ => false;
     Server.send_fails := fun _ => false;
     Server.accept_fails := fun _ => false;
     Server.LIVEKIT_API_SECRET := Some "secret" |}.

(** The same, except that the send to connection [c] raises. *)
Definition env_send_fails (c : Server.conn) : Server.env :=
  {| Server.now := "2025-01-01T10:00:00";
     Server.import_time := "2025-01-01T09:00:00";
     Server.auto_id := "k1";
     Server.store_fails := fun _ => false;
     Server.send_fails := fun c' => bool_decide (c' = c);
     Server.accept_fails := fun _ => false;
     Server.LIVEKIT_API_SECRET := Some "secret" |}.

(** The same as [env_ok], except that writing the learned entry raises. *)
Definition env_insert_fails : Server.env :=
  {| Server.now := "2025-01-01T10:00:00";
     Server.import_time := "2025-01-01T09:00:00";
     Server.auto_id := "k1";
     Server.store_fails :=
       fun c => match c with Server.UkbSet => true | _ => false end;
     Server.send_fails := fun _ => false;
     Server.accept_fails := fun _ => false;
     Server.LIVEKIT_API_SECRET := Some "secret" |}.

(** A help request as the agent creates it, stored under id r1. *)
Definition pending_request : Server.HelpRequest :=
  {| Server.id := Some "r1";
     Server.caller_details := Some [("track_id", VStr "t1")];
     Server.question := Some "What are your hours?";
     Server.context := Some "Call from track t1";
     Server.status := "pending";
     Server.supervisor_response := None |}.

Definition world0 : Server.world :=
  {| Server.help_requests :=
       {[ "r1" := list_to_map (Server.HelpRequest_dict pending_request) ]};
     Server.knowledge_base := ∅;
     Server.learned_knowledge := ∅;
     Server.active_connections := [1; 2; 3]%nat;
     Server.delivered := [] |}.

(** The payload of a supervisor's reply to request r1. *)
Definition reply (response : string) : gmap string value :=
  {[ "request_id" := VStr "r1"; "response" := VStr response ]}.

(** The PUT body that resolves a request with [response]. *)
Definition resolving (response : string) : Server.HelpRequest :=
  {| Server.id := None; Server.caller_details := None;
     Server.question := Some "What are your hours?"; Server.context := None;
     Server.status := "resolved";
     Server.supervisor_response := Some response |}.

(** [world0] after the PUT that resolves r1 with the answer 9am-6pm. *)
Definition world0_updated : Server.world :=
  snd (Server.update_help_request (env_ok "k1") "r1" (resolving "9am-6pm") world0).

(** [world0] after a first resolution of r1 with the answer 9am-6pm. *)
Definition world1 : Server.world :=
  snd (Server.handle_supervisor_response (env_ok "k1") (reply "9am-6pm") world0).

(** A learned entry posted for a question that [world1] already holds. *)
Definition posted_entry : gmap string value :=
  {[ "question" := VStr "What are your hours?";
     "answer" := VStr "Closed today";
     "confidence" := VFloat 1 ]}.

(** A predefined entry, posted twice below. *)
Definition posted_predefined : Server.KnowledgeBaseEntry :=
  {| Server.kb_question := "When do you open?";
     Server.kb_answer := "We open at 9am";
     Server.kb_confidence := 1;
     Server.kb_last_updated := "2025-01-01T09:00:00";
     Server.kb_source := "predefined";
     Server.kb_verified := true |}.

(** A webhook request without signature header. *)
Definition unsigned_request : Server.Request :=
  {| Server.LiveKit_Signature := None;
     Server.body := "{}" |}.

(** Stand-ins for the libraries, to run the webhook on one body: a
    digest function and a JSON reader that knows that body. *)
Definition toy_hmac (secret body : string) : string := "c2lnbmVk".

Definition joined_body : string := "{participant joined}".

Definition joined_data : value :=
  VDict [("event", VStr "room.participant_joined");
         ("room", VDict [("name", VStr "salon")]);
         ("participant", VDict [("identity", VStr "caller-1")])].

Definition toy_json_loads (s : string) : option value :=
  if bool_decide (s = joined_body) then Some joined_data else None.

Definition toy_utf8 (s : string) : bool := true.

(** A webhook request carrying the digest [toy_hmac] computes. *)
Definition signed_request : Server.Request :=
  {| Server.LiveKit_Signature := Some "c2lnbmVk";
     Server.body := joined_body |}.

(** A server started without LIVEKIT_API_SECRET. *)
Definition env_no_secret : Server.env :=
  {| Server.now := "2025-01-01T10:00:00";
     Server.import_time := "2025-01-01T09:00:00";
     Server.auto_id := "k1";
     Server.store_fails := fun _ => false;
     Server.send_fails := fun _ => false;
     Server.accept_fails := fun _ => false;
     Server.LIVEKIT_API_SECRET := None |}.

(** A posted learned entry that brings its own counters and an extra
    key. *)
Definition posted_with_counters : gmap string value :=
  {[ "question" := VStr "Do you take walk-ins?";
     "answer" := VStr "Yes";
     "confidence" := VFloat (1 # 2);
     "times_used" := VInt 40;
     "success_rate" := VFloat (1 # 10);
     "note" := VStr "from the console" ]}.

(** Firestore answering every call of a maintenance handler. *)
Definition no_faults : Endpoints.faults :=
  {| Endpoints.read_fails := false; Endpoints.write_fails := false |}.

(** A posted learned entry whose question is null. *)
Definition posted_null_question : gmap string value :=
  {[ "question" := VNone; "answer" := VStr "Yes"; "confidence" := VFloat 1 ]}.

(** An agent whose only learned entry is [fresh_entry], and a server
    that stores that entry under the same id k2. *)
Definition agent1 : Agent.agent :=
  {| Agent.predefined_knowledge := ∅;
     Agent.learned_knowledge := {[ "are you open on sunday?" := fresh_entry ]};
     Agent.sent_puts := [] |}.

Definition world2 : Server.world :=
  {| Server.help_requests := ∅;
     Server.knowledge_base := ∅;
     Server.learned_knowledge :=
       {[ "k2" := list_to_map
                    (Server.LearnedKnowledgeEntry_dict (env_ok "k2")
                       "Are you open on Sunday?" "Yes, on Sundays too" 1 "r7") ]};
     Server.active_connections := [];
     Server.delivered := [] |}.

(** An agent session that knows [agent0] and has sent and said nothing. *)
Definition session0 : AgentFlow.session :=
  {| AgentFlow.knowledge := agent0; AgentFlow.requests := [];
     AgentFlow.spoken := [] |}.

(** A call in which every request is answered 200, the LLM has no
    answer and speaking works. *)
Definition flow_ok : AgentFlow.env :=
  {| AgentFlow.now := "2025-01-01T10:00:00";
     AgentFlow.lookup_put_raises := false;
     AgentFlow.put_raises := false;
     AgentFlow.post := AgentFlow.HttpStatus 200 (Some "k3");
     AgentFlow.generate_reply_raises := false;
     AgentFlow.llm_probe_raises := false;
     AgentFlow.ask_openai := None |}.

(** The supervisor_response event for a question the agent has not
    learned. *)
Definition walk_in_reply : AgentFlow.supervisor_data :=
  {| AgentFlow.request_id := "r3";
     AgentFlow.response := "Yes, walk-ins are welcome";
     AgentFlow.question := Some "Do you take Walk-Ins?" |}.

(** A predefined listing in which one question comes twice. *)
Definition predefined_listing : list AgentFlow.predefined_wire :=
  [ {| AgentFlow.w_question := "Where are you?";
       AgentFlow.w_answer := "12 Main Street" |};
    {| AgentFlow.w_question := "WHERE ARE YOU?";
       AgentFlow.w_answer := "14 Main Street" |};
    {| AgentFlow.w_question := "Do you sell wigs?";
       AgentFlow.w_answer := "No" |} ].

(** * Properties *)

Lemma py_gt_lt (x y : Q) : py_gt x y = true <-> (y < x)%Q.
Proof.
  unfold py_gt. rewrite negb_true_iff.
  destruct (Qle_bool x y) eqn:E.
  - apply Qle_bool_iff in E. split; [discriminate |].
    intros H. exfalso. exact (Qlt_not_le _ _ H E).
  - split; [intros _ | reflexivity].
    apply Qnot_le_lt. intros H. apply Qle_bool_iff in H. congruence.
Qed.

Lemma py_gt_eq_false (x y : Q) : (x == y)%Q -> py_gt x y = false.
Proof.
  intros H. destruct (py_gt x y) eqn:E; [| reflexivity].
  apply py_gt_lt in E. rewrite H in E. exfalso. exact (Qlt_irrefl _ E).
Qed.

Lemma trusted_iff (e : Agent.learned_entry) :
  Agent.trusted e = true <->
  Agent.verified e = true \/
  ((float_0_8 < Agent.confidence e)%Q /\ (float_0_8 < Agent.success_rate e)%Q).
Proof.
  unfold Agent.trusted.
  rewrite orb_true_iff, andb_true_iff, !py_gt_lt. reflexivity.
Qed.

(** ** The agent's lookup *)

(** A trusted learned answer is returned, its use is counted in the
    agent's dictionary and reported to the server. *)
Example check_knowledge_base_counts_use :
  let r := Agent.check_knowledge_base ascii_lower false
             "Are you open on Sunday?" agent0 in
  fst r = Some "Yes, on Sundays too" /\
  Agent.times_used <$>
    (Agent.learned_knowledge (snd r) !! "are you open on sunday?") = Some 1%Z /\
  Agent.put_times_used <$> Agent.sent_puts (snd r) = [1%Z].
Proof. vm_compute. repeat split. Qed.

(** A failing report does not change the answer. *)
Example check_knowledge_base_put_raises :
  let r := Agent.check_knowledge_base ascii_lower true
             "Are you open on Sunday?" agent0 in
  fst r = Some "Yes, on Sundays too" /\ Agent.sent_puts (snd r) = [].
Proof. vm_compute. repeat split. Qed.

(** An unknown question is a miss and leaves the agent as it was. *)
Example check_knowledge_base_unknown :
  Agent.check_knowledge_base ascii_lower false "Do you sell wigs?" agent0
  = (None, agent0).
Proof. reflexivity. Qed.

Lemma check_knowledge_base_learned (lower : string -> string)
    (put_raises : bool) (query : string) (a : Agent.agent)
    (entry : Agent.learned_entry) :
  Agent.predefined_knowledge a !! lower query = None ->
  Agent.learned_knowledge a !! lower query = Some entry ->
  fst (Agent.check_knowledge_base lower put_raises query a) =
  if Agent.trusted entry then Some (Agent.answer entry) else None.
Proof.
  intros Hpre Hlearned. unfold Agent.check_knowledge_base.
  rewrite Hpre, Hlearned. destruct (Agent.trusted entry); reflexivity.
Qed.

(** C1. When the lower-cased query misses the predefined tier and hits
    the learned entry [entry], [check_knowledge_base] returns the entry's
    answer exactly when the entry is verified or both its confidence and
    its success rate are strictly above 0.8; otherwise it returns [None].
    An unverified entry whose confidence or success rate equals 0.8 is a
    miss. *)
Theorem check_knowledge_base_learned_policy (lower : string -> string)
    (put_raises : bool) (query : string) (a : Agent.agent)
    (entry : Agent.learned_entry) :
  Agent.predefined_knowledge a !! lower query = None ->
  Agent.learned_knowledge a !! lower query = Some entry ->
  let answer := fst (Agent.check_knowledge_base lower put_raises query a) in
  (answer = Some (Agent.answer entry) <->
   Agent.verified entry = true \/
   ((float_0_8 < Agent.confidence entry)%Q /\
    (float_0_8 < Agent.success_rate entry)%Q)) /\
  (answer = Some (Agent.answer entry) \/ answer = None) /\
  (Agent.verified entry = false ->
   (Agent.confidence entry == float_0_8)%Q \/
   (Agent.success_rate entry == float_0_8)%Q ->
   answer = None).
Proof.
  intros Hpre Hlearned answer. subst answer.
  rewrite (check_knowledge_base_learned _ _ _ _ _ Hpre Hlearned).
  rewrite <- trusted_iff.
  destruct (Agent.trusted entry) eqn:Ht.
  - split; [tauto |]. split; [now left |].
    intros Hv Hb. exfalso. unfold Agent.trusted in Ht. rewrite Hv in Ht.
    destruct Hb as [Hb | Hb]; rewrite (py_gt_eq_false _ _ Hb) in Ht;
      simpl in Ht; rewrite ?andb_false_r in Ht; discriminate.
  - split; [split; intros; discriminate |]. split; [now right | reflexivity].
Qed.

Lemma check_knowledge_base_learned_policy_witness :
  fst (Agent.check_knowledge_base ascii_lower false "What are your HOURS?" agent0)
  = None.
Proof.
  apply (check_knowledge_base_learned_policy ascii_lower false
           "What are your HOURS?" agent0 boundary_entry).
  - reflexivity.
  - reflexivity.
  - reflexivity.
  - left. reflexivity.
Defined.

(** C4. Whenever the lower-cased query is a key of the predefined tier,
    [check_knowledge_base] returns that entry's answer and leaves the
    agent untouched, whatever the learned tier holds for the same key. *)
Theorem check_knowledge_base_predefined_precedence (lower : string -> string)
    (put_raises : bool) (query : string) (a : Agent.agent)
    (entry : Agent.predefined_entry) :
  Agent.predefined_knowledge a !! lower query = Some entry ->
  Agent.check_knowledge_base lower put_raises query a
  = (Some (Agent.p_answer entry), a).
Proof.
  intros Hpre. unfold Agent.check_knowledge_base. rewrite Hpre. reflexivity.
Qed.

Lemma check_knowledge_base_predefined_precedence_witness :
  Agent.learned_knowledge agent0 !! "when do you open?" = Some fresh_entry /\
  Agent.check_knowledge_base ascii_lower false "When do you OPEN?" agent0
  = (Some "We open at 9am", agent0).
Proof.
  split; [reflexivity |].
  apply (check_knowledge_base_predefined_precedence ascii_lower false
           "When do you OPEN?" agent0 hours_entry).
  reflexivity.
Defined.

(** ** The connection manager *)

Lemma log_deliveries_nil (message : value) (w : Server.world) :
  Server.log_deliveries [] message w = w.
Proof.
  destruct w. unfold Server.log_deliveries. simpl. by rewrite app_nil_r.
Qed.

Lemma log_deliveries_cons (c : Server.conn) (cs : list Server.conn)
    (message : value) (w : Server.world) :
  Server.log_deliveries cs message (Server.log_delivery c message w)
  = Server.log_deliveries (c :: cs) message w.
Proof.
  unfold Server.log_deliveries, Server.log_delivery. simpl.
  by rewrite <- app_assoc.
Qed.

(** The loop delivers to every connection when no send raises. *)
Lemma send_all_ok (e : Server.env) (cs : list Server.conn) (message : value)
    (w : Server.world) :
  (forall c, c ∈ cs -> Server.send_fails e c = false) ->
  Server.send_all e cs message w
  = (Server.Ok tt, Server.log_deliveries cs message w).
Proof.
  revert w. induction cs as [| c cs IH]; intros w Hok; simpl.
  - by rewrite log_deliveries_nil.
  - unfold Server.bind, Server.send_text.
    rewrite (Hok c) by apply list_elem_of_here.
    unfold Server.modify. rewrite IH.
    + by rewrite log_deliveries_cons.
    + intros c' Hc'. apply Hok. by apply list_elem_of_further.
Qed.

(** The loop stops at the first connection whose send raises. *)
Lemma send_all_fail (e : Server.env) (pre : list Server.conn) (c : Server.conn)
    (post : list Server.conn) (message : value) (w : Server.world) :
  (forall c', c' ∈ pre -> Server.send_fails e c' = false) ->
  Server.send_fails e c = true ->
  Server.send_all e (pre ++ c :: post) message w
  = (Server.Raise (Server.WebSocketError c), Server.log_deliveries pre message w).
Proof.
  revert w. induction pre as [| p pre IH]; intros w Hok Hfail; simpl.
  - unfold Server.bind, Server.send_text. rewrite Hfail.
    unfold Server.raise. by rewrite log_deliveries_nil.
  - unfold Server.bind, Server.send_text.
    rewrite (Hok p) by apply list_elem_of_here.
    unfold Server.modify. rewrite IH; [| | exact Hfail].
    + by rewrite log_deliveries_cons.
    + intros c' Hc'. apply Hok. by apply list_elem_of_further.
Qed.

Lemma broadcast_ok (e : Server.env) (message : value) (w : Server.world) :
  (forall c, c ∈ Server.active_connections w -> Server.send_fails e c = false) ->
  Server.broadcast e message w
  = (Server.Ok tt,
     Server.log_deliveries (Server.active_connections w) message w).
Proof.
  intros Hok. unfold Server.broadcast, Server.bind, Server.get_world.
  by apply send_all_ok.
Qed.

(** C3, as the code has it.  [broadcast] sends in registration order and
    has no handler around the send: when the send to [c] raises after
    the sends to the connections [pre] registered before it succeeded,
    the exception leaves [broadcast], the message has reached exactly
    [pre], the connections [post] registered after [c] receive nothing,
    and the list of registered connections, [c] included, is unchanged. *)
Theorem broadcast_stops_at_first_failure (e : Server.env) (message : value)
    (w : Server.world) (pre : list Server.conn) (c : Server.conn)
    (post : list Server.conn) :
  Server.active_connections w = pre ++ c :: post ->
  (forall c', c' ∈ pre -> Server.send_fails e c' = false) ->
  Server.send_fails e c = true ->
  let r := Server.broadcast e message w in
  fst r = Server.Raise (Server.WebSocketError c) /\
  Server.delivered (snd r)
  = Server.delivered w ++ map (fun c' => (c', message)) pre /\
  Server.active_connections (snd r) = pre ++ c :: post /\
  Server.help_requests (snd r) = Server.help_requests w /\
  Server.learned_knowledge (snd r) = Server.learned_knowledge w.
Proof.
  intros Hconns Hok Hfail r. subst r.
  unfold Server.broadcast, Server.bind, Server.get_world.
  rewrite Hconns, (send_all_fail e pre c post message w Hok Hfail). simpl.
  rewrite Hconns. repeat split.
Qed.

Lemma broadcast_stops_at_first_failure_witness :
  let r := Server.broadcast (env_send_fails 2) (VStr "m") world0 in
  fst r = Server.Raise (Server.WebSocketError 2) /\
  Server.delivered (snd r) = [(1%nat, VStr "m")] /\
  Server.active_connections (snd r) = [1; 2; 3]%nat /\
  Server.help_requests (snd r) = Server.help_requests world0 /\
  Server.learned_knowledge (snd r) = Server.learned_knowledge world0.
Proof.
  apply (broadcast_stops_at_first_failure (env_send_fails 2) (VStr "m") world0
           [1%nat] 2%nat [3%nat]).
  - reflexivity.
  - intros c' Hc'. apply list_elem_of_singleton in Hc'. subst c'. reflexivity.
  - reflexivity.
Defined.

(** C3 fails on the code: with connections 1, 2, 3 registered and the
    send to 2 raising, connection 3 does not receive the message and
    connection 2 is still registered afterwards. *)
Lemma broadcast_failure_isolated_counterexample :
  let r := Server.broadcast (env_send_fails 2) (VStr "m") world0 in
  Server.active_connections world0 = [1; 2; 3]%nat /\
  Server.send_fails (env_send_fails 2) 3%nat = false /\
  fst r = Server.Raise (Server.WebSocketError 2) /\
  ((3%nat, VStr "m") ∉ Server.delivered (snd r)) /\
  (2%nat ∈ Server.active_connections (snd r)).
Proof.
  vm_compute. repeat split.
  - intros H. apply list_elem_of_singleton in H. discriminate.
  - apply list_elem_of_further, list_elem_of_here.
Qed.

Lemma list_remove_None (x : Server.conn) (l : list Server.conn) :
  Server.list_remove x l = None <-> x ∉ l.
Proof.
  induction l as [| y l IH]; simpl.
  - split; [intros _; apply not_elem_of_nil | reflexivity].
  - destruct (decide (y = x)) as [-> | Hne].
    + split; [discriminate |]. intros H. exfalso. apply H, list_elem_of_here.
    + destruct (Server.list_remove x l) eqn:E.
      * split; [discriminate |]. intros H. exfalso.
        assert (Hx : x ∉ l) by (intros Hin; apply H; by apply list_elem_of_further).
        apply IH in Hx. discriminate.
      * split; [| reflexivity]. intros _ Hin.
        apply elem_of_cons in Hin as [-> | Hin]; [by apply Hne |].
        by apply (proj1 IH).
Qed.

Lemma list_remove_Some (x : Server.conn) (l l' : list Server.conn) :
  Server.list_remove x l = Some l' ->
  exists pre post, l = pre ++ x :: post /\ (x ∉ pre) /\ l' = pre ++ post.
Proof.
  revert l'. induction l as [| y l IH]; intros l'; simpl; [discriminate |].
  destruct (decide (y = x)) as [-> | Hne].
  - intros [= <-]. exists [], l. split; [reflexivity |].
    split; [apply not_elem_of_nil | reflexivity].
  - destruct (Server.list_remove x l) as [r |] eqn:E; [| discriminate].
    intros [= <-]. destruct (IH r eq_refl) as (pre & post & -> & Hpre & ->).
    exists (y :: pre), post. split; [reflexivity |]. split; [| reflexivity].
    intros Hin. apply elem_of_cons in Hin as [-> | Hin]; [by apply Hne |].
    by apply Hpre.
Qed.

(** C9, as the code has it.  [disconnect(c)] removes the first
    occurrence of [c] from the list and keeps the other connections in
    order when [c] is registered; when [c] is not registered,
    [list.remove] raises [ValueError] and the list is unchanged. *)
Theorem disconnect_spec (c : Server.conn) (w : Server.world) :
  ((c ∈ Server.active_connections w) /\
   exists pre post,
     Server.active_connections w = pre ++ c :: post /\ (c ∉ pre) /\
     Server.disconnect c w
     = (Server.Ok tt, Server.set_active_connections (pre ++ post) w))
  \/
  ((c ∉ Server.active_connections w) /\
   Server.disconnect c w = (Server.Raise Server.ValueError, w)).
Proof.
  unfold Server.disconnect, Server.bind, Server.get_world.
  destruct (Server.list_remove c (Server.active_connections w)) as [l' |] eqn:E.
  - left. destruct (list_remove_Some _ _ _ E) as (pre & post & Hl & Hpre & ->).
    split.
    + rewrite Hl. apply elem_of_app. right. apply list_elem_of_here.
    + exists pre, post. repeat split; assumption.
  - right. split; [by apply list_remove_None | reflexivity].
Qed.

(** C9 fails on the code: unregistering connection 5, which is not
    registered, raises instead of doing nothing. *)
Lemma disconnect_absent_counterexample :
  (5%nat ∉ Server.active_connections world0) /\
  fst (Server.disconnect 5%nat world0) = Server.Raise Server.ValueError.
Proof.
  split; [| reflexivity].
  apply (proj1 (list_remove_None 5%nat (Server.active_connections world0))).
  reflexivity.
Qed.

(** ** Resolving a help request *)

(** The world after the merge write of [update_help_request]. *)
Lemma update_help_request_found (e : Server.env) (request_id : string)
    (request : Server.HelpRequest) (w : Server.world)
    (current_doc : gmap string value) :
  Server.store_fails e Server.UhrGet = false ->
  Server.store_fails e Server.UhrSet = false ->
  Server.help_requests w !! request_id = Some current_doc ->
  Server.update_help_request e request_id request w =
  match Server.if_resolved_update_knowledge_base e request_id request current_doc
          (Server.set_help_requests
             (<[request_id := Server.update_data e request ∪ current_doc]>) w) with
  | (Server.Ok _, w') =>
    (Server.Ok {| Server.status_code := 200;
                  Server.body_content :=
                    Server.MessageData "Help request updated"
                      (Server.update_data e request) |}, w')
  | (Server.Raise ex, w') =>
    (Server.Ok {| Server.status_code := 500;
                  Server.body_content := Server.Detail (Server.StrOf ex) |}, w')
  end.
Proof.
  intros Hget Hset Hdoc.
  unfold Server.update_help_request, Server.try_except, Server.bind,
    Server.store, Server.get_world, Server.modify, Server.ret.
  rewrite Hget. simpl. rewrite Hdoc, Hset. simpl.
  destruct (Server.if_resolved_update_knowledge_base _ _ _ _ _) as [[[] | ex] w'];
    reflexivity.
Qed.

(** An answer 200 comes from the path that found the document, wrote
    it, and went through the knowledge-base block without exception. *)
Lemma update_help_request_200 (e : Server.env) (request_id : string)
    (request : Server.HelpRequest) (w w' : Server.world)
    (resp : Server.JSONResponse) :
  Server.update_help_request e request_id request w = (Server.Ok resp, w') ->
  Server.status_code resp = 200%Z ->
  exists current_doc,
    Server.help_requests w !! request_id = Some current_doc /\
    Server.if_resolved_update_knowledge_base e request_id request current_doc
      (Server.set_help_requests
         (<[request_id := Server.update_data e request ∪ current_doc]>) w)
    = (Server.Ok tt, w').
Proof.
  unfold Server.update_help_request, Server.try_except, Server.bind,
    Server.store, Server.get_world, Server.modify, Server.ret, Server.raise.
  destruct (Server.store_fails e Server.UhrGet); simpl;
    [intros [= <- <-]; discriminate |].
  destruct (Server.help_requests w !! request_id) as [current_doc |];
    [| intros [= <- <-]; discriminate].
  destruct (Server.store_fails e Server.UhrSet); simpl;
    [intros [= <- <-]; discriminate |].
  destruct (Server.if_resolved_update_knowledge_base _ _ _ _ _)
    as [[[] | ex] w2] eqn:E; intros [= <- <-]; [| discriminate].
  intros _. exists current_doc. split; [reflexivity | exact E].
Qed.

(** The knowledge-base block on a resolving request whose stored
    question is a string, when the write succeeds. *)
Lemma if_resolved_inserts (e : Server.env) (request_id : string)
    (request : Server.HelpRequest) (current_doc : gmap string value)
    (response q : string) (w : Server.world) :
  Server.status request = "resolved" ->
  Server.supervisor_response request = Some response ->
  response <> "" ->
  current_doc !! "question" = Some (VStr q) ->
  Server.store_fails e Server.UkbSet = false ->
  Server.if_resolved_update_knowledge_base e request_id request current_doc w
  = (Server.Ok tt,
     Server.set_learned_knowledge
       (<[Server.auto_id e :=
            list_to_map
              (Server.LearnedKnowledgeEntry_dict e q response 1 request_id)]>) w).
Proof.
  intros Hst Hresp Hne Hq Hset.
  unfold Server.if_resolved_update_knowledge_base. rewrite Hresp, Hst.
  rewrite bool_decide_eq_true_2 by reflexivity.
  rewrite (bool_decide_eq_false_2 _ Hne). simpl.
  unfold Server.bind, Server.lift, Server.snapshot_get, Server.subscript.
  rewrite Hq. unfold Server.update_knowledge_base, Server.try_except,
    Server.bind, Server.lift, Server.store. simpl. rewrite Hset. reflexivity.
Qed.

(** The knowledge-base block on a resolving request when the insertion
    fails: the write raises, or the stored question is [None], which the
    entry model rejects.  Nothing is written and an [HTTPException] 500
    leaves the block. *)
Lemma if_resolved_insertion_fails (e : Server.env) (request_id : string)
    (request : Server.HelpRequest) (current_doc : gmap string value)
    (response : string) (qv : value) (w : Server.world) :
  Server.status request = "resolved" ->
  Server.supervisor_response request = Some response ->
  response <> "" ->
  current_doc !! "question" = Some qv ->
  (qv = VNone \/
   (exists q, qv = VStr q) /\ Server.store_fails e Server.UkbSet = true) ->
  exists ex,
    Server.if_resolved_update_knowledge_base e request_id request current_doc w
    = (Server.Raise (Server.HTTPException 500 (Server.FailedToUpdate ex)), w).
Proof.
  intros Hst Hresp Hne Hq Hfail.
  unfold Server.if_resolved_update_knowledge_base. rewrite Hresp, Hst.
  rewrite bool_decide_eq_true_2 by reflexivity.
  rewrite (bool_decide_eq_false_2 _ Hne). simpl.
  unfold Server.bind, Server.lift, Server.snapshot_get, Server.subscript.
  rewrite Hq. unfold Server.update_knowledge_base, Server.try_except,
    Server.bind, Server.lift, Server.store, Server.raise.
  destruct Hfail as [-> | [[q ->] Hset]]; simpl.
  - eexists. reflexivity.
  - rewrite Hset. eexists. reflexivity.
Qed.

(** What the knowledge-base block can have done when it returns. *)
Lemma if_resolved_ok_inv (e : Server.env) (request_id : string)
    (request : Server.HelpRequest) (current_doc : gmap string value)
    (w w' : Server.world) :
  Server.if_resolved_update_knowledge_base e request_id request current_doc w
  = (Server.Ok tt, w') ->
  (exists response q,
     Server.supervisor_response request = Some response /\
     Server.status request = "resolved" /\ response <> "" /\
     current_doc !! "question" = Some (VStr q) /\
     w' = Server.set_learned_knowledge
            (<[Server.auto_id e :=
                 list_to_map
                   (Server.LearnedKnowledgeEntry_dict e q response 1 request_id)]>) w)
  \/
  ((forall response,
      Server.supervisor_response request = Some response ->
      Server.status request = "resolved" -> response = "") /\
   w' = w).
Proof.
  unfold Server.if_resolved_update_knowledge_base.
  destruct (Server.supervisor_response request) as [response |];
    [| intros [= <-]; right; split; [discriminate | reflexivity]].
  destruct (bool_decide (Server.status request = "resolved")) eqn:Hst; simpl.
  2: { intros [= <-]. right. split; [| reflexivity].
       intros r _ Hres. apply bool_decide_eq_false in Hst. contradiction. }
  destruct (bool_decide (response = "")) eqn:Hne; simpl.
  { intros [= <-]. right. split; [| reflexivity].
    intros r [= <-] _. by apply bool_decide_eq_true in Hne. }
  apply bool_decide_eq_true in Hst. apply bool_decide_eq_false in Hne.
  unfold Server.bind, Server.lift, Server.snapshot_get, Server.subscript.
  destruct (current_doc !! "question") as [qv |]; [| discriminate].
  unfold Server.update_knowledge_base, Server.try_except, Server.bind,
    Server.lift, Server.store, Server.raise, Server.ret, Server.modify.
  destruct qv; simpl; try discriminate.
  destruct (Server.store_fails e Server.UkbSet); simpl; [discriminate |].
  intros [= <-]. left. exists response, s. repeat split; assumption.
Qed.

Lemma update_data_other (e : Server.env) (request : Server.HelpRequest)
    (k : string) :
  k <> "status" -> k <> "supervisor_response" -> k <> "timestamp" ->
  k <> "question" ->
  Server.update_data e request !! k = None.
Proof.
  intros H1 H2 H3 H4. unfold Server.update_data.
  destruct (Server.truthy (Server.question request));
    rewrite ?lookup_insert_ne by congruence; apply lookup_empty.
Qed.

Lemma update_data_written (e : Server.env) (request : Server.HelpRequest) :
  Server.update_data e request !! "status"
  = Some (VStr (Server.status request)) /\
  Server.update_data e request !! "supervisor_response"
  = Some (Server.opt_str (Server.supervisor_response request)) /\
  Server.update_data e request !! "timestamp" = Some (VStr (Server.now e)) /\
  Server.update_data e request !! "question"
  = if Server.truthy (Server.question request)
    then Some (Server.opt_str (Server.question request)) else None.
Proof.
  unfold Server.update_data.
  destruct (Server.truthy (Server.question request)); repeat split; reflexivity.
Qed.

(** C5. When [update_help_request] answers 200 to a resolving request
    (status resolved, non-empty supervisor response), the learned
    collection has gained, under the new document id, an entry whose
    confidence is 1.0, verified false, times_used 0, success_rate 1.0
    and source_request_id the request id; its answer is the supervisor
    response and its question the one stored with the request. *)
Theorem resolve_inserts_learned_entry (e : Server.env) (request_id : string)
    (request : Server.HelpRequest) (response : string)
    (w w' : Server.world) (resp : Server.JSONResponse) :
  Server.update_help_request e request_id request w = (Server.Ok resp, w') ->
  Server.status_code resp = 200%Z ->
  Server.status request = "resolved" ->
  Server.supervisor_response request = Some response ->
  response <> "" ->
  exists entry : gmap string value,
    Server.learned_knowledge w'
    = <[Server.auto_id e := entry]> (Server.learned_knowledge w) /\
    entry !! "confidence" = Some (VFloat 1) /\
    entry !! "verified" = Some (VBool false) /\
    entry !! "times_used" = Some (VInt 0) /\
    entry !! "success_rate" = Some (VFloat 1) /\
    entry !! "source_request_id" = Some (VStr request_id) /\
    entry !! "answer" = Some (VStr response) /\
    entry !! "question"
    = Server.field (Server.help_requests w) request_id "question".
Proof.
  intros Hrun H200 Hst Hresp Hne.
  destruct (update_help_request_200 _ _ _ _ _ _ Hrun H200)
    as (current_doc & Hdoc & Hkb).
  apply if_resolved_ok_inv in Hkb
    as [(r & q & Hr & _ & _ & Hq & ->) | [Hnot _]].
  - rewrite Hresp in Hr. injection Hr as <-.
    eexists. split; [reflexivity |].
    unfold Server.field. rewrite Hdoc, Hq. repeat split; reflexivity.
  - exfalso. apply Hne. by apply Hnot.
Qed.

Lemma resolve_inserts_learned_entry_witness :
  exists entry : gmap string value,
    Server.learned_knowledge world0_updated
    = <["k1" := entry]> (Server.learned_knowledge world0) /\
    entry !! "confidence" = Some (VFloat 1) /\
    entry !! "verified" = Some (VBool false) /\
    entry !! "times_used" = Some (VInt 0) /\
    entry !! "success_rate" = Some (VFloat 1) /\
    entry !! "source_request_id" = Some (VStr "r1") /\
    entry !! "answer" = Some (VStr "9am-6pm") /\
    entry !! "question"
    = Server.field (Server.help_requests world0) "r1" "question".
Proof.
  apply (resolve_inserts_learned_entry (env_ok "k1") "r1" (resolving "9am-6pm")
           "9am-6pm" world0 world0_updated
           {| Server.status_code := 200;
              Server.body_content :=
                Server.MessageData "Help request updated"
                  (Server.update_data (env_ok "k1") (resolving "9am-6pm")) |}).
  - vm_compute. reflexivity.
  - reflexivity.
  - reflexivity.
  - reflexivity.
  - discriminate.
Defined.

(** C10. When [update_help_request] answers 200, the stored request has
    the new status, supervisor_response and timestamp, and the new
    question when a non-empty one is supplied; every other field of the
    request (caller_details, context and id among them) and, without a
    non-empty question, the question field are as before, and the other
    requests are untouched. *)
Theorem update_help_request_frame (e : Server.env) (request_id : string)
    (request : Server.HelpRequest) (w w' : Server.world)
    (resp : Server.JSONResponse) :
  Server.update_help_request e request_id request w = (Server.Ok resp, w') ->
  Server.status_code resp = 200%Z ->
  let before := Server.field (Server.help_requests w) request_id in
  let after := Server.field (Server.help_requests w') request_id in
  (forall k, k <> "status" -> k <> "supervisor_response" -> k <> "timestamp" ->
             k <> "question" -> after k = before k) /\
  after "caller_details" = before "caller_details" /\
  after "context" = before "context" /\
  after "id" = before "id" /\
  after "status" = Some (VStr (Server.status request)) /\
  after "supervisor_response"
  = Some (Server.opt_str (Server.supervisor_response request)) /\
  after "timestamp" = Some (VStr (Server.now e)) /\
  after "question"
  = (if Server.truthy (Server.question request)
     then Some (Server.opt_str (Server.question request))
     else before "question") /\
  (forall other, other <> request_id ->
     Server.help_requests w' !! other = Server.help_requests w !! other).
Proof.
  intros Hrun H200 before after.
  destruct (update_help_request_200 _ _ _ _ _ _ Hrun H200)
    as (current_doc & Hdoc & Hkb).
  assert (Hhr : Server.help_requests w'
                = <[request_id := Server.update_data e request ∪ current_doc]>
                    (Server.help_requests w)).
  { apply if_resolved_ok_inv in Hkb as [(r & q & _ & _ & _ & _ & ->) | [_ ->]];
      reflexivity. }
  assert (Hafter : forall k,
             after k = (Server.update_data e request ∪ current_doc) !! k).
  { intros k. unfold after, Server.field. rewrite Hhr, lookup_insert_eq.
    reflexivity. }
  assert (Hbefore : forall k, before k = current_doc !! k).
  { intros k. unfold before, Server.field. rewrite Hdoc. reflexivity. }
  assert (Hframe : forall k, k <> "status" -> k <> "supervisor_response" ->
             k <> "timestamp" -> k <> "question" -> after k = before k).
  { intros k H1 H2 H3 H4. rewrite Hafter, Hbefore.
    apply lookup_union_r. by apply update_data_other. }
  destruct (update_data_written e request) as (Ws & Wr & Wt & Wq).
  split; [exact Hframe |].
  repeat split; try (apply Hframe; discriminate).
  - rewrite Hafter. by apply lookup_union_Some_l.
  - rewrite Hafter. by apply lookup_union_Some_l.
  - rewrite Hafter. by apply lookup_union_Some_l.
  - rewrite Hafter, Hbefore.
    destruct (Server.truthy (Server.question request)).
    + by apply lookup_union_Some_l.
    + by apply lookup_union_r.
  - intros other Hother. rewrite Hhr. by apply lookup_insert_ne.
Qed.

Lemma update_help_request_frame_witness :
  Server.field (Server.help_requests world0_updated) "r1" "caller_details"
  = Server.field (Server.help_requests world0) "r1" "caller_details".
Proof.
  apply (update_help_request_frame (env_ok "k1") "r1" (resolving "9am-6pm")
           world0 world0_updated
           {| Server.status_code := 200;
              Server.body_content :=
                Server.MessageData "Help request updated"
                  (Server.update_data (env_ok "k1") (resolving "9am-6pm")) |}).
  - vm_compute. reflexivity.
  - reflexivity.
Defined.

(** C2, as the code has it.  [update_help_request] never reads the
    stored status.  On a request whose stored status is not pending, a
    further resolving call is applied like the first one: it answers
    200, overwrites the stored supervisor_response with the new
    response, and inserts a further learned entry under the new document
    id.  The learned entries stored under other ids, the one of the
    first resolution among them, are unchanged. *)
Theorem second_resolve_is_applied (e : Server.env) (request_id : string)
    (request : Server.HelpRequest) (response stored_status q : string)
    (w : Server.world) :
  Server.field (Server.help_requests w) request_id "status"
  = Some (VStr stored_status) ->
  stored_status <> "pending" ->
  Server.field (Server.help_requests w) request_id "question" = Some (VStr q) ->
  Server.status request = "resolved" ->
  Server.supervisor_response request = Some response ->
  response <> "" ->
  Server.store_fails e Server.UhrGet = false ->
  Server.store_fails e Server.UhrSet = false ->
  Server.store_fails e Server.UkbSet = false ->
  let r := Server.update_help_request e request_id request w in
  (exists resp, fst r = Server.Ok resp /\ Server.status_code resp = 200%Z) /\
  Server.field (Server.help_requests (snd r)) request_id "status"
  = Some (VStr "resolved") /\
  Server.field (Server.help_requests (snd r)) request_id "supervisor_response"
  = Some (VStr response) /\
  Server.learned_knowledge (snd r)
  = <[Server.auto_id e :=
        list_to_map (Server.LearnedKnowledgeEntry_dict e q response 1 request_id)]>
      (Server.learned_knowledge w) /\
  (forall i, i <> Server.auto_id e ->
     Server.learned_knowledge (snd r) !! i = Server.learned_knowledge w !! i).
Proof.
  intros Hstatus _ Hq Hst Hresp Hne Hget Hset Hkb r. subst r.
  unfold Server.field in Hstatus, Hq.
  destruct (Server.help_requests w !! request_id) as [current_doc |] eqn:Hdoc;
    [| discriminate].
  rewrite (update_help_request_found _ _ _ _ _ Hget Hset Hdoc).
  rewrite (if_resolved_inserts _ _ _ _ _ _ _ Hst Hresp Hne Hq Hkb). simpl.
  destruct (update_data_written e request) as (Ws & Wr & _ & _).
  rewrite Hst in Ws. rewrite Hresp in Wr. simpl in Wr.
  split; [eexists; split; reflexivity |].
  unfold Server.field. rewrite lookup_insert_eq.
  split; [by apply lookup_union_Some_l |].
  split; [by apply lookup_union_Some_l |].
  split; [reflexivity |].
  intros i Hi. by apply lookup_insert_ne.
Qed.

Lemma second_resolve_is_applied_witness :
  let r := Server.update_help_request (env_ok "k2") "r1"
             (resolving "Closed today") world1 in
  (exists resp, fst r = Server.Ok resp /\ Server.status_code resp = 200%Z) /\
  Server.field (Server.help_requests (snd r)) "r1" "status"
  = Some (VStr "resolved") /\
  Server.field (Server.help_requests (snd r)) "r1" "supervisor_response"
  = Some (VStr "Closed today") /\
  Server.learned_knowledge (snd r)
  = <["k2" :=
        list_to_map
          (Server.LearnedKnowledgeEntry_dict (env_ok "k2")
             "What are your hours?" "Closed today" 1 "r1")]>
      (Server.learned_knowledge world1) /\
  (forall i, i <> "k2" ->
     Server.learned_knowledge (snd r) !! i
     = Server.learned_knowledge world1 !! i).
Proof.
  apply (second_resolve_is_applied (env_ok "k2") "r1" (resolving "Closed today")
           "Closed today" "resolved" "What are your hours?" world1).
  - vm_compute. reflexivity.
  - discriminate.
  - vm_compute. reflexivity.
  - reflexivity.
  - reflexivity.
  - discriminate.
  - reflexivity.
  - reflexivity.
  - reflexivity.
Defined.

(** C2 fails on the code: request r1 of [world1] is resolved with the
    response 9am-6pm and one learned entry; a second resolution with
    another response is answered 200, not refused, the stored response
    becomes the second one, and a second learned entry is stored. *)
Lemma second_resolve_counterexample :
  let r := Server.update_help_request (env_ok "k2") "r1"
             (resolving "Closed today") world1 in
  Server.field (Server.help_requests world1) "r1" "status"
  = Some (VStr "resolved") /\
  Server.field (Server.help_requests world1) "r1" "supervisor_response"
  = Some (VStr "9am-6pm") /\
  size (Server.learned_knowledge world1) = 1%nat /\
  Server.status_code <$>
    (match fst r with Server.Ok resp => Some resp | Server.Raise _ => None end)
  = Some 200%Z /\
  Server.field (Server.help_requests (snd r)) "r1" "supervisor_response"
  = Some (VStr "Closed today") /\
  size (Server.learned_knowledge (snd r)) = 2%nat /\
  fst (Server.handle_supervisor_response (env_ok "k2") (reply "Closed today")
         world1) = Server.Ok tt.
Proof.
  vm_compute. repeat split.
Qed.

(** ** Resolution when the learned entry cannot be stored *)

(** C6. A supervisor reply to a stored request whose learned-entry
    insertion fails (the write raises, or the stored question is [None]
    and the entry model rejects it) still resolves the request:
    [handle_supervisor_response] goes on to broadcast the
    supervisor_response event from a world in which the request has
    status resolved and the response stored, and nothing was added to
    the learned collection.  When no send raises, every registered
    connection receives the event. *)
Theorem resolution_survives_insertion_failure (e : Server.env)
    (data : gmap string value) (request_id response : string) (qv : value)
    (w : Server.world) :
  data !! "request_id" = Some (VStr request_id) ->
  data !! "response" = Some (VStr response) ->
  response <> "" ->
  Server.field (Server.help_requests w) request_id "question" = Some qv ->
  Server.store_fails e Server.HsrGet = false ->
  Server.store_fails e Server.UhrGet = false ->
  Server.store_fails e Server.UhrSet = false ->
  (qv = VNone \/
   (exists q, qv = VStr q) /\ Server.store_fails e Server.UkbSet = true) ->
  let event := Server.supervisor_response_event request_id (VStr response) qv in
  exists w1,
    Server.handle_supervisor_response e data w = Server.broadcast e event w1 /\
    Server.field (Server.help_requests w1) request_id "status"
    = Some (VStr "resolved") /\
    Server.field (Server.help_requests w1) request_id "supervisor_response"
    = Some (VStr response) /\
    Server.learned_knowledge w1 = Server.learned_knowledge w /\
    Server.active_connections w1 = Server.active_connections w /\
    Server.delivered w1 = Server.delivered w /\
    ((forall c, c ∈ Server.active_connections w -> Server.send_fails e c = false) ->
     Server.handle_supervisor_response e data w
     = (Server.Ok tt,
        Server.log_deliveries (Server.active_connections w) event w1)).
Proof.
  intros Hrid Hresp Hne Hq Hhsr Hget Hset Hfail event.
  unfold Server.field in Hq.
  destruct (Server.help_requests w !! request_id) as [current_doc |] eqn:Hdoc;
    [| discriminate].
  set (request :=
         {| Server.id := None; Server.caller_details := None;
            Server.question :=
              match qv with VStr s => Some s | _ => None end;
            Server.context := None; Server.status := "resolved";
            Server.supervisor_response := Some response |}).
  set (w1 := Server.set_help_requests
               (<[request_id := Server.update_data e request ∪ current_doc]>) w).
  assert (Hvalid : Server.validate_opt_str qv
                   = Server.Ok (Server.question request)).
  { destruct Hfail as [-> | [[q ->] _]]; reflexivity. }
  assert (Hrun : Server.handle_supervisor_response e data w
                 = Server.broadcast e event w1).
  { subst w1.
    unfold Server.handle_supervisor_response, Server.bind at 1 2 3 4 5 6 7 8,
      Server.lift, Server.subscript, Server.as_document_id, Server.store,
      Server.get_world, Server.snapshot_get, Server.subscript.
    rewrite Hrid, Hresp, Hhsr. simpl. rewrite Hdoc, Hq, Hvalid.
    unfold Server.bind.
    change (Server.update_help_request e request_id _ w)
      with (Server.update_help_request e request_id request w).
    rewrite (update_help_request_found e request_id request w current_doc
               Hget Hset Hdoc).
    destruct (if_resolved_insertion_fails e request_id request current_doc
                response qv
                (Server.set_help_requests
                   (<[request_id := Server.update_data e request ∪ current_doc]>)
                   w)
                eq_refl eq_refl Hne Hq Hfail) as [ex ->].
    reflexivity. }
  destruct (update_data_written e request) as (Ws & Wr & _ & _).
  exists w1. split; [exact Hrun |].
  unfold Server.field. subst w1. simpl. rewrite lookup_insert_eq.
  split; [by apply lookup_union_Some_l |].
  split; [by apply lookup_union_Some_l |].
  repeat split.
  intros Hsend. rewrite Hrun. rewrite broadcast_ok; [reflexivity | exact Hsend].
Qed.

Lemma resolution_survives_insertion_failure_witness :
  exists w1,
    Server.handle_supervisor_response env_insert_fails (reply "9am-6pm") world0
    = Server.broadcast env_insert_fails
        (Server.supervisor_response_event "r1" (VStr "9am-6pm")
           (VStr "What are your hours?")) w1 /\
    Server.field (Server.help_requests w1) "r1" "status"
    = Some (VStr "resolved") /\
    Server.field (Server.help_requests w1) "r1" "supervisor_response"
    = Some (VStr "9am-6pm") /\
    Server.learned_knowledge w1 = Server.learned_knowledge world0 /\
    Server.active_connections w1 = Server.active_connections world0 /\
    Server.delivered w1 = Server.delivered world0 /\
    ((forall c, c ∈ Server.active_connections world0 ->
        Server.send_fails env_insert_fails c = false) ->
     Server.handle_supervisor_response env_insert_fails (reply "9am-6pm") world0
     = (Server.Ok tt,
        Server.log_deliveries (Server.active_connections world0)
          (Server.supervisor_response_event "r1" (VStr "9am-6pm")
             (VStr "What are your hours?")) w1)).
Proof.
  apply (resolution_survives_insertion_failure env_insert_fails
           (reply "9am-6pm") "r1" "9am-6pm" (VStr "What are your hours?") world0).
  - reflexivity.
  - reflexivity.
  - discriminate.
  - reflexivity.
  - reflexivity.
  - reflexivity.
  - reflexivity.
  - right. split; [eexists; reflexivity | reflexivity].
Defined.

(** ** Adding knowledge entries *)

(** C7, as the code has it.  Neither insertion handler looks for an
    existing entry with the same question.  With the required fields
    present and the write succeeding, [add_learned_knowledge] and
    [add_predefined_knowledge] answer with success and store the entry
    under the new document id; every document stored under another id
    stays as it was, also when it carries the same question. *)
Theorem insert_does_not_check_duplicates (e : Server.env)
    (entry : gmap string value) (question answer confidence : value)
    (predefined : Server.KnowledgeBaseEntry) (w : Server.world) :
  entry !! "question" = Some question ->
  entry !! "answer" = Some answer ->
  entry !! "confidence" = Some confidence ->
  Server.store_fails e Server.AlkSet = false ->
  Server.store_fails e Server.ApkSet = false ->
  let l := Server.add_learned_knowledge e entry w in
  let p := Server.add_predefined_knowledge e predefined w in
  (fst l = Server.Ok (Server.MessageId "Learned knowledge entry added"
                        (Server.auto_id e)) /\
   Server.field (Server.learned_knowledge (snd l)) (Server.auto_id e) "question"
   = Some question /\
   (forall i, i <> Server.auto_id e ->
      Server.learned_knowledge (snd l) !! i = Server.learned_knowledge w !! i)) /\
  (fst p = Server.Ok (Server.Message "Predefined knowledge entry added") /\
   Server.field (Server.knowledge_base (snd p)) (Server.auto_id e) "question"
   = Some (VStr (Server.kb_question predefined)) /\
   (forall i, i <> Server.auto_id e ->
      Server.knowledge_base (snd p) !! i = Server.knowledge_base w !! i)).
Proof.
  intros Hq Ha Hc Hl Hp l p. subst l p.
  unfold Server.add_learned_knowledge, Server.add_predefined_knowledge,
    Server.try_except, Server.bind, Server.store, Server.modify, Server.ret.
  rewrite Hq, Ha, Hc, Hl, Hp. simpl. unfold Server.field.
  rewrite !lookup_insert_eq.
  repeat split; try reflexivity; intros i Hi; by apply lookup_insert_ne.
Qed.

Lemma insert_does_not_check_duplicates_witness :
  let l := Server.add_learned_knowledge (env_ok "k2") posted_entry world1 in
  let p := Server.add_predefined_knowledge (env_ok "k2") posted_predefined world1 in
  (fst l = Server.Ok (Server.MessageId "Learned knowledge entry added" "k2") /\
   Server.field (Server.learned_knowledge (snd l)) "k2" "question"
   = Some (VStr "What are your hours?") /\
   (forall i, i <> "k2" ->
      Server.learned_knowledge (snd l) !! i
      = Server.learned_knowledge world1 !! i)) /\
  (fst p = Server.Ok (Server.Message "Predefined knowledge entry added") /\
   Server.field (Server.knowledge_base (snd p)) "k2" "question"
   = Some (VStr "When do you open?") /\
   (forall i, i <> "k2" ->
      Server.knowledge_base (snd p) !! i = Server.knowledge_base world1 !! i)).
Proof.
  apply (insert_does_not_check_duplicates (env_ok "k2") posted_entry
           (VStr "What are your hours?") (VStr "Closed today") (VFloat 1)
           posted_predefined world1); reflexivity.
Defined.

(** C7 fails on the code: [world1] holds a learned entry for the
    question of [posted_entry]; posting that entry succeeds and leaves
    two learned documents with the same question.  The same happens in
    the predefined tier when an entry is posted twice. *)
Lemma duplicate_insert_counterexample :
  let l := Server.add_learned_knowledge (env_ok "k2") posted_entry world1 in
  let p1 := Server.add_predefined_knowledge (env_ok "p1") posted_predefined world0 in
  let p2 := Server.add_predefined_knowledge (env_ok "p2") posted_predefined (snd p1) in
  Server.field (Server.learned_knowledge world1) "k1" "question"
  = Some (VStr "What are your hours?") /\
  fst l = Server.Ok (Server.MessageId "Learned knowledge entry added" "k2") /\
  Server.field (Server.learned_knowledge (snd l)) "k1" "question"
  = Some (VStr "What are your hours?") /\
  Server.field (Server.learned_knowledge (snd l)) "k2" "question"
  = Some (VStr "What are your hours?") /\
  size (Server.learned_knowledge (snd l)) = 2%nat /\
  fst p2 = Server.Ok (Server.Message "Predefined knowledge entry added") /\
  Server.field (Server.knowledge_base (snd p2)) "p1" "question"
  = Some (VStr "When do you open?") /\
  Server.field (Server.knowledge_base (snd p2)) "p2" "question"
  = Some (VStr "When do you open?") /\
  size (Server.knowledge_base (snd p2)) = 2%nat.
Proof.
  vm_compute. repeat split.
Qed.

(** ** The LiveKit webhook *)

(** C8 on the code.  When the signature does not verify, the handler
    raises the 401 exception inside its own [try], whose handler turns
    every exception into a 500: the caller is answered 500 with the 401
    as detail.  Nothing is broadcast and the world is unchanged, also
    when the check itself raises. *)
Theorem invalid_signature_is_answered_500
    (hmac_sha256_b64 : string -> string -> string)
    (json_loads : string -> option value) (utf8 : string -> bool)
    (e : Server.env) (request : Server.Request) (w : Server.world) :
  Server.verify_livekit_signature hmac_sha256_b64 e request (Server.body request)
  <> Server.Ok true ->
  exists ex,
    Server.livekit_webhook hmac_sha256_b64 json_loads utf8 e request w
    = (Server.Raise (Server.HTTPException 500 (Server.StrOf ex)), w) /\
    (utf8 (Server.body request) = true ->
     Server.verify_livekit_signature hmac_sha256_b64 e request
       (Server.body request) = Server.Ok false ->
     ex = Server.HTTPException 401 (Server.Text "Invalid signature")).
Proof.
  intros Hbad.
  unfold Server.livekit_webhook, Server.try_except, Server.bind, Server.lift,
    Server.raise, Server.ret.
  destruct (utf8 (Server.body request)); simpl.
  - destruct (Server.verify_livekit_signature _ _ _ _) as [[|] | ex] eqn:Hv;
      simpl.
    + by destruct Hbad.
    + eexists. split; [reflexivity | reflexivity].
    + eexists. split; [reflexivity | discriminate].
  - eexists. split; [reflexivity | discriminate].
Qed.

Lemma invalid_signature_is_answered_500_witness :
  exists ex,
    Server.livekit_webhook (fun _ _ => "") (fun _ => None) (fun _ => true)
      (env_ok "k1") unsigned_request world0
    = (Server.Raise (Server.HTTPException 500 (Server.StrOf ex)), world0) /\
    (true = true ->
     Server.verify_livekit_signature (fun _ _ => "") (env_ok "k1")
       unsigned_request (Server.body unsigned_request) = Server.Ok false ->
     ex = Server.HTTPException 401 (Server.Text "Invalid signature")).
Proof.
  apply (invalid_signature_is_answered_500 (fun _ _ => "") (fun _ => None)
           (fun _ => true) (env_ok "k1") unsigned_request world0).
  discriminate.
Defined.

(** * Further properties *)

(** ** Delivery and registration *)

(** The loop of [broadcast] only appends to the delivery log, whether
    or not a send raises. *)
Lemma send_all_frame (e : Server.env) (cs : list Server.conn) (message : value)
    (w : Server.world) :
  let w' := snd (Server.send_all e cs message w) in
  Server.help_requests w' = Server.help_requests w /\
  Server.knowledge_base w' = Server.knowledge_base w /\
  Server.learned_knowledge w' = Server.learned_knowledge w /\
  Server.active_connections w' = Server.active_connections w /\
  exists sent, Server.delivered w' = Server.delivered w ++ sent /\
               forall p, p ∈ sent -> p.2 = message.
Proof.
  revert w. induction cs as [| c cs IH]; intros w; simpl.
  - repeat split. exists []. split; [by rewrite app_nil_r |].
    intros p Hp. by apply not_elem_of_nil in Hp.
  - unfold Server.bind, Server.send_text.
    destruct (Server.send_fails e c); simpl.
    + repeat split. exists []. split; [by rewrite app_nil_r |].
      intros p Hp. by apply not_elem_of_nil in Hp.
    + unfold Server.modify.
      destruct (IH (Server.log_delivery c message w))
        as (H1 & H2 & H3 & H4 & sent & H5 & H6).
      simpl in *. rewrite H1, H2, H3, H4. repeat split.
      exists ((c, message) :: sent). split.
      * rewrite H5. simpl. by rewrite <- app_assoc.
      * intros p Hp. apply elem_of_cons in Hp as [-> | Hp]; [reflexivity |].
        by apply H6.
Qed.

Lemma broadcast_frame (e : Server.env) (message : value) (w : Server.world) :
  let w' := snd (Server.broadcast e message w) in
  Server.help_requests w' = Server.help_requests w /\
  Server.knowledge_base w' = Server.knowledge_base w /\
  Server.learned_knowledge w' = Server.learned_knowledge w /\
  Server.active_connections w' = Server.active_connections w /\
  exists sent, Server.delivered w' = Server.delivered w ++ sent /\
               forall p, p ∈ sent -> p.2 = message.
Proof.
  unfold Server.broadcast, Server.bind, Server.get_world.
  apply send_all_frame.
Qed.

(** X1. When no send raises, [broadcast] returns normally, the message
    has reached every registered connection once per registration, in
    registration order, and nothing else in the server has changed. *)
Theorem broadcast_reaches_every_connection (e : Server.env) (message : value)
    (w : Server.world) :
  (forall c, c ∈ Server.active_connections w -> Server.send_fails e c = false) ->
  let r := Server.broadcast e message w in
  fst r = Server.Ok tt /\
  Server.delivered (snd r)
  = Server.delivered w
    ++ map (fun c => (c, message)) (Server.active_connections w) /\
  Server.active_connections (snd r) = Server.active_connections w /\
  Server.help_requests (snd r) = Server.help_requests w /\
  Server.knowledge_base (snd r) = Server.knowledge_base w /\
  Server.learned_knowledge (snd r) = Server.learned_knowledge w.
Proof.
  intros Hok r. subst r. rewrite (broadcast_ok e message w Hok).
  repeat split.
Qed.

Lemma broadcast_reaches_every_connection_witness :
  let r := Server.broadcast (env_ok "k1") (VStr "m") world0 in
  fst r = Server.Ok tt /\
  Server.delivered (snd r)
  = Server.delivered world0
    ++ map (fun c => (c, VStr "m")) (Server.active_connections world0) /\
  Server.active_connections (snd r) = Server.active_connections world0 /\
  Server.help_requests (snd r) = Server.help_requests world0 /\
  Server.knowledge_base (snd r) = Server.knowledge_base world0 /\
  Server.learned_knowledge (snd r) = Server.learned_knowledge world0.
Proof.
  apply (broadcast_reaches_every_connection (env_ok "k1") (VStr "m") world0).
  intros c _. reflexivity.
Defined.

(** X2. Two broadcasts in a row, no send raising: every delivery of the
    first message precedes every delivery of the second, so each
    connection receives the two messages in call order. *)
Theorem broadcasts_keep_call_order (e : Server.env) (m1 m2 : value)
    (w : Server.world) :
  (forall c, c ∈ Server.active_connections w -> Server.send_fails e c = false) ->
  let r := Server.bind (Server.broadcast e m1)
                       (fun _ => Server.broadcast e m2) w in
  fst r = Server.Ok tt /\
  Server.delivered (snd r)
  = Server.delivered w
    ++ map (fun c => (c, m1)) (Server.active_connections w)
    ++ map (fun c => (c, m2)) (Server.active_connections w) /\
  forall c, c ∈ Server.active_connections w ->
    exists before between after,
      Server.delivered (snd r)
      = Server.delivered w ++ before ++ (c, m1) :: between ++ (c, m2) :: after.
Proof.
  intros Hok r.
  assert (Hrun : r = (Server.Ok tt,
                      Server.log_deliveries (Server.active_connections w) m2
                        (Server.log_deliveries (Server.active_connections w) m1 w))).
  { subst r. unfold Server.bind. rewrite (broadcast_ok e m1 w Hok).
    rewrite broadcast_ok by exact Hok. reflexivity. }
  rewrite Hrun. clear Hrun r. simpl.
  split; [reflexivity |]. split; [by rewrite <- app_assoc |].
  intros c Hc. apply list_elem_of_split in Hc as (l1 & l2 & Hl).
  rewrite Hl, !map_app. simpl.
  exists (map (fun c0 => (c0, m1)) l1),
         (map (fun c0 => (c0, m1)) l2 ++ map (fun c0 => (c0, m2)) l1),
         (map (fun c0 => (c0, m2)) l2).
  rewrite <- ?app_assoc. simpl. rewrite <- ?app_assoc. reflexivity.
Qed.

Lemma broadcasts_keep_call_order_witness :
  let r := Server.bind (Server.broadcast (env_ok "k1") (VStr "a"))
                       (fun _ => Server.broadcast (env_ok "k1") (VStr "b"))
                       world0 in
  fst r = Server.Ok tt /\
  Server.delivered (snd r)
  = Server.delivered world0
    ++ map (fun c => (c, VStr "a")) (Server.active_connections world0)
    ++ map (fun c => (c, VStr "b")) (Server.active_connections world0) /\
  forall c, c ∈ Server.active_connections world0 ->
    exists before between after,
      Server.delivered (snd r)
      = Server.delivered world0
        ++ before ++ (c, VStr "a") :: between ++ (c, VStr "b") :: after.
Proof.
  apply (broadcasts_keep_call_order (env_ok "k1") (VStr "a") (VStr "b") world0).
  intros c _. reflexivity.
Defined.

Lemma list_remove_snoc (c : Server.conn) (l : list Server.conn) :
  c ∉ l -> Server.list_remove c (l ++ [c]) = Some l.
Proof.
  induction l as [| y l IH]; intros Hc; simpl.
  - by rewrite decide_True.
  - apply not_elem_of_cons in Hc as [Hne Hc].
    rewrite decide_False by congruence. by rewrite IH.
Qed.

(** X3. Registering a connection that is not yet registered and then
    unregistering it gives back the world it started from; in between
    the connection is the last of the list. *)
Theorem connect_then_disconnect (e : Server.env) (c : Server.conn)
    (w : Server.world) :
  Server.accept_fails e c = false ->
  c ∉ Server.active_connections w ->
  Server.connect e c w
  = (Server.Ok tt,
     Server.set_active_connections (Server.active_connections w ++ [c]) w) /\
  Server.bind (Server.connect e c) (fun _ => Server.disconnect c) w
  = (Server.Ok tt, w).
Proof.
  intros Hacc Hc.
  assert (Hconn : Server.connect e c w
                  = (Server.Ok tt,
                     Server.set_active_connections
                       (Server.active_connections w ++ [c]) w)).
  { unfold Server.connect, Server.bind, Server.get_world, Server.modify.
    rewrite Hacc. reflexivity. }
  split; [exact Hconn |].
  unfold Server.bind at 1. rewrite Hconn.
  unfold Server.disconnect, Server.bind, Server.get_world. simpl.
  rewrite (list_remove_snoc c _ Hc). destruct w. reflexivity.
Qed.

Lemma connect_then_disconnect_witness :
  Server.connect (env_ok "k1") 7%nat world0
  = (Server.Ok tt,
     Server.set_active_connections
       (Server.active_connections world0 ++ [7%nat]) world0) /\
  Server.bind (Server.connect (env_ok "k1") 7%nat)
              (fun _ => Server.disconnect 7%nat) world0
  = (Server.Ok tt, world0).
Proof.
  apply (connect_then_disconnect (env_ok "k1") 7%nat world0).
  - reflexivity.
  - apply (proj1 (list_remove_None 7%nat (Server.active_connections world0))).
    reflexivity.
Defined.

(** ** Updating a help request *)

(** The knowledge-base block changes nothing when it raises. *)
Lemma if_resolved_raise_inv (e : Server.env) (request_id : string)
    (request : Server.HelpRequest) (current_doc : gmap string value)
    (w w' : Server.world) (ex : Server.exn) :
  Server.if_resolved_update_knowledge_base e request_id request current_doc w
  = (Server.Raise ex, w') ->
  w' = w.
Proof.
  unfold Server.if_resolved_update_knowledge_base.
  destruct (Server.supervisor_response request) as [response |];
    [| discriminate].
  destruct (_ && _); [| discriminate].
  unfold Server.bind, Server.lift, Server.snapshot_get, Server.subscript.
  destruct (current_doc !! "question") as [qv |]; [| by intros [= _ <-]].
  unfold Server.update_knowledge_base, Server.try_except, Server.bind,
    Server.lift, Server.store, Server.raise, Server.ret, Server.modify.
  destruct qv; simpl; try (by intros [= _ <-]).
  destruct (Server.store_fails e Server.UkbSet); simpl;
    [by intros [= _ <-] | discriminate].
Qed.

Lemma update_help_request_unknown_id_aux (e : Server.env) (request_id : string)
    (request : Server.HelpRequest) (w : Server.world) :
  Server.store_fails e Server.UhrGet = false ->
  Server.help_requests w !! request_id = None ->
  Server.update_help_request e request_id request w
  = (Server.Ok {| Server.status_code := 404;
                  Server.body_content :=
                    Server.Detail (Server.Text "Help request not found") |}, w).
Proof.
  intros Hget Hdoc.
  unfold Server.update_help_request, Server.try_except, Server.bind,
    Server.store, Server.get_world, Server.ret.
  rewrite Hget. simpl. rewrite Hdoc. reflexivity.
Qed.

(** A PUT for an id that is not stored is answered 404 and changes
    nothing: no request is created, no learned entry is written and
    nothing is sent. *)
Theorem update_help_request_unknown_id (e : Server.env) (request_id : string)
    (request : Server.HelpRequest) (w : Server.world) :
  Server.store_fails e Server.UhrGet = false ->
  Server.help_requests w !! request_id = None ->
  Server.update_help_request e request_id request w
  = (Server.Ok {| Server.status_code := 404;
                  Server.body_content :=
                    Server.Detail (Server.Text "Help request not found") |}, w).
Proof. apply update_help_request_unknown_id_aux. Qed.

Lemma update_help_request_unknown_id_witness :
  Server.update_help_request (env_ok "k1") "r9" (resolving "9am-6pm") world0
  = (Server.Ok {| Server.status_code := 404;
                  Server.body_content :=
                    Server.Detail (Server.Text "Help request not found") |},
     world0).
Proof.
  apply (update_help_request_unknown_id (env_ok "k1") "r9"
           (resolving "9am-6pm") world0); reflexivity.
Defined.

(** X4. [update_help_request] never lets an exception out: whatever
    the request, the store and its failures, it returns a response, and
    the response's status is 200, 404 or 500. *)
Theorem update_help_request_always_answers (e : Server.env)
    (request_id : string) (request : Server.HelpRequest) (w : Server.world) :
  exists resp,
    fst (Server.update_help_request e request_id request w) = Server.Ok resp /\
    (Server.status_code resp = 200%Z \/ Server.status_code resp = 404%Z \/
     Server.status_code resp = 500%Z).
Proof.
  unfold Server.update_help_request, Server.try_except, Server.bind,
    Server.store, Server.get_world, Server.modify, Server.ret, Server.raise.
  destruct (Server.store_fails e Server.UhrGet); simpl;
    [eexists; split; [reflexivity | tauto] |].
  destruct (Server.help_requests w !! request_id) as [current_doc |];
    [| eexists; split; [reflexivity | tauto]].
  destruct (Server.store_fails e Server.UhrSet); simpl;
    [eexists; split; [reflexivity | tauto] |].
  destruct (Server.if_resolved_update_knowledge_base _ _ _ _ _) as [[[] | ex] w2];
    eexists; (split; [reflexivity | tauto]).
Qed.

(** X5. What [update_help_request] leaves alone, whatever it answers:
    the predefined collection, the registered connections, the delivery
    log and every other help request.  In the learned collection only
    the new document id can change, and not even that unless the request
    has status resolved and a non-empty supervisor response. *)
Theorem update_help_request_footprint (e : Server.env) (request_id : string)
    (request : Server.HelpRequest) (w : Server.world) :
  let w' := snd (Server.update_help_request e request_id request w) in
  Server.knowledge_base w' = Server.knowledge_base w /\
  Server.active_connections w' = Server.active_connections w /\
  Server.delivered w' = Server.delivered w /\
  (forall other, other <> request_id ->
     Server.help_requests w' !! other = Server.help_requests w !! other) /\
  (forall i, i <> Server.auto_id e ->
     Server.learned_knowledge w' !! i = Server.learned_knowledge w !! i) /\
  (Server.status request <> "resolved" \/
   Server.truthy (Server.supervisor_response request) = false ->
   Server.learned_knowledge w' = Server.learned_knowledge w).
Proof.
  unfold Server.update_help_request, Server.try_except, Server.bind,
    Server.store, Server.get_world, Server.modify, Server.ret, Server.raise.
  destruct (Server.store_fails e Server.UhrGet); simpl; [by repeat split |].
  destruct (Server.help_requests w !! request_id) as [current_doc |];
    [| by repeat split].
  destruct (Server.store_fails e Server.UhrSet); simpl; [by repeat split |].
  destruct (Server.if_resolved_update_knowledge_base _ _ _ _ _)
    as [[[] | ex] w2] eqn:E.
  - apply if_resolved_ok_inv in E
      as [(r & q & Hr & Hst & Hne & _ & ->) | [_ ->]]; simpl.
    + repeat split.
      * intros other Hother. by apply lookup_insert_ne.
      * intros i Hi. by apply lookup_insert_ne.
      * intros [Hns | Hnt]; [contradiction |].
        rewrite Hr in Hnt. simpl in Hnt. apply negb_false_iff in Hnt.
        by apply bool_decide_eq_true in Hnt.
    + repeat split. intros other Hother. by apply lookup_insert_ne.
  - apply if_resolved_raise_inv in E as ->. simpl.
    repeat split. intros other Hother. by apply lookup_insert_ne.
Qed.

(** X6. A 500 answer does not mean that nothing was written.  When the
    learned entry of a resolving PUT cannot be stored (the write raises,
    or the stored question is [None]), the answer is 500 although the
    request has already been stored with status resolved and the
    supervisor response. *)
Theorem update_help_request_500_after_write (e : Server.env)
    (request_id : string) (request : Server.HelpRequest) (response : string)
    (qv : value) (w : Server.world) :
  Server.status request = "resolved" ->
  Server.supervisor_response request = Some response ->
  response <> "" ->
  Server.field (Server.help_requests w) request_id "question" = Some qv ->
  Server.store_fails e Server.UhrGet = false ->
  Server.store_fails e Server.UhrSet = false ->
  (qv = VNone \/
   (exists q, qv = VStr q) /\ Server.store_fails e Server.UkbSet = true) ->
  let r := Server.update_help_request e request_id request w in
  (exists ex,
     fst r = Server.Ok {| Server.status_code := 500;
                          Server.body_content :=
                            Server.Detail
                              (Server.StrOf
                                 (Server.HTTPException 500
                                    (Server.FailedToUpdate ex))) |}) /\
  Server.field (Server.help_requests (snd r)) request_id "status"
  = Some (VStr "resolved") /\
  Server.field (Server.help_requests (snd r)) request_id "supervisor_response"
  = Some (VStr response) /\
  Server.learned_knowledge (snd r) = Server.learned_knowledge w.
Proof.
  intros Hst Hresp Hne Hq Hget Hset Hfail r. subst r.
  unfold Server.field in Hq.
  destruct (Server.help_requests w !! request_id) as [current_doc |] eqn:Hdoc;
    [| discriminate].
  rewrite (update_help_request_found _ _ _ _ _ Hget Hset Hdoc).
  destruct (if_resolved_insertion_fails e request_id request current_doc
              response qv
              (Server.set_help_requests
                 (<[request_id := Server.update_data e request ∪ current_doc]>) w)
              Hst Hresp Hne Hq Hfail) as [ex ->].
  simpl. destruct (update_data_written e request) as (Ws & Wr & _ & _).
  rewrite Hst in Ws. rewrite Hresp in Wr. simpl in Wr.
  split; [eexists; reflexivity |].
  unfold Server.field. rewrite lookup_insert_eq.
  split; [by apply lookup_union_Some_l |].
  split; [by apply lookup_union_Some_l | reflexivity].
Qed.

Lemma update_help_request_500_after_write_witness :
  let r := Server.update_help_request env_insert_fails "r1"
             (resolving "9am-6pm") world0 in
  (exists ex,
     fst r = Server.Ok {| Server.status_code := 500;
                          Server.body_content :=
                            Server.Detail
                              (Server.StrOf
                                 (Server.HTTPException 500
                                    (Server.FailedToUpdate ex))) |}) /\
  Server.field (Server.help_requests (snd r)) "r1" "status"
  = Some (VStr "resolved") /\
  Server.field (Server.help_requests (snd r)) "r1" "supervisor_response"
  = Some (VStr "9am-6pm") /\
  Server.learned_knowledge (snd r) = Server.learned_knowledge world0.
Proof.
  apply (update_help_request_500_after_write env_insert_fails "r1"
           (resolving "9am-6pm") "9am-6pm" (VStr "What are your hours?") world0).
  - reflexivity.
  - reflexivity.
  - discriminate.
  - reflexivity.
  - reflexivity.
  - reflexivity.
  - right. split; [eexists; reflexivity | reflexivity].
Defined.

(** ** A supervisor's reply *)

Lemma update_help_request_returns (e : Server.env) (request_id : string)
    (request : Server.HelpRequest) (w : Server.world) :
  exists resp w',
    Server.update_help_request e request_id request w = (Server.Ok resp, w').
Proof.
  unfold Server.update_help_request, Server.try_except, Server.bind,
    Server.store, Server.get_world, Server.modify, Server.ret, Server.raise.
  destruct (Server.store_fails e Server.UhrGet); simpl; [by eexists _, _ |].
  destruct (Server.help_requests w !! request_id) as [current_doc |];
    [| by eexists _, _].
  destruct (Server.store_fails e Server.UhrSet); simpl; [by eexists _, _ |].
  destruct (Server.if_resolved_update_knowledge_base _ _ _ _ _) as [[[] | ex] w2];
    by eexists _, _.
Qed.

(** The question [handle_supervisor_response] reads for its event. *)
Lemma handle_supervisor_response_run (e : Server.env) (data : gmap string value)
    (request_id : string) (rv qv : value) (r q : option string)
    (w : Server.world) :
  data !! "request_id" = Some (VStr request_id) ->
  data !! "response" = Some rv ->
  Server.store_fails e Server.HsrGet = false ->
  match Server.help_requests w !! request_id with
  | Some current_doc => current_doc !! "question"
  | None => Some VNone
  end = Some qv ->
  Server.validate_opt_str rv = Server.Ok r ->
  Server.validate_opt_str qv = Server.Ok q ->
  Server.handle_supervisor_response e data w
  = Server.broadcast e (Server.supervisor_response_event request_id rv qv)
      (snd (Server.update_help_request e request_id
              {| Server.id := None; Server.caller_details := None;
                 Server.question := q; Server.context := None;
                 Server.status := "resolved";
                 Server.supervisor_response := r |} w)).
Proof.
  intros Hrid Hresp Hhsr Hq Hr Hqv.
  unfold Server.handle_supervisor_response, Server.bind at 1 2 3 4 5 6 7 8,
    Server.lift, Server.subscript, Server.as_document_id, Server.store,
    Server.get_world, Server.snapshot_get, Server.subscript.
  rewrite Hrid, Hresp, Hhsr. simpl.
  assert (Hq' : match Server.help_requests w !! request_id with
                | Some current_doc =>
                  match current_doc !! "question" with
                  | Some v => Server.Ok v
                  | None => Server.Raise (Server.KeyError "question")
                  end
                | None => Server.Ok VNone
                end = Server.Ok qv).
  { destruct (Server.help_requests w !! request_id) as [d |].
    - by rewrite Hq.
    - by injection Hq as <-. }
  rewrite Hq', Hr, Hqv. unfold Server.bind.
  destruct (update_help_request_returns e request_id
              {| Server.id := None; Server.caller_details := None;
                 Server.question := q; Server.context := None;
                 Server.status := "resolved";
                 Server.supervisor_response := r |} w) as (resp & w' & ->).
  reflexivity.
Qed.





(** A payload without request_id or without response raises
    [KeyError] before anything is read or written: the world is
    unchanged and nothing is broadcast. *)
Theorem handle_supervisor_response_missing_key (e : Server.env)
    (data : gmap string value) (w : Server.world) :
  data !! "request_id" = None \/ data !! "response" = None ->
  exists k,
    (k = "request_id" \/ k = "response") /\
    data !! k = None /\
    Server.handle_supervisor_response e data w
    = (Server.Raise (Server.KeyError k), w).
Proof.
  intros Hmissing.
  unfold Server.handle_supervisor_response, Server.bind at 1 2,
    Server.lift, Server.subscript.
  destruct (data !! "request_id") as [rid |] eqn:Hrid.
  - destruct Hmissing as [Hm | Hm]; [discriminate |].
    exists "response". rewrite Hm. by repeat split; [right |..].
  - exists "request_id". by repeat split; [left |..].
Qed.

Lemma handle_supervisor_response_missing_key_witness :
  exists k,
    (k = "request_id" \/ k = "response") /\
    ({[ "request_id" := VStr "r1" ]} : gmap string value) !! k = None /\
    Server.handle_supervisor_response (env_ok "k1")
      {[ "request_id" := VStr "r1" ]} world0
    = (Server.Raise (Server.KeyError k), world0).
Proof.
  apply (handle_supervisor_response_missing_key (env_ok "k1")
           {[ "request_id" := VStr "r1" ]} world0).
  right. reflexivity.
Defined.

(** X9. The whole resolution.  For a stored request whose question is
    a string, a non-empty string reply, a working store and working
    sends, [handle_supervisor_response] returns normally; the request
    has status resolved and the response; the learned collection has
    gained the entry for the stored question and the response, sourced
    from the request; and every registered connection has received the
    supervisor_response event carrying id, response and question. *)
Theorem handle_supervisor_response_resolves (e : Server.env)
    (data : gmap string value) (request_id response q : string)
    (w : Server.world) :
  data !! "request_id" = Some (VStr request_id) ->
  data !! "response" = Some (VStr response) ->
  response <> "" ->
  Server.field (Server.help_requests w) request_id "question" = Some (VStr q) ->
  (forall c, Server.store_fails e c = false) ->
  (forall c, c ∈ Server.active_connections w -> Server.send_fails e c = false) ->
  let r := Server.handle_supervisor_response e data w in
  fst r = Server.Ok tt /\
  Server.field (Server.help_requests (snd r)) request_id "status"
  = Some (VStr "resolved") /\
  Server.field (Server.help_requests (snd r)) request_id "supervisor_response"
  = Some (VStr response) /\
  Server.field (Server.help_requests (snd r)) request_id "question"
  = Some (VStr q) /\
  Server.learned_knowledge (snd r)
  = <[Server.auto_id e :=
        list_to_map (Server.LearnedKnowledgeEntry_dict e q response 1 request_id)]>
      (Server.learned_knowledge w) /\
  Server.delivered (snd r)
  = Server.delivered w
    ++ map (fun c => (c, Server.supervisor_response_event request_id
                           (VStr response) (VStr q)))
           (Server.active_connections w) /\
  Server.active_connections (snd r) = Server.active_connections w.
Proof.
  intros Hrid Hresp Hne Hq Hstore Hsend r. subst r.
  unfold Server.field in Hq.
  destruct (Server.help_requests w !! request_id) as [current_doc |] eqn:Hdoc;
    [| discriminate].
  rewrite (handle_supervisor_response_run e data request_id (VStr response)
             (VStr q) (Some response) (Some q) w Hrid Hresp (Hstore _));
    [| by rewrite Hdoc | reflexivity | reflexivity].
  set (request := {| Server.id := None; Server.caller_details := None;
                     Server.question := Some q; Server.context := None;
                     Server.status := "resolved";
                     Server.supervisor_response := Some response |}).
  rewrite (update_help_request_found e request_id request w current_doc
             (Hstore _) (Hstore _) Hdoc).
  rewrite (if_resolved_inserts e request_id request current_doc response q _
             eq_refl eq_refl Hne Hq (Hstore _)).
  simpl. rewrite broadcast_ok by exact Hsend. simpl.
  unfold Server.field. rewrite lookup_insert_eq.
  destruct (update_data_written e request) as (Ws & Wr & _ & Wq).
  assert (Hqt : Server.update_data e request !! "question"
                = Some (VStr q) \/
                Server.update_data e request !! "question" = None).
  { rewrite Wq. simpl. destruct (negb _); [by left | by right]. }
  repeat split.
  - by apply lookup_union_Some_l.
  - by apply lookup_union_Some_l.
  - destruct Hqt as [Hqt | Hqt].
    + by apply lookup_union_Some_l.
    + rewrite lookup_union_r by exact Hqt. exact Hq.
Qed.

Lemma handle_supervisor_response_resolves_witness :
  let r := Server.handle_supervisor_response (env_ok "k1") (reply "9am-6pm")
             world0 in
  fst r = Server.Ok tt /\
  Server.field (Server.help_requests (snd r)) "r1" "status"
  = Some (VStr "resolved") /\
  Server.field (Server.help_requests (snd r)) "r1" "supervisor_response"
  = Some (VStr "9am-6pm") /\
  Server.field (Server.help_requests (snd r)) "r1" "question"
  = Some (VStr "What are your hours?") /\
  Server.learned_knowledge (snd r)
  = <["k1" :=
        list_to_map
          (Server.LearnedKnowledgeEntry_dict (env_ok "k1")
             "What are your hours?" "9am-6pm" 1 "r1")]>
      (Server.learned_knowledge world0) /\
  Server.delivered (snd r)
  = Server.delivered world0
    ++ map (fun c => (c, Server.supervisor_response_event "r1"
                           (VStr "9am-6pm") (VStr "What are your hours?")))
           (Server.active_connections world0) /\
  Server.active_connections (snd r) = Server.active_connections world0.
Proof.
  apply (handle_supervisor_response_resolves (env_ok "k1") (reply "9am-6pm")
           "r1" "9am-6pm" "What are your hours?" world0).
  - reflexivity.
  - reflexivity.
  - discriminate.
  - reflexivity.
  - intros c. reflexivity.
  - intros c _. reflexivity.
Defined.

(** ** Creating a help request *)

Lemma create_help_request_written (e : Server.env) (request : Server.HelpRequest)
    (w : Server.world) :
  Server.store_fails e Server.ChrSet = false ->
  Server.create_help_request e request w
  = match Server.broadcast e
            (VDict [("type", VStr "new_request");
                    ("data", VDict (Server.HelpRequest_dict
                                      (Server.with_id (Server.auto_id e) request)))])
            (Server.set_help_requests
               (<[Server.auto_id e :=
                    list_to_map (Server.HelpRequest_dict
                                   (Server.with_id (Server.auto_id e) request))]>) w)
    with
    | (Server.Ok _, w') =>
      (Server.Ok (Server.MessageId "Help request created" (Server.auto_id e)), w')
    | (Server.Raise ex, w') =>
      (Server.Raise (Server.HTTPException 500 (Server.StrOf ex)), w')
    end.
Proof.
  intros Hset.
  unfold Server.create_help_request, Server.try_except, Server.bind,
    Server.store, Server.modify, Server.ret, Server.raise.
  rewrite Hset. simpl.
  destruct (Server.broadcast _ _ _) as [[[] | ex] w']; reflexivity.
Qed.

(** X10. Creating a help request, with the write and the sends working:
    the request is stored under the new document id, with that id in
    its id field whatever id the caller supplied and with the caller's
    other fields; the answer names the id; and every registered
    connection receives a new_request event carrying the stored
    fields. *)
Theorem create_help_request_stores_and_notifies (e : Server.env)
    (request : Server.HelpRequest) (w : Server.world) :
  Server.store_fails e Server.ChrSet = false ->
  (forall c, c ∈ Server.active_connections w -> Server.send_fails e c = false) ->
  let stored := Server.HelpRequest_dict (Server.with_id (Server.auto_id e) request) in
  let r := Server.create_help_request e request w in
  let after := Server.field (Server.help_requests (snd r)) (Server.auto_id e) in
  fst r = Server.Ok (Server.MessageId "Help request created" (Server.auto_id e)) /\
  Server.help_requests (snd r)
  = <[Server.auto_id e := list_to_map stored]> (Server.help_requests w) /\
  after "id" = Some (VStr (Server.auto_id e)) /\
  after "question" = Some (Server.opt_str (Server.question request)) /\
  after "caller_details" = Some (Server.opt_dict (Server.caller_details request)) /\
  after "context" = Some (Server.opt_str (Server.context request)) /\
  after "status" = Some (VStr (Server.status request)) /\
  after "supervisor_response"
  = Some (Server.opt_str (Server.supervisor_response request)) /\
  Server.delivered (snd r)
  = Server.delivered w
    ++ map (fun c => (c, VDict [("type", VStr "new_request");
                                ("data", VDict stored)]))
           (Server.active_connections w).
Proof.
  intros Hset Hsend stored r after. subst after r.
  rewrite (create_help_request_written e request w Hset).
  rewrite broadcast_ok by exact Hsend. simpl.
  unfold Server.field. rewrite lookup_insert_eq.
  repeat split.
Qed.

Lemma create_help_request_stores_and_notifies_witness :
  let stored := Server.HelpRequest_dict (Server.with_id "r2" pending_request) in
  let r := Server.create_help_request (env_ok "r2") pending_request world0 in
  let after := Server.field (Server.help_requests (snd r)) "r2" in
  fst r = Server.Ok (Server.MessageId "Help request created" "r2") /\
  Server.help_requests (snd r)
  = <["r2" := list_to_map stored]> (Server.help_requests world0) /\
  after "id" = Some (VStr "r2") /\
  after "question" = Some (VStr "What are your hours?") /\
  after "caller_details" = Some (VDict [("track_id", VStr "t1")]) /\
  after "context" = Some (VStr "Call from track t1") /\
  after "status" = Some (VStr "pending") /\
  after "supervisor_response" = Some VNone /\
  Server.delivered (snd r)
  = Server.delivered world0
    ++ map (fun c => (c, VDict [("type", VStr "new_request");
                                ("data", VDict stored)]))
           (Server.active_connections world0).
Proof.
  apply (create_help_request_stores_and_notifies (env_ok "r2") pending_request
           world0).
  - reflexivity.
  - intros c _. reflexivity.
Defined.

(** X11. Creation is not atomic with its notification.  When a send of
    the new_request event raises, the caller is answered 500, yet the
    request is already stored under the new id, so a retry stores a
    second request. *)
Theorem create_help_request_failed_notification (e : Server.env)
    (request : Server.HelpRequest) (w : Server.world)
    (pre : list Server.conn) (c : Server.conn) (post : list Server.conn) :
  Server.store_fails e Server.ChrSet = false ->
  Server.active_connections w = pre ++ c :: post ->
  (forall c', c' ∈ pre -> Server.send_fails e c' = false) ->
  Server.send_fails e c = true ->
  let r := Server.create_help_request e request w in
  fst r = Server.Raise (Server.HTTPException 500
                          (Server.StrOf (Server.WebSocketError c))) /\
  Server.help_requests (snd r)
  = <[Server.auto_id e :=
        list_to_map (Server.HelpRequest_dict
                       (Server.with_id (Server.auto_id e) request))]>
      (Server.help_requests w).
Proof.
  intros Hset Hconns Hok Hfail r. subst r.
  rewrite (create_help_request_written e request w Hset).
  unfold Server.broadcast, Server.bind, Server.get_world. simpl.
  rewrite Hconns, (send_all_fail e pre c post _ _ Hok Hfail).
  split; reflexivity.
Qed.

Lemma create_help_request_failed_notification_witness :
  let r := Server.create_help_request (env_send_fails 2) pending_request world0 in
  fst r = Server.Raise (Server.HTTPException 500
                          (Server.StrOf (Server.WebSocketError 2))) /\
  Server.help_requests (snd r)
  = <["k1" :=
        list_to_map (Server.HelpRequest_dict
                       (Server.with_id "k1" pending_request))]>
      (Server.help_requests world0).
Proof.
  apply (create_help_request_failed_notification (env_send_fails 2)
           pending_request world0 [1%nat] 2%nat [3%nat]).
  - reflexivity.
  - reflexivity.
  - intros c' Hc'. apply list_elem_of_singleton in Hc'. subst c'. reflexivity.
  - reflexivity.
Defined.

(** X12. From creation to learned knowledge.  A request created with a
    question and later answered by a supervisor with a non-empty reply
    (store and sends working in both calls) ends with status resolved,
    keeps the caller details and context it was created with, and
    yields a learned entry whose question is the created request's
    question, whose answer is the reply and whose source is the id the
    creation returned. *)
Theorem created_request_is_learned (e1 e2 : Server.env)
    (request : Server.HelpRequest) (q response : string) (w : Server.world) :
  Server.question request = Some q ->
  response <> "" ->
  (forall c, Server.store_fails e1 c = false) ->
  (forall c, Server.store_fails e2 c = false) ->
  (forall c, c ∈ Server.active_connections w ->
     Server.send_fails e1 c = false /\ Server.send_fails e2 c = false) ->
  let rid := Server.auto_id e1 in
  let r1 := Server.create_help_request e1 request w in
  let r2 := Server.handle_supervisor_response e2
              {[ "request_id" := VStr rid; "response" := VStr response ]}
              (snd r1) in
  fst r1 = Server.Ok (Server.MessageId "Help request created" rid) /\
  fst r2 = Server.Ok tt /\
  Server.field (Server.help_requests (snd r2)) rid "status"
  = Some (VStr "resolved") /\
  Server.field (Server.help_requests (snd r2)) rid "supervisor_response"
  = Some (VStr response) /\
  Server.field (Server.help_requests (snd r2)) rid "caller_details"
  = Some (Server.opt_dict (Server.caller_details request)) /\
  Server.field (Server.help_requests (snd r2)) rid "context"
  = Some (Server.opt_str (Server.context request)) /\
  Server.field (Server.learned_knowledge (snd r2)) (Server.auto_id e2) "question"
  = Some (VStr q) /\
  Server.field (Server.learned_knowledge (snd r2)) (Server.auto_id e2) "answer"
  = Some (VStr response) /\
  Server.field (Server.learned_knowledge (snd r2)) (Server.auto_id e2)
    "source_request_id" = Some (VStr rid).
Proof.
  intros Hq Hne Hs1 Hs2 Hsend rid r1 r2.
  set (stored := (list_to_map (Server.HelpRequest_dict
                                 (Server.with_id rid request))
                  : gmap string value)).
  set (event1 := VDict [("type", VStr "new_request");
                        ("data", VDict (Server.HelpRequest_dict
                                          (Server.with_id rid request)))]).
  set (w1 := Server.log_deliveries (Server.active_connections w) event1
               (Server.set_help_requests (<[rid := stored]>) w)).
  assert (Hr1 : r1 = (Server.Ok (Server.MessageId "Help request created" rid), w1)).
  { subst r1. rewrite (create_help_request_written e1 request w (Hs1 _)).
    rewrite broadcast_ok; [reflexivity |].
    intros c Hc. by apply Hsend. }
  assert (Hdoc : Server.help_requests w1 !! rid = Some stored).
  { subst w1. simpl. apply lookup_insert_eq. }
  assert (Hsq : stored !! "question" = Some (VStr q)).
  { subst stored. simpl. rewrite Hq. reflexivity. }
  set (data := ({[ "request_id" := VStr rid; "response" := VStr response ]}
                : gmap string value)).
  set (resolve := {| Server.id := None; Server.caller_details := None;
                     Server.question := Some q; Server.context := None;
                     Server.status := "resolved";
                     Server.supervisor_response := Some response |}).
  set (learned := (list_to_map (Server.LearnedKnowledgeEntry_dict e2 q response
                                  1 rid) : gmap string value)).
  assert (Hr2 : r2 = Server.broadcast e2
                       (Server.supervisor_response_event rid (VStr response)
                          (VStr q))
                       (Server.set_learned_knowledge (<[Server.auto_id e2 := learned]>)
                          (Server.set_help_requests
                             (<[rid := Server.update_data e2 resolve ∪ stored]>)
                             w1))).
  { subst r2. rewrite Hr1. cbn [snd]. fold data.
    rewrite (handle_supervisor_response_run e2 data rid (VStr response)
               (VStr q) (Some response) (Some q) w1);
      [| reflexivity | reflexivity | apply Hs2 | by rewrite Hdoc
       | reflexivity | reflexivity].
    fold resolve.
    rewrite (update_help_request_found e2 rid resolve w1 stored
               (Hs2 _) (Hs2 _) Hdoc).
    rewrite (if_resolved_inserts e2 rid resolve stored response q _
               eq_refl eq_refl Hne Hsq (Hs2 _)).
    reflexivity. }
  rewrite Hr1, Hr2. rewrite broadcast_ok.
  2: { intros c Hc. by apply Hsend. }
  simpl. unfold Server.field. rewrite !lookup_insert_eq.
  destruct (update_data_written e2 resolve) as (Ws & Wr & _ & _).
  repeat split.
  - by apply lookup_union_Some_l.
  - by apply lookup_union_Some_l.
  - rewrite lookup_union_r by (by apply update_data_other). reflexivity.
  - rewrite lookup_union_r by (by apply update_data_other). reflexivity.
Qed.

Lemma created_request_is_learned_witness :
  let r1 := Server.create_help_request (env_ok "r2") pending_request world0 in
  let r2 := Server.handle_supervisor_response (env_ok "k2")
              {[ "request_id" := VStr "r2"; "response" := VStr "9am-6pm" ]}
              (snd r1) in
  fst r1 = Server.Ok (Server.MessageId "Help request created" "r2") /\
  fst r2 = Server.Ok tt /\
  Server.field (Server.help_requests (snd r2)) "r2" "status"
  = Some (VStr "resolved") /\
  Server.field (Server.help_requests (snd r2)) "r2" "supervisor_response"
  = Some (VStr "9am-6pm") /\
  Server.field (Server.help_requests (snd r2)) "r2" "caller_details"
  = Some (VDict [("track_id", VStr "t1")]) /\
  Server.field (Server.help_requests (snd r2)) "r2" "context"
  = Some (VStr "Call from track t1") /\
  Server.field (Server.learned_knowledge (snd r2)) "k2" "question"
  = Some (VStr "What are your hours?") /\
  Server.field (Server.learned_knowledge (snd r2)) "k2" "answer"
  = Some (VStr "9am-6pm") /\
  Server.field (Server.learned_knowledge (snd r2)) "k2" "source_request_id"
  = Some (VStr "r2").
Proof.
  apply (created_request_is_learned (env_ok "r2") (env_ok "k2") pending_request
           "What are your hours?" "9am-6pm" world0).
  - reflexivity.
  - discriminate.
  - intros c. reflexivity.
  - intros c. reflexivity.
  - intros c _. split; reflexivity.
Defined.

(** ** The LiveKit webhook, continued *)

(** X13. The webhook has two outcomes only: the success body, or an
    [HTTPException] with status 500.  In both, the three collections
    and the registered connections are as before. *)
Theorem livekit_webhook_outcomes
    (hmac_sha256_b64 : string -> string -> string)
    (json_loads : string -> option value) (utf8 : string -> bool)
    (e : Server.env) (request : Server.Request) (w : Server.world) :
  let r := Server.livekit_webhook hmac_sha256_b64 json_loads utf8 e request w in
  (fst r = Server.Ok (Server.Status "success") \/
   exists ex, fst r = Server.Raise (Server.HTTPException 500 (Server.StrOf ex))) /\
  Server.help_requests (snd r) = Server.help_requests w /\
  Server.knowledge_base (snd r) = Server.knowledge_base w /\
  Server.learned_knowledge (snd r) = Server.learned_knowledge w /\
  Server.active_connections (snd r) = Server.active_connections w.
Proof.
  unfold Server.livekit_webhook, Server.try_except, Server.bind, Server.lift,
    Server.raise, Server.ret.
  destruct (utf8 (Server.body request)); simpl; [| by eauto 10].
  destruct (Server.verify_livekit_signature _ _ _ _) as [[|] | ex]; simpl;
    [| by eauto 10 | by eauto 10].
  destruct (json_loads (Server.body request)) as [data |]; simpl;
    [| by eauto 10].
  destruct (Server.LiveKitWebhook_validate data) as [webhook | ex]; simpl;
    [| by eauto 10].
  repeat case_bool_decide;
    try (destruct (Server.participant_identity webhook) as [v | ex]; simpl;
         [| by eauto 10]);
    try (destruct (Server.room_name webhook) as [v | ex]; simpl;
         by eauto 10);
    try (by eauto 10).
  - pose proof (broadcast_frame e
                  (Server.participant_event "participant_joined" webhook) w)
      as (F1 & F2 & F3 & F4 & _).
    destruct (Server.broadcast _ _ _) as [[[] | ex] w']; simpl in *; eauto 10.
  - pose proof (broadcast_frame e
                  (Server.participant_event "participant_left" webhook) w)
      as (F1 & F2 & F3 & F4 & _).
    destruct (Server.broadcast _ _ _) as [[[] | ex] w']; simpl in *; eauto 10.
Qed.

(** X14. The webhook sends nothing unless the signature verified and
    the body is a well-formed participant_joined or participant_left
    event with an identity; what it then sends is that event's message
    and nothing else. *)
Theorem livekit_webhook_sends_only_participant_events
    (hmac_sha256_b64 : string -> string -> string)
    (json_loads : string -> option value) (utf8 : string -> bool)
    (e : Server.env) (request : Server.Request) (w : Server.world) :
  let r := Server.livekit_webhook hmac_sha256_b64 json_loads utf8 e request w in
  Server.delivered (snd r) = Server.delivered w \/
  (Server.verify_livekit_signature hmac_sha256_b64 e request (Server.body request)
   = Server.Ok true /\
   exists data webhook (type : string) identity sent,
     json_loads (Server.body request) = Some data /\
     Server.LiveKitWebhook_validate data = Server.Ok webhook /\
     Server.event webhook = String.append "room." type /\
     (type = "participant_joined" \/ type = "participant_left") /\
     Server.participant_identity webhook = Server.Ok identity /\
     Server.delivered (snd r) = Server.delivered w ++ sent /\
     forall p, p ∈ sent -> p.2 = Server.participant_event type webhook).
Proof.
  unfold Server.livekit_webhook, Server.try_except, Server.bind, Server.lift,
    Server.raise, Server.ret.
  destruct (utf8 (Server.body request)); simpl; [| by left].
  destruct (Server.verify_livekit_signature _ _ _ _) as [[|] | ex]; simpl;
    [| by left | by left].
  destruct (json_loads (Server.body request)) as [data |]; simpl; [| by left].
  destruct (Server.LiveKitWebhook_validate data) as [webhook | ex] eqn:Hv;
    simpl; [| by left].
  repeat case_bool_decide;
    try (destruct (Server.participant_identity webhook) as [v | ex] eqn:Hi;
         simpl; [| by left]);
    try (destruct (Server.room_name webhook) as [v | ex]; simpl; by left);
    try (by left).
  - pose proof (broadcast_frame e
                  (Server.participant_event "participant_joined" webhook) w)
      as (_ & _ & _ & _ & sent & F5 & F6).
    right. split; [reflexivity |].
    exists data, webhook, "participant_joined", v, sent.
    destruct (Server.broadcast _ _ _) as [[[] | ex] w']; simpl in *;
      repeat split; auto.
  - pose proof (broadcast_frame e
                  (Server.participant_event "participant_left" webhook) w)
      as (_ & _ & _ & _ & sent & F5 & F6).
    right. split; [reflexivity |].
    exists data, webhook, "participant_left", v, sent.
    destruct (Server.broadcast _ _ _) as [[[] | ex] w']; simpl in *;
      repeat split; auto.
Qed.

(** A correctly signed participant_joined event, sends working:
    the webhook answers success and every registered connection
    receives the participant_joined message with the participant and
    the room of the event. *)
Theorem livekit_webhook_relays_participant_joined
    (hmac_sha256_b64 : string -> string -> string)
    (json_loads : string -> option value) (utf8 : string -> bool)
    (e : Server.env) (request : Server.Request) (w : Server.world)
    (data : value) (webhook : Server.LiveKitWebhook) (identity : value) :
  utf8 (Server.body request) = true ->
  Server.verify_livekit_signature hmac_sha256_b64 e request (Server.body request)
  = Server.Ok true ->
  json_loads (Server.body request) = Some data ->
  Server.LiveKitWebhook_validate data = Server.Ok webhook ->
  Server.event webhook = "room.participant_joined" ->
  Server.participant_identity webhook = Server.Ok identity ->
  (forall c, c ∈ Server.active_connections w -> Server.send_fails e c = false) ->
  let r := Server.livekit_webhook hmac_sha256_b64 json_loads utf8 e request w in
  fst r = Server.Ok (Server.Status "success") /\
  Server.delivered (snd r)
  = Server.delivered w
    ++ map (fun c =>
              (c, VDict [("type", VStr "participant_joined");
                         ("data",
                          VDict [("participant",
                                  Server.opt_dict (Server.participant webhook));
                                 ("room", VDict (Server.room webhook))])]))
           (Server.active_connections w).
Proof.
  intros Hutf Hver Hjson Hval Hev Hid Hsend r. subst r.
  unfold Server.livekit_webhook, Server.try_except, Server.bind, Server.lift,
    Server.raise, Server.ret.
  rewrite Hutf. simpl. rewrite Hver. simpl. rewrite Hjson, Hval. simpl.
  rewrite (bool_decide_eq_true_2 _ Hev), Hid.
  rewrite broadcast_ok by exact Hsend. split; reflexivity.
Qed.

Lemma livekit_webhook_relays_participant_joined_witness :
  let r := Server.livekit_webhook toy_hmac toy_json_loads toy_utf8
             (env_ok "k1") signed_request world0 in
  fst r = Server.Ok (Server.Status "success") /\
  Server.delivered (snd r)
  = Server.delivered world0
    ++ map (fun c =>
              (c, VDict [("type", VStr "participant_joined");
                         ("data",
                          VDict [("participant",
                                  VDict [("identity", VStr "caller-1")]);
                                 ("room", VDict [("name", VStr "salon")])])]))
           (Server.active_connections world0).
Proof.
  apply (livekit_webhook_relays_participant_joined toy_hmac toy_json_loads
           toy_utf8 (env_ok "k1") signed_request world0 joined_data
           {| Server.event := "room.participant_joined";
              Server.room := [("name", VStr "salon")];
              Server.participant := Some [("identity", VStr "caller-1")];
              Server.track := None; Server.recording := None |}
           (VStr "caller-1")).
  - reflexivity.
  - reflexivity.
  - reflexivity.
  - reflexivity.
  - reflexivity.
  - reflexivity.
  - intros c _. reflexivity.
Defined.

(** X15. A server without LIVEKIT_API_SECRET, or with an empty one,
    rejects every webhook whose body decodes, correctly signed or not:
    the answer is the 500 that wraps the 401, and nothing is sent. *)
Theorem livekit_webhook_without_secret
    (hmac_sha256_b64 : string -> string -> string)
    (json_loads : string -> option value) (utf8 : string -> bool)
    (e : Server.env) (request : Server.Request) (w : Server.world) :
  Server.LIVEKIT_API_SECRET e = None \/ Server.LIVEKIT_API_SECRET e = Some "" ->
  utf8 (Server.body request) = true ->
  Server.livekit_webhook hmac_sha256_b64 json_loads utf8 e request w
  = (Server.Raise
       (Server.HTTPException 500
          (Server.StrOf
             (Server.HTTPException 401 (Server.Text "Invalid signature")))), w).
Proof.
  intros Hsecret Hutf.
  assert (Hver : Server.verify_livekit_signature hmac_sha256_b64 e request
                   (Server.body request) = Server.Ok false).
  { unfold Server.verify_livekit_signature.
    destruct (Server.LiveKit_Signature request) as [signature |];
      [| reflexivity].
    case_bool_decide; [reflexivity |].
    destruct Hsecret as [-> | ->]; reflexivity. }
  unfold Server.livekit_webhook, Server.try_except, Server.bind, Server.lift,
    Server.raise, Server.ret.
  rewrite Hutf. simpl. rewrite Hver. reflexivity.
Qed.

Lemma livekit_webhook_without_secret_witness :
  Server.livekit_webhook toy_hmac toy_json_loads toy_utf8 env_no_secret
    signed_request world0
  = (Server.Raise
       (Server.HTTPException 500
          (Server.StrOf
             (Server.HTTPException 401 (Server.Text "Invalid signature")))),
     world0).
Proof.
  apply (livekit_webhook_without_secret toy_hmac toy_json_loads toy_utf8
           env_no_secret signed_request world0).
  - left. reflexivity.
  - reflexivity.
Defined.

(** ** Adding knowledge entries, continued *)

(** A posted learned entry that lacks question, answer or
    confidence is refused, but as a 500: the 422 raised for it is caught
    by the handler's own [except] and wrapped.  Nothing is stored. *)
Theorem add_learned_knowledge_missing_field (e : Server.env)
    (entry : gmap string value) (w : Server.world) :
  entry !! "question" = None \/ entry !! "answer" = None \/
  entry !! "confidence" = None ->
  Server.add_learned_knowledge e entry w
  = (Server.Raise
       (Server.HTTPException 500
          (Server.StrOf
             (Server.HTTPException 422 (Server.Text "Missing required fields")))),
     w).
Proof.
  intros Hmissing.
  unfold Server.add_learned_knowledge, Server.try_except, Server.raise.
  destruct (entry !! "question"), (entry !! "answer"), (entry !! "confidence");
    try reflexivity.
  destruct Hmissing as [H | [H | H]]; discriminate.
Qed.

Lemma add_learned_knowledge_missing_field_witness :
  Server.add_learned_knowledge (env_ok "k2")
    {[ "question" := VStr "Do you take walk-ins?" ]} world0
  = (Server.Raise
       (Server.HTTPException 500
          (Server.StrOf
             (Server.HTTPException 422 (Server.Text "Missing required fields")))),
     world0).
Proof.
  apply (add_learned_knowledge_missing_field (env_ok "k2")
           {[ "question" := VStr "Do you take walk-ins?" ]} world0).
  right. left. reflexivity.
Defined.

(** X16. What a posted learned entry becomes.  The stored document has
    the posted question, answer and confidence; times_used 0 and
    success_rate 1.0 whatever the post says; verified, last_updated,
    source_request_id and supervisor_id as posted, or else false, the
    current time, the empty string and null; and no other field: keys
    the handler does not know are dropped. *)
Theorem add_learned_knowledge_stored_fields (e : Server.env)
    (entry : gmap string value) (question answer confidence : value)
    (w : Server.world) :
  entry !! "question" = Some question ->
  entry !! "answer" = Some answer ->
  entry !! "confidence" = Some confidence ->
  Server.store_fails e Server.AlkSet = false ->
  let r := Server.add_learned_knowledge e entry w in
  let stored := Server.field (Server.learned_knowledge (snd r)) (Server.auto_id e) in
  stored "question" = Some question /\
  stored "answer" = Some answer /\
  stored "confidence" = Some confidence /\
  stored "times_used" = Some (VInt 0) /\
  stored "success_rate" = Some (VFloat 1) /\
  stored "verified" = Some (default (VBool false) (entry !! "verified")) /\
  stored "last_updated"
  = Some (default (VStr (Server.now e)) (entry !! "last_updated")) /\
  stored "source_request_id"
  = Some (default (VStr "") (entry !! "source_request_id")) /\
  stored "supervisor_id" = Some (default VNone (entry !! "supervisor_id")) /\
  forall k,
    k ∉ ["question"; "answer"; "confidence"; "verified"; "last_updated";
         "times_used"; "success_rate"; "source_request_id"; "supervisor_id"] ->
    stored k = None.
Proof.
  intros Hq Ha Hc Hset r stored. subst stored r.
  unfold Server.add_learned_knowledge, Server.try_except, Server.bind,
    Server.store, Server.modify, Server.ret.
  rewrite Hq, Ha, Hc, Hset. simpl. unfold Server.field.
  rewrite lookup_insert_eq. unfold Server.get_default.
  repeat split;
    try (destruct (entry !! _); reflexivity).
  intros k Hk. apply not_elem_of_list_to_map. exact Hk.
Qed.

Lemma add_learned_knowledge_stored_fields_witness :
  let r := Server.add_learned_knowledge (env_ok "k2") posted_with_counters
             world0 in
  let stored := Server.field (Server.learned_knowledge (snd r)) "k2" in
  stored "question" = Some (VStr "Do you take walk-ins?") /\
  stored "answer" = Some (VStr "Yes") /\
  stored "confidence" = Some (VFloat (1 # 2)) /\
  stored "times_used" = Some (VInt 0) /\
  stored "success_rate" = Some (VFloat 1) /\
  stored "verified"
  = Some (default (VBool false) (posted_with_counters !! "verified")) /\
  stored "last_updated"
  = Some (default (VStr "2025-01-01T10:00:00")
            (posted_with_counters !! "last_updated")) /\
  stored "source_request_id"
  = Some (default (VStr "") (posted_with_counters !! "source_request_id")) /\
  stored "supervisor_id"
  = Some (default VNone (posted_with_counters !! "supervisor_id")) /\
  forall k,
    k ∉ ["question"; "answer"; "confidence"; "verified"; "last_updated";
         "times_used"; "success_rate"; "source_request_id"; "supervisor_id"] ->
    stored k = None.
Proof.
  apply (add_learned_knowledge_stored_fields (env_ok "k2") posted_with_counters
           (VStr "Do you take walk-ins?") (VStr "Yes") (VFloat (1 # 2)) world0);
    reflexivity.
Defined.

(** A predefined entry is always stored as predefined and
    verified, whatever source and verified flag were posted; question,
    answer, confidence and last_updated are stored as posted. *)
Theorem add_predefined_knowledge_forces_flags (e : Server.env)
    (entry : Server.KnowledgeBaseEntry) (w : Server.world) :
  Server.store_fails e Server.ApkSet = false ->
  let r := Server.add_predefined_knowledge e entry w in
  let stored := Server.field (Server.knowledge_base (snd r)) (Server.auto_id e) in
  fst r = Server.Ok (Server.Message "Predefined knowledge entry added") /\
  stored "source" = Some (VStr "predefined") /\
  stored "verified" = Some (VBool true) /\
  stored "question" = Some (VStr (Server.kb_question entry)) /\
  stored "answer" = Some (VStr (Server.kb_answer entry)) /\
  stored "confidence" = Some (VFloat (Server.kb_confidence entry)) /\
  stored "last_updated" = Some (VStr (Server.kb_last_updated entry)).
Proof.
  intros Hset r stored. subst stored r.
  unfold Server.add_predefined_knowledge, Server.try_except, Server.bind,
    Server.store, Server.modify, Server.ret.
  rewrite Hset. simpl. unfold Server.field. rewrite lookup_insert_eq.
  repeat split.
Qed.

Lemma add_predefined_knowledge_forces_flags_witness :
  let r := Server.add_predefined_knowledge (env_ok "p1")
             {| Server.kb_question := "When do you open?";
                Server.kb_answer := "We open at 9am";
                Server.kb_confidence := 1 # 2;
                Server.kb_last_updated := "2025-01-01T09:00:00";
                Server.kb_source := "learned";
                Server.kb_verified := false |} world0 in
  let stored := Server.field (Server.knowledge_base (snd r)) "p1" in
  fst r = Server.Ok (Server.Message "Predefined knowledge entry added") /\
  stored "source" = Some (VStr "predefined") /\
  stored "verified" = Some (VBool true) /\
  stored "question" = Some (VStr "When do you open?") /\
  stored "answer" = Some (VStr "We open at 9am") /\
  stored "confidence" = Some (VFloat (1 # 2)) /\
  stored "last_updated" = Some (VStr "2025-01-01T09:00:00").
Proof.
  apply (add_predefined_knowledge_forces_flags (env_ok "p1")
           {| Server.kb_question := "When do you open?";
              Server.kb_answer := "We open at 9am";
              Server.kb_confidence := 1 # 2;
              Server.kb_last_updated := "2025-01-01T09:00:00";
              Server.kb_source := "learned";
              Server.kb_verified := false |} world0).
  reflexivity.
Defined.

(** ** The agent's lookup, continued *)



(** X18. A learned answer that is used is counted once.  When the
    lower-cased query misses the predefined tier and hits a trusted
    learned entry, that entry's times_used grows by exactly one and its
    other fields stay; the other learned entries and the predefined
    tier are unchanged; and the usage report is sent exactly when the
    entry has a non-empty id and the request does not raise, carrying
    the new count. *)
Theorem check_knowledge_base_counts_one_use (lower : string -> string)
    (put_raises : bool) (query : string) (a : Agent.agent)
    (entry : Agent.learned_entry) :
  Agent.predefined_knowledge a !! lower query = None ->
  Agent.learned_knowledge a !! lower query = Some entry ->
  Agent.trusted entry = true ->
  let a' := snd (Agent.check_knowledge_base lower put_raises query a) in
  Agent.learned_knowledge a' !! lower query
  = Some (Agent.with_times_used (Agent.times_used entry + 1) entry) /\
  (forall k, k <> lower query ->
     Agent.learned_knowledge a' !! k = Agent.learned_knowledge a !! k) /\
  Agent.predefined_knowledge a' = Agent.predefined_knowledge a /\
  Agent.sent_puts a'
  = Agent.sent_puts a
    ++ match Agent.truthy_id (Agent.id entry) with
       | Some i =>
         if put_raises then []
         else [{| Agent.put_id := i; Agent.put_question := lower query;
                  Agent.put_answer := Agent.answer entry;
                  Agent.put_confidence := Agent.confidence entry;
                  Agent.put_verified := Agent.verified entry;
                  Agent.put_times_used := Agent.times_used entry + 1;
                  Agent.put_success_rate := Agent.success_rate entry |}]
       | None => []
       end.
Proof.
  intros Hpre Hlearned Ht a'. subst a'.
  unfold Agent.check_knowledge_base. rewrite Hpre, Hlearned, Ht. simpl.
  destruct (Agent.truthy_id (Agent.id entry)) as [i |];
    [destruct put_raises |]; simpl; rewrite ?app_nil_r;
    (split; [apply lookup_insert_eq |]);
    (split; [intros k Hk; by apply lookup_insert_ne |]);
    split; reflexivity.
Qed.

Lemma check_knowledge_base_counts_one_use_witness :
  let a' := snd (Agent.check_knowledge_base ascii_lower false
                   "Are you open on Sunday?" agent0) in
  Agent.learned_knowledge a' !! ascii_lower "Are you open on Sunday?"
  = Some (Agent.with_times_used (Agent.times_used fresh_entry + 1) fresh_entry) /\
  (forall k, k <> ascii_lower "Are you open on Sunday?" ->
     Agent.learned_knowledge a' !! k = Agent.learned_knowledge agent0 !! k) /\
  Agent.predefined_knowledge a' = Agent.predefined_knowledge agent0 /\
  Agent.sent_puts a'
  = Agent.sent_puts agent0
    ++ match Agent.truthy_id (Agent.id fresh_entry) with
       | Some i =>
         if false then []
         else [{| Agent.put_id := i;
                  Agent.put_question := ascii_lower "Are you open on Sunday?";
                  Agent.put_answer := Agent.answer fresh_entry;
                  Agent.put_confidence := Agent.confidence fresh_entry;
                  Agent.put_verified := Agent.verified fresh_entry;
                  Agent.put_times_used := Agent.times_used fresh_entry + 1;
                  Agent.put_success_rate := Agent.success_rate fresh_entry |}]
       | None => []
       end.
Proof.
  apply (check_knowledge_base_counts_one_use ascii_lower false
           "Are you open on Sunday?" agent0 fresh_entry); reflexivity.
Defined.

(** ** Maintenance of the learned and predefined collections *)

(** X19. [update_learned_knowledge] reports its own refusals with their
    status: 400 for an empty or undefined id, then 404 for an id that is
    not stored, then 422 for a body without question, answer or
    confidence.  In each case nothing is written. *)
Theorem update_learned_knowledge_refusals (f : Endpoints.faults)
    (e : Server.env) (entry_id : string) (entry : gmap string value)
    (w : Server.world) :
  let r := Endpoints.update_learned_knowledge f e entry_id entry w in
  (entry_id = "" \/ entry_id = "undefined" ->
   r = (Server.Raise (Server.HTTPException 400 (Server.Text "Invalid entry ID")),
        w)) /\
  (entry_id <> "" -> entry_id <> "undefined" ->
   Endpoints.read_fails f = false ->
   Server.learned_knowledge w !! entry_id = None ->
   r = (Server.Raise (Server.HTTPException 404 (Server.Text "Entry not found")),
        w)) /\
  (entry_id <> "" -> entry_id <> "undefined" ->
   Endpoints.read_fails f = false ->
   is_Some (Server.learned_knowledge w !! entry_id) ->
   entry !! "question" = None \/ entry !! "answer" = None \/
   entry !! "confidence" = None ->
   r = (Server.Raise
          (Server.HTTPException 422 (Server.Text "Missing required fields")),
        w)).
Proof.
  intros r. subst r.
  unfold Endpoints.update_learned_knowledge, Server.try_except, Server.bind,
    Endpoints.read, Server.get_world, Server.raise, Server.ret.
  repeat split.
  - intros [-> | ->]; reflexivity.
  - intros H1 H2 Hread Hdoc.
    rewrite (bool_decide_eq_false_2 _ H1), (bool_decide_eq_false_2 _ H2).
    simpl. rewrite Hread. simpl. rewrite Hdoc. reflexivity.
  - intros H1 H2 Hread [d Hdoc] Hmissing.
    rewrite (bool_decide_eq_false_2 _ H1), (bool_decide_eq_false_2 _ H2).
    simpl. rewrite Hread. simpl. rewrite Hdoc.
    destruct (entry !! "question"), (entry !! "answer"),
      (entry !! "confidence"); try reflexivity.
    destruct Hmissing as [H | [H | H]]; discriminate.
Qed.

Lemma update_learned_knowledge_refusals_witness :
  Endpoints.update_learned_knowledge no_faults (env_ok "k1") "k9"
    posted_entry world1
  = (Server.Raise (Server.HTTPException 404 (Server.Text "Entry not found")),
     world1).
Proof.
  apply (update_learned_knowledge_refusals no_faults (env_ok "k1") "k9"
           posted_entry world1).
  - discriminate.
  - discriminate.
  - reflexivity.
  - reflexivity.
Defined.

(** X20. The other maintenance handlers do not: for an id that is not
    stored, [update_knowledge_entry], [update_predefined_knowledge] and
    the three delete handlers raise their 404 inside their own [try],
    and answer 500 with the 404 as detail.  Nothing is written. *)
Theorem missing_entry_is_answered_500 (f : Endpoints.faults)
    (entry_id : string) (entry : Server.KnowledgeBaseEntry) (w : Server.world) :
  Endpoints.read_fails f = false ->
  Server.knowledge_base w !! entry_id = None ->
  Server.learned_knowledge w !! entry_id = None ->
  let wrapped :=
    (Server.Raise (A := Server.content)
       (Server.HTTPException 500
          (Server.StrOf
             (Server.HTTPException 404 (Server.Text "Entry not found")))), w) in
  Endpoints.update_knowledge_entry f entry_id entry w = wrapped /\
  Endpoints.update_predefined_knowledge f entry_id entry w = wrapped /\
  Endpoints.delete_knowledge_entry f entry_id w = wrapped /\
  Endpoints.delete_predefined_knowledge f entry_id w = wrapped /\
  Endpoints.delete_learned_knowledge f entry_id w = wrapped.
Proof.
  intros Hread Hkb Hlk wrapped. subst wrapped.
  unfold Endpoints.update_knowledge_entry, Endpoints.update_predefined_knowledge,
    Endpoints.delete_knowledge_entry, Endpoints.delete_predefined_knowledge,
    Endpoints.delete_learned_knowledge, Endpoints.update_entry,
    Endpoints.delete_entry, Server.try_except, Server.bind, Endpoints.read,
    Server.get_world, Server.raise.
  rewrite Hread. simpl. rewrite Hkb, Hlk. repeat split.
Qed.

Lemma missing_entry_is_answered_500_witness :
  let wrapped :=
    (Server.Raise (A := Server.content)
       (Server.HTTPException 500
          (Server.StrOf
             (Server.HTTPException 404 (Server.Text "Entry not found")))),
     world1) in
  Endpoints.update_knowledge_entry no_faults "k9" posted_predefined world1
  = wrapped /\
  Endpoints.update_predefined_knowledge no_faults "k9" posted_predefined world1
  = wrapped /\
  Endpoints.delete_knowledge_entry no_faults "k9" world1 = wrapped /\
  Endpoints.delete_predefined_knowledge no_faults "k9" world1 = wrapped /\
  Endpoints.delete_learned_knowledge no_faults "k9" world1 = wrapped.
Proof.
  apply (missing_entry_is_answered_500 no_faults "k9" posted_predefined world1);
    reflexivity.
Defined.

Lemma learned_update_data_other (e : Server.env) (entry : gmap string value)
    (question answer confidence : value) (k : string) :
  k ∉ ["question"; "answer"; "confidence"; "verified"; "last_updated";
       "times_used"; "success_rate"] ->
  Endpoints.learned_update_data e entry question answer confidence !! k = None.
Proof.
  intros Hk. unfold Endpoints.learned_update_data.
  apply not_elem_of_list_to_map. exact Hk.
Qed.

(** How [update_learned_knowledge] runs on a stored entry. *)
Lemma update_learned_knowledge_run (f : Endpoints.faults) (e : Server.env)
    (entry_id : string) (entry d : gmap string value)
    (question answer confidence : value) (w : Server.world) :
  entry_id <> "" -> entry_id <> "undefined" ->
  Endpoints.read_fails f = false ->
  Endpoints.write_fails f = false ->
  Server.learned_knowledge w !! entry_id = Some d ->
  entry !! "question" = Some question ->
  entry !! "answer" = Some answer ->
  entry !! "confidence" = Some confidence ->
  Endpoints.update_learned_knowledge f e entry_id entry w
  = (Server.Ok (Server.MessageId "Learned knowledge entry updated successfully"
                  entry_id),
     Server.set_learned_knowledge
       (<[entry_id :=
            Endpoints.learned_update_data e entry question answer confidence
            ∪ d]>) w).
Proof.
  intros H1 H2 Hread Hwrite Hdoc Hq Ha Hc.
  unfold Endpoints.update_learned_knowledge, Server.try_except, Server.bind,
    Endpoints.read, Endpoints.write, Server.get_world, Server.modify,
    Server.raise, Server.ret.
  rewrite (bool_decide_eq_false_2 _ H1), (bool_decide_eq_false_2 _ H2).
  simpl. rewrite Hread. simpl. rewrite Hdoc, Hq, Ha, Hc, Hwrite. reflexivity.
Qed.

(** X21. What an update of a learned entry does to the stored document.
    Question, answer and confidence are replaced and last_updated is
    set to the current time; verified, times_used and success_rate are
    replaced too, and fall back to false, 0 and 1.0 when the body leaves
    them out, so an update without them un-verifies the entry and
    resets its counters.  Every other stored field (source_request_id
    and supervisor_id among them) and every other entry is kept. *)
Theorem update_learned_knowledge_stored_fields (f : Endpoints.faults)
    (e : Server.env) (entry_id : string) (entry d : gmap string value)
    (question answer confidence : value) (w : Server.world) :
  entry_id <> "" -> entry_id <> "undefined" ->
  Endpoints.read_fails f = false ->
  Endpoints.write_fails f = false ->
  Server.learned_knowledge w !! entry_id = Some d ->
  entry !! "question" = Some question ->
  entry !! "answer" = Some answer ->
  entry !! "confidence" = Some confidence ->
  let r := Endpoints.update_learned_knowledge f e entry_id entry w in
  let stored := Server.field (Server.learned_knowledge (snd r)) entry_id in
  fst r = Server.Ok (Server.MessageId
                       "Learned knowledge entry updated successfully" entry_id) /\
  stored "question" = Some question /\
  stored "answer" = Some answer /\
  stored "confidence" = Some confidence /\
  stored "last_updated" = Some (VStr (Server.now e)) /\
  stored "verified" = Some (default (VBool false) (entry !! "verified")) /\
  stored "times_used" = Some (default (VInt 0) (entry !! "times_used")) /\
  stored "success_rate" = Some (default (VFloat 1) (entry !! "success_rate")) /\
  stored "source_request_id" = d !! "source_request_id" /\
  stored "supervisor_id" = d !! "supervisor_id" /\
  (forall k,
     k ∉ ["question"; "answer"; "confidence"; "verified"; "last_updated";
          "times_used"; "success_rate"] ->
     stored k = d !! k) /\
  (forall other, other <> entry_id ->
     Server.learned_knowledge (snd r) !! other
     = Server.learned_knowledge w !! other).
Proof.
  intros H1 H2 Hread Hwrite Hdoc Hq Ha Hc r stored. subst stored r.
  rewrite (update_learned_knowledge_run f e entry_id entry d question answer
             confidence w H1 H2 Hread Hwrite Hdoc Hq Ha Hc).
  simpl. unfold Server.field. rewrite lookup_insert_eq.
  assert (Hother : forall k,
            k ∉ ["question"; "answer"; "confidence"; "verified"; "last_updated";
                 "times_used"; "success_rate"] ->
            (Endpoints.learned_update_data e entry question answer confidence
             ∪ d) !! k = d !! k).
  { intros k Hk. apply lookup_union_r. by apply learned_update_data_other. }
  split; [reflexivity |].
  repeat split;
    try (apply lookup_union_Some_l; unfold Server.get_default;
         destruct (entry !! _); reflexivity);
    try (apply lookup_union_Some_l; reflexivity).
  - apply Hother.
    repeat (apply not_elem_of_cons; split; [discriminate |]).
    apply not_elem_of_nil.
  - apply Hother.
    repeat (apply not_elem_of_cons; split; [discriminate |]).
    apply not_elem_of_nil.
  - exact Hother.
  - intros other Hother'. by apply lookup_insert_ne.
Qed.

Lemma update_learned_knowledge_stored_fields_witness :
  let r := Endpoints.update_learned_knowledge no_faults (env_ok "k1") "k1"
             posted_entry world1 in
  let stored := Server.field (Server.learned_knowledge (snd r)) "k1" in
  let d := list_to_map
             (Server.LearnedKnowledgeEntry_dict (env_ok "k1")
                "What are your hours?" "9am-6pm" 1 "r1") : gmap string value in
  fst r = Server.Ok (Server.MessageId
                       "Learned knowledge entry updated successfully" "k1") /\
  stored "question" = Some (VStr "What are your hours?") /\
  stored "answer" = Some (VStr "Closed today") /\
  stored "confidence" = Some (VFloat 1) /\
  stored "last_updated" = Some (VStr "2025-01-01T10:00:00") /\
  stored "verified" = Some (default (VBool false) (posted_entry !! "verified")) /\
  stored "times_used" = Some (default (VInt 0) (posted_entry !! "times_used")) /\
  stored "success_rate"
  = Some (default (VFloat 1) (posted_entry !! "success_rate")) /\
  stored "source_request_id" = d !! "source_request_id" /\
  stored "supervisor_id" = d !! "supervisor_id" /\
  (forall k,
     k ∉ ["question"; "answer"; "confidence"; "verified"; "last_updated";
          "times_used"; "success_rate"] ->
     stored k = d !! k) /\
  (forall other, other <> "k1" ->
     Server.learned_knowledge (snd r) !! other
     = Server.learned_knowledge world1 !! other).
Proof.
  apply (update_learned_knowledge_stored_fields no_faults (env_ok "k1") "k1"
           posted_entry
           (list_to_map
              (Server.LearnedKnowledgeEntry_dict (env_ok "k1")
                 "What are your hours?" "9am-6pm" 1 "r1"))
           (VStr "What are your hours?") (VStr "Closed today") (VFloat 1) world1);
    try reflexivity; discriminate.
Defined.

(** X22. The agent's usage report, applied by the server.  When a
    lookup uses a trusted learned entry that has an id, the PUT it
    sends, handled by [update_learned_knowledge] on a server that stores
    that id, overwrites the stored counters with the agent's: the stored
    times_used becomes the agent's count after the use, and the stored
    question becomes the lower-cased query.  The entry's source request
    is kept. *)
Theorem usage_report_overwrites_stored_entry (lower : string -> string)
    (query i : string) (a : Agent.agent) (entry : Agent.learned_entry)
    (f : Endpoints.faults) (e : Server.env) (d : gmap string value)
    (w : Server.world) :
  Agent.predefined_knowledge a !! lower query = None ->
  Agent.learned_knowledge a !! lower query = Some entry ->
  Agent.trusted entry = true ->
  Agent.truthy_id (Agent.id entry) = Some i ->
  i <> "undefined" ->
  Endpoints.read_fails f = false ->
  Endpoints.write_fails f = false ->
  Server.learned_knowledge w !! i = Some d ->
  exists p,
    Agent.sent_puts (snd (Agent.check_knowledge_base lower false query a))
    = Agent.sent_puts a ++ [p] /\
    Agent.put_id p = i /\
    let r := Endpoints.update_learned_knowledge f e (Agent.put_id p)
               (Endpoints.usage_put_body p) w in
    let stored := Server.field (Server.learned_knowledge (snd r)) i in
    fst r = Server.Ok (Server.MessageId
                         "Learned knowledge entry updated successfully" i) /\
    stored "times_used" = Some (VInt (Agent.times_used entry + 1)) /\
    stored "question" = Some (VStr (lower query)) /\
    stored "answer" = Some (VStr (Agent.answer entry)) /\
    stored "confidence" = Some (VFloat (Agent.confidence entry)) /\
    stored "verified" = Some (VBool (Agent.verified entry)) /\
    stored "success_rate" = Some (VFloat (Agent.success_rate entry)) /\
    stored "source_request_id" = d !! "source_request_id".
Proof.
  intros Hpre Hlearned Ht Hid Hund Hread Hwrite Hdoc.
  assert (Hne : i <> "").
  { unfold Agent.truthy_id in Hid. destruct (Agent.id entry) as [s |];
      [| discriminate].
    destruct (decide (s = "")); [discriminate |]. by injection Hid as <-. }
  eexists. split.
  { unfold Agent.check_knowledge_base. rewrite Hpre, Hlearned, Ht. simpl.
    rewrite Hid. reflexivity. }
  split; [reflexivity |]. cbn [Agent.put_id].
  erewrite (update_learned_knowledge_run f e i _ d _ _ _ w Hne Hund Hread Hwrite
              Hdoc); [| reflexivity | reflexivity | reflexivity].
  simpl. unfold Server.field. rewrite lookup_insert_eq.
  split; [reflexivity |].
  repeat split; try (apply lookup_union_Some_l; reflexivity).
  apply lookup_union_r. apply learned_update_data_other.
  repeat (apply not_elem_of_cons; split; [discriminate |]).
  apply not_elem_of_nil.
Qed.

Lemma usage_report_overwrites_stored_entry_witness :
  exists p,
    Agent.sent_puts
      (snd (Agent.check_knowledge_base ascii_lower false
              "Are you open on Sunday?" agent1))
    = Agent.sent_puts agent1 ++ [p] /\
    Agent.put_id p = "k2" /\
    let r := Endpoints.update_learned_knowledge no_faults (env_ok "k1")
               (Agent.put_id p) (Endpoints.usage_put_body p) world2 in
    let stored := Server.field (Server.learned_knowledge (snd r)) "k2" in
    fst r = Server.Ok (Server.MessageId
                         "Learned knowledge entry updated successfully" "k2") /\
    stored "times_used" = Some (VInt (Agent.times_used fresh_entry + 1)) /\
    stored "question" = Some (VStr (ascii_lower "Are you open on Sunday?")) /\
    stored "answer" = Some (VStr (Agent.answer fresh_entry)) /\
    stored "confidence" = Some (VFloat (Agent.confidence fresh_entry)) /\
    stored "verified" = Some (VBool (Agent.verified fresh_entry)) /\
    stored "success_rate" = Some (VFloat (Agent.success_rate fresh_entry)) /\
    stored "source_request_id"
    = (list_to_map
         (Server.LearnedKnowledgeEntry_dict (env_ok "k2")
            "Are you open on Sunday?" "Yes, on Sundays too" 1 "r7")
       : gmap string value) !! "source_request_id".
Proof.
  apply (usage_report_overwrites_stored_entry ascii_lower
           "Are you open on Sunday?" "k2" agent1 fresh_entry no_faults
           (env_ok "k1")
           (list_to_map
              (Server.LearnedKnowledgeEntry_dict (env_ok "k2")
                 "Are you open on Sunday?" "Yes, on Sundays too" 1 "r7"))
           world2); try reflexivity; discriminate.
Defined.

(** X23. Verifying a learned entry.  On a stored entry the verified
    flag becomes the requested one and last_updated the current time;
    every other field of the entry and every other entry stay as they
    were.  On an id that is not stored the update raises: the answer is
    500 and no document is created. *)
Theorem verify_learned_entry_effect (f : Endpoints.faults) (e : Server.env)
    (entry_id : string) (verified : bool) (w : Server.world) :
  Endpoints.write_fails f = false ->
  let r := Endpoints.verify_learned_entry f e entry_id verified w in
  let stored := Server.field (Server.learned_knowledge (snd r)) entry_id in
  match Server.learned_knowledge w !! entry_id with
  | Some d =>
    fst r = Server.Ok (Server.Message "Learned knowledge entry verified") /\
    stored "verified" = Some (VBool verified) /\
    stored "last_updated" = Some (VStr (Server.now e)) /\
    (forall k, k <> "verified" -> k <> "last_updated" -> stored k = d !! k) /\
    (forall other, other <> entry_id ->
       Server.learned_knowledge (snd r) !! other
       = Server.learned_knowledge w !! other)
  | None =>
    r = (Server.Raise (Server.HTTPException 500 (Server.StrOf Server.StoreError)),
         w)
  end.
Proof.
  intros Hwrite r stored. subst stored r.
  unfold Endpoints.verify_learned_entry, Server.try_except, Server.bind,
    Endpoints.write, Server.get_world, Server.modify, Server.raise, Server.ret.
  rewrite Hwrite. simpl.
  destruct (Server.learned_knowledge w !! entry_id) as [d |]; [| reflexivity].
  simpl. unfold Server.field. rewrite lookup_insert_eq.
  split; [reflexivity |].
  split; [by apply lookup_union_Some_l |].
  split; [by apply lookup_union_Some_l |].
  split.
  - intros k Hk1 Hk2. apply lookup_union_r.
    rewrite lookup_insert_ne by congruence.
    apply lookup_singleton_ne. congruence.
  - intros other Hother. by apply lookup_insert_ne.
Qed.

Lemma verify_learned_entry_effect_witness :
  let r := Endpoints.verify_learned_entry no_faults (env_ok "k1") "k1" true
             world1 in
  let stored := Server.field (Server.learned_knowledge (snd r)) "k1" in
  match Server.learned_knowledge world1 !! "k1" with
  | Some d =>
    fst r = Server.Ok (Server.Message "Learned knowledge entry verified") /\
    stored "verified" = Some (VBool true) /\
    stored "last_updated" = Some (VStr "2025-01-01T10:00:00") /\
    (forall k, k <> "verified" -> k <> "last_updated" -> stored k = d !! k) /\
    (forall other, other <> "k1" ->
       Server.learned_knowledge (snd r) !! other
       = Server.learned_knowledge world1 !! other)
  | None =>
    r = (Server.Raise (Server.HTTPException 500 (Server.StrOf Server.StoreError)),
         world1)
  end.
Proof.
  apply (verify_learned_entry_effect no_faults (env_ok "k1") "k1" true world1).
  reflexivity.
Defined.

(** ** Listing and search *)

Lemma is_prefix_spec (a b : string) :
  Endpoints.is_prefix a b = true <-> exists post, b = String.append a post.
Proof.
  revert b. induction a as [| x a IH]; intros b; simpl.
  - split; [intros _; by exists b | reflexivity].
  - destruct b as [| y b]; simpl.
    + split; [discriminate | intros [post H]; discriminate].
    + rewrite andb_true_iff, Ascii.eqb_eq, IH. split.
      * intros [-> [post ->]]. by exists post.
      * intros [post [= -> ->]]. split; [reflexivity | by exists post].
Qed.

Lemma is_substring_spec (a b : string) :
  Endpoints.is_substring a b = true <->
  exists pre post, b = String.append pre (String.append a post).
Proof.
  induction b as [| y b IH]; simpl.
  - rewrite orb_false_r, is_prefix_spec. split.
    + intros [post H]. by exists "", post.
    + intros (pre & post & H). destruct pre; [by exists post | discriminate].
  - rewrite orb_true_iff, is_prefix_spec, IH. split.
    + intros [[post H] | (pre & post & ->)].
      * by exists "", post.
      * by exists (String y pre), post.
    + intros (pre & post & H). destruct pre as [| z pre]; simpl in H.
      * left. by exists post.
      * right. injection H as -> ->. by exists pre, post.
Qed.

Lemma elem_of_stream (c : gmap string (gmap string value))
    (d : gmap string value) :
  d ∈ Endpoints.stream c <-> exists i, c !! i = Some d.
Proof.
  unfold Endpoints.stream. rewrite list_elem_of_fmap. split.
  - intros ([i d'] & -> & Hin). exists i. by apply elem_of_map_to_list.
  - intros [i Hi]. exists (i, d). split; [reflexivity |].
    by apply elem_of_map_to_list.
Qed.

(** The comprehension on entries that all have a string question. *)
Lemma comprehension_ok (lower : string -> string) (query : string)
    (entries : list (gmap string value)) :
  (forall d, d ∈ entries -> exists s, d !! "question" = Some (VStr s)) ->
  exists found,
    Endpoints.comprehension lower query entries = inl found /\
    forall d, d ∈ found <->
              d ∈ entries /\ Endpoints.matches lower query d = inl true.
Proof.
  induction entries as [| entry rest IH]; intros Hall; simpl.
  - exists []. split; [reflexivity |]. intros d. split.
    + intros H. by apply not_elem_of_nil in H.
    + intros [H _]. by apply not_elem_of_nil in H.
  - destruct IH as (kept & -> & Hkept).
    { intros d Hd. apply Hall. by apply list_elem_of_further. }
    destruct (Hall entry) as [s Hs]; [apply list_elem_of_here |].
    assert (Hm : Endpoints.matches lower query entry
                 = inl (Endpoints.is_substring (lower query) (lower s))).
    { unfold Endpoints.matches. by rewrite Hs. }
    rewrite Hm. eexists. split; [reflexivity |].
    intros d. destruct (Endpoints.is_substring (lower query) (lower s)) eqn:Hsub.
    + rewrite !elem_of_cons, Hkept. split.
      * intros [-> | [Hin Hd]]; [by split; [left |] | by split; [right |]].
      * intros [[-> | Hin] Hd]; [by left | by right].
    + rewrite elem_of_cons, Hkept. split.
      * intros [Hin Hd]. by split; [right |].
      * intros [[-> | Hin] Hd]; [congruence | by split].
Qed.

(** One entry that raises ends the comprehension with an exception. *)
Lemma comprehension_poison (lower : string -> string) (query : string)
    (entries : list (gmap string value)) (d : gmap string value) :
  d ∈ entries ->
  (forall s, d !! "question" <> Some (VStr s)) ->
  exists detail, Endpoints.comprehension lower query entries = inr detail.
Proof.
  intros Hin Hbad. induction entries as [| entry rest IH]; simpl.
  - by apply not_elem_of_nil in Hin.
  - destruct (Endpoints.matches lower query entry) as [keep | detail] eqn:Hm;
      [| by exists detail].
    apply elem_of_cons in Hin as [-> | Hin].
    + exfalso. unfold Endpoints.matches in Hm.
      destruct (entry !! "question") as [[] |] eqn:Hq; try discriminate.
      by apply (Hbad s).
    + destruct (IH Hin) as [detail ->]. by exists detail.
Qed.

(** X24. Search is a case-insensitive substring search.  With a
    non-empty query, on a collection whose entries all have a string
    question, both search handlers return exactly the stored entries
    whose lower-cased question contains the lower-cased query; the
    world is unchanged. *)
Theorem search_finds_substring_matches (lower : string -> string)
    (c : Server.world -> gmap string (gmap string value))
    (f : Endpoints.faults) (query : string) (w : Server.world) :
  Endpoints.read_fails f = false ->
  query <> "" ->
  (forall i d, c w !! i = Some d -> exists s, d !! "question" = Some (VStr s)) ->
  exists found,
    Endpoints.search lower c f (Some query) w = (Server.Ok found, w) /\
    forall d,
      d ∈ found <->
      exists i s pre post,
        c w !! i = Some d /\ d !! "question" = Some (VStr s) /\
        lower s = String.append pre (String.append (lower query) post).
Proof.
  intros Hread Hne Hall.
  destruct (comprehension_ok lower query (Endpoints.stream (c w)))
    as (found & Hfound & Hiff).
  { intros d Hd. apply elem_of_stream in Hd as [i Hi]. by apply (Hall i). }
  exists found. split.
  - unfold Endpoints.search. rewrite Hread, (bool_decide_eq_false_2 _ Hne).
    by rewrite Hfound.
  - intros d. rewrite Hiff, elem_of_stream. split.
    + intros [[i Hi] Hm]. destruct (Hall i d Hi) as [s Hs].
      unfold Endpoints.matches in Hm. rewrite Hs in Hm.
      injection Hm as Hm. apply is_substring_spec in Hm as (pre & post & Hm).
      by exists i, s, pre, post.
    + intros (i & s & pre & post & Hi & Hs & Hm). split; [by exists i |].
      unfold Endpoints.matches. rewrite Hs. f_equal.
      apply is_substring_spec. by exists pre, post.
Qed.

Lemma search_finds_substring_matches_witness :
  exists found,
    Endpoints.search ascii_lower Server.learned_knowledge no_faults
      (Some "HOURS") world1 = (Server.Ok found, world1) /\
    forall d,
      d ∈ found <->
      exists i s pre post,
        Server.learned_knowledge world1 !! i = Some d /\
        d !! "question" = Some (VStr s) /\
        ascii_lower s
        = String.append pre (String.append (ascii_lower "HOURS") post).
Proof.
  apply (search_finds_substring_matches ascii_lower Server.learned_knowledge
           no_faults "HOURS" world1).
  - reflexivity.
  - discriminate.
  - intros i d Hi.
    change (Server.learned_knowledge world1)
      with (<["k1" := list_to_map
                        (Server.LearnedKnowledgeEntry_dict (env_ok "k1")
                           "What are your hours?" "9am-6pm" 1 "r1")]>
              (∅ : gmap string (gmap string value))) in Hi.
    apply lookup_insert_Some in Hi as [[_ <-] | [_ Hi]].
    + eexists. reflexivity.
    + by rewrite lookup_empty in Hi.
Defined.

(** X25. One malformed entry breaks search for everyone.
    [add_learned_knowledge] only checks that the question key is
    present, so it stores an entry whose question is null or not a
    string; from then on every search of the learned collection with a
    non-empty query answers 500, whatever the query. *)
Theorem non_string_question_breaks_search (lower : string -> string)
    (e : Server.env) (entry : gmap string value)
    (question answer confidence : value) (f : Endpoints.faults)
    (query : string) (w : Server.world) :
  entry !! "question" = Some question ->
  (forall s, question <> VStr s) ->
  entry !! "answer" = Some answer ->
  entry !! "confidence" = Some confidence ->
  Server.store_fails e Server.AlkSet = false ->
  Endpoints.read_fails f = false ->
  query <> "" ->
  let added := Server.add_learned_knowledge e entry w in
  fst added = Server.Ok (Server.MessageId "Learned knowledge entry added"
                           (Server.auto_id e)) /\
  exists detail,
    Endpoints.search_learned_knowledge lower f (Some query) (snd added)
    = (Server.Raise (Server.HTTPException 500 detail), snd added).
Proof.
  intros Hq Hbad Ha Hc Hset Hread Hne added. subst added.
  unfold Server.add_learned_knowledge, Server.try_except, Server.bind,
    Server.store, Server.modify, Server.ret.
  rewrite Hq, Ha, Hc, Hset. simpl. split; [reflexivity |].
  destruct (comprehension_poison lower query
              (Endpoints.stream
                 (<[Server.auto_id e :=
                      Server.new_entry e entry question answer confidence]>
                    (Server.learned_knowledge w)))
              (Server.new_entry e entry question answer confidence))
    as [detail Hdetail].
  - apply elem_of_stream. exists (Server.auto_id e). apply lookup_insert_eq.
  - intros s Hs. apply (Hbad s).
    unfold Server.new_entry in Hs.
    change (Some question = Some (VStr s)) in Hs. congruence.
  - exists detail.
    unfold Endpoints.search_learned_knowledge, Endpoints.search.
    rewrite Hread, (bool_decide_eq_false_2 _ Hne). simpl.
    by rewrite Hdetail.
Qed.

Lemma non_string_question_breaks_search_witness :
  let added := Server.add_learned_knowledge (env_ok "k2") posted_null_question
                 world1 in
  fst added = Server.Ok (Server.MessageId "Learned knowledge entry added" "k2") /\
  exists detail,
    Endpoints.search_learned_knowledge ascii_lower no_faults (Some "hours")
      (snd added)
    = (Server.Raise (Server.HTTPException 500 detail), snd added).
Proof.
  apply (non_string_question_breaks_search ascii_lower (env_ok "k2")
           posted_null_question VNone (VStr "Yes") (VFloat 1) no_faults
           "hours" world1); try reflexivity; discriminate.
Defined.

(** Listing help requests by status returns exactly the stored
    requests whose status field is that string; without a status, or
    with an empty one, it returns every stored request. *)
Theorem get_help_requests_by_status (f : Endpoints.faults)
    (status : option string) (w : Server.world) :
  Endpoints.read_fails f = false ->
  exists listed,
    Endpoints.get_help_requests f status w = (Server.Ok listed, w) /\
    forall d,
      d ∈ listed <->
      exists i,
        Server.help_requests w !! i = Some d /\
        match status with
        | Some s => s = "" \/ d !! "status" = Some (VStr s)
        | None => True
        end.
Proof.
  intros Hread.
  unfold Endpoints.get_help_requests, Server.try_except, Server.bind,
    Server.get_world, Endpoints.read, Server.ret.
  rewrite Hread. simpl. eexists. split; [reflexivity |].
  intros d. destruct status as [s |].
  - case_bool_decide as Hs.
    + rewrite elem_of_stream. split.
      * intros [i Hi]. exists i. split; [exact Hi | by left].
      * intros [i [Hi _]]. by exists i.
    + rewrite list_elem_of_In, filter_In, <- list_elem_of_In, elem_of_stream.
      unfold Endpoints.field_is. split.
      * intros [[i Hi] Hst]. exists i. split; [exact Hi | right].
        destruct (d !! "status") as [[] |]; try discriminate.
        apply bool_decide_eq_true in Hst. by subst.
      * intros [i [Hi [Hempty | Hst]]]; [contradiction |].
        split; [by exists i |]. rewrite Hst. by apply bool_decide_eq_true.
  - rewrite elem_of_stream. split.
    + intros [i Hi]. by exists i.
    + intros [i [Hi _]]. by exists i.
Qed.

Lemma get_help_requests_by_status_witness :
  exists listed,
    Endpoints.get_help_requests no_faults (Some "pending") world0
    = (Server.Ok listed, world0) /\
    forall d,
      d ∈ listed <->
      exists i,
        Server.help_requests world0 !! i = Some d /\
        ("pending" = "" \/ d !! "status" = Some (VStr "pending")).
Proof.
  apply (get_help_requests_by_status no_faults (Some "pending") world0).
  reflexivity.
Defined.

(** ** The agent: learning from a reply *)

Lemma fresh_learned_entry_trusted (answer : string) (i : option string) :
  Agent.trusted {| Agent.answer := answer; Agent.confidence := 1;
                   Agent.verified := false; Agent.times_used := 0;
                   Agent.success_rate := 1; Agent.id := i |} = true.
Proof. reflexivity. Qed.

(** X26. What the agent learns it can answer at once.  After a
    supervisor_response event with a non-empty question whose POST to
    the server is answered 200, a lookup of that question in any
    casing, when no predefined entry has it, returns the supervisor's
    response: the new entry starts with confidence and success rate
    1.0, above both thresholds, so it is trusted without being
    verified.  The agent has sent the resolving PUT and the learned
    entry, in that order, and has spoken the response. *)
Theorem learned_reply_answers_next_lookup (lower : string -> string)
    (e : AgentFlow.env) (data : AgentFlow.supervisor_data)
    (s : AgentFlow.session) (q query : string) (json_id : option string)
    (put_raises : bool) :
  AgentFlow.question data = Some q ->
  q <> "" ->
  AgentFlow.put_raises e = false ->
  AgentFlow.post e = AgentFlow.HttpStatus 200 json_id ->
  Agent.predefined_knowledge (AgentFlow.knowledge s) !! lower q = None ->
  lower query = lower q ->
  let s' := AgentFlow.handle_supervisor_response lower e data s in
  fst (Agent.check_knowledge_base lower put_raises query (AgentFlow.knowledge s'))
  = Some (AgentFlow.response data) /\
  AgentFlow.requests s'
  = AgentFlow.requests s
    ++ [AgentFlow.PutHelpRequest (AgentFlow.request_id data) "resolved"
          (AgentFlow.response data) q;
        AgentFlow.PostLearnedKnowledge q (AgentFlow.response data) 1 false
          (AgentFlow.request_id data) 0 1] /\
  AgentFlow.spoken s'
  = AgentFlow.spoken s
    ++ (if AgentFlow.generate_reply_raises e then []
        else [AgentFlow.response data]).
Proof.
  intros Hq Hne Hput Hpost Hpre Hlow s'. subst s'.
  unfold AgentFlow.handle_supervisor_response, AgentFlow.non_empty.
  rewrite Hq, (bool_decide_eq_false_2 _ Hne), Hput, Hpost.
  rewrite bool_decide_eq_true_2 by reflexivity.
  unfold AgentFlow.speak_response.
  destruct (AgentFlow.generate_reply_raises e); simpl;
    rewrite ?app_nil_r, <- ?app_assoc; (split; [| split; reflexivity]);
    unfold Agent.check_knowledge_base; simpl; rewrite Hlow, Hpre;
    rewrite lookup_insert_eq; reflexivity.
Qed.

Lemma learned_reply_answers_next_lookup_witness :
  let s' := AgentFlow.handle_supervisor_response ascii_lower flow_ok
              walk_in_reply session0 in
  fst (Agent.check_knowledge_base ascii_lower false "do you take WALK-INS?"
         (AgentFlow.knowledge s'))
  = Some (AgentFlow.response walk_in_reply) /\
  AgentFlow.requests s'
  = AgentFlow.requests session0
    ++ [AgentFlow.PutHelpRequest (AgentFlow.request_id walk_in_reply) "resolved"
          (AgentFlow.response walk_in_reply) "Do you take Walk-Ins?";
        AgentFlow.PostLearnedKnowledge "Do you take Walk-Ins?"
          (AgentFlow.response walk_in_reply) 1 false
          (AgentFlow.request_id walk_in_reply) 0 1] /\
  AgentFlow.spoken s'
  = AgentFlow.spoken session0
    ++ (if AgentFlow.generate_reply_raises flow_ok then []
        else [AgentFlow.response walk_in_reply]).
Proof.
  apply (learned_reply_answers_next_lookup ascii_lower flow_ok walk_in_reply
           session0 "Do you take Walk-Ins?" "do you take WALK-INS?"
           (Some "k3") false); try reflexivity; discriminate.
Defined.

(** A supervisor_response event without a question, with a null
    one or with an empty one is dropped by the agent: nothing is sent,
    nothing is learned, and the supervisor's response is not spoken to
    the caller. *)
Theorem reply_without_question_is_dropped (lower : string -> string)
    (e : AgentFlow.env) (data : AgentFlow.supervisor_data)
    (s : AgentFlow.session) :
  AgentFlow.question data = None \/ AgentFlow.question data = Some "" ->
  AgentFlow.handle_supervisor_response lower e data s = s.
Proof.
  intros [Hq | Hq]; unfold AgentFlow.handle_supervisor_response;
    rewrite Hq; reflexivity.
Qed.

Lemma reply_without_question_is_dropped_witness :
  AgentFlow.handle_supervisor_response ascii_lower flow_ok
    {| AgentFlow.request_id := "r9"; AgentFlow.response := "9am-6pm";
       AgentFlow.question := None |} session0
  = session0.
Proof.
  apply (reply_without_question_is_dropped ascii_lower flow_ok
           {| AgentFlow.request_id := "r9"; AgentFlow.response := "9am-6pm";
              AgentFlow.question := None |} session0).
  left. reflexivity.
Defined.

(** ** The agent: a caller's turn *)

(** X27. The knowledge base comes first.  When the lookup returns a
    non-empty answer, that answer is what the agent speaks, and no
    request for help is sent, whatever the LLM would have answered and
    whatever the server would have done. *)
Theorem knowledge_answer_wins (lower : string -> string) (e : AgentFlow.env)
    (track_id : option string) (new_message : AgentFlow.message_content)
    (s : AgentFlow.session) (text : string) :
  fst (Agent.check_knowledge_base lower (AgentFlow.lookup_put_raises e)
         (AgentFlow.flatten new_message) (AgentFlow.knowledge s)) = Some text ->
  text <> "" ->
  AgentFlow.generate_reply_raises e = false ->
  let s' := AgentFlow.on_user_turn_completed lower e track_id new_message s in
  AgentFlow.spoken s' = AgentFlow.spoken s ++ [text] /\
  AgentFlow.requests s' = AgentFlow.requests s /\
  AgentFlow.knowledge s'
  = snd (Agent.check_knowledge_base lower (AgentFlow.lookup_put_raises e)
           (AgentFlow.flatten new_message) (AgentFlow.knowledge s)).
Proof.
  intros Hans Hne Hgen s'. subst s'.
  unfold AgentFlow.on_user_turn_completed.
  destruct (Agent.check_knowledge_base _ _ _ _) as [answer a]. simpl in Hans.
  subst answer. unfold AgentFlow.non_empty.
  rewrite (bool_decide_eq_false_2 _ Hne).
  unfold AgentFlow.speak_response. rewrite Hgen. repeat split.
Qed.

Lemma knowledge_answer_wins_witness :
  let s' := AgentFlow.on_user_turn_completed ascii_lower flow_ok (Some "t1")
              (AgentFlow.ContentList ["When"; "do you"; "OPEN?"]) session0 in
  AgentFlow.spoken s' = AgentFlow.spoken session0 ++ ["We open at 9am"] /\
  AgentFlow.requests s' = AgentFlow.requests session0 /\
  AgentFlow.knowledge s'
  = snd (Agent.check_knowledge_base ascii_lower
           (AgentFlow.lookup_put_raises flow_ok)
           (AgentFlow.flatten (AgentFlow.ContentList ["When"; "do you"; "OPEN?"]))
           (AgentFlow.knowledge session0)).
Proof.
  apply (knowledge_answer_wins ascii_lower flow_ok (Some "t1")
           (AgentFlow.ContentList ["When"; "do you"; "OPEN?"]) session0
           "We open at 9am").
  - reflexivity.
  - discriminate.
  - reflexivity.
Defined.

(** X28. One utterance per turn.  When speaking works, every turn ends
    with exactly one more text spoken, and with at most one request
    sent besides the usage report: the request for help, which carries
    the caller's words as they came, not lower-cased, with status
    pending. *)
Theorem one_utterance_per_turn (lower : string -> string) (e : AgentFlow.env)
    (track_id : option string) (new_message : AgentFlow.message_content)
    (s : AgentFlow.session) :
  AgentFlow.generate_reply_raises e = false ->
  let s' := AgentFlow.on_user_turn_completed lower e track_id new_message s in
  (exists text, AgentFlow.spoken s' = AgentFlow.spoken s ++ [text]) /\
  (AgentFlow.requests s' = AgentFlow.requests s \/
   AgentFlow.requests s'
   = AgentFlow.requests s
     ++ [AgentFlow.PostHelpRequest track_id (AgentFlow.now e)
           (AgentFlow.flatten new_message) (AgentFlow.call_context track_id)
           "pending"]).
Proof.
  intros Hgen s'. subst s'.
  unfold AgentFlow.on_user_turn_completed, AgentFlow.create_help_request,
    AgentFlow.speak_response.
  rewrite Hgen.
  destruct (Agent.check_knowledge_base _ _ _ _) as [answer a].
  destruct (AgentFlow.non_empty answer); simpl; [by eauto |].
  destruct (AgentFlow.llm_probe_raises e); simpl; [by eauto |].
  destruct (AgentFlow.non_empty (AgentFlow.ask_openai e)); simpl; [by eauto |].
  destruct (AgentFlow.post e) as [| code json_id]; simpl; [by eauto |].
  case_bool_decide; simpl; by eauto.
Qed.

Lemma one_utterance_per_turn_witness :
  let s' := AgentFlow.on_user_turn_completed ascii_lower flow_ok (Some "t1")
              (AgentFlow.ContentStr "Do you sell wigs?") session0 in
  (exists text, AgentFlow.spoken s' = AgentFlow.spoken session0 ++ [text]) /\
  (AgentFlow.requests s' = AgentFlow.requests session0 \/
   AgentFlow.requests s'
   = AgentFlow.requests session0
     ++ [AgentFlow.PostHelpRequest (Some "t1") (AgentFlow.now flow_ok)
           (AgentFlow.flatten (AgentFlow.ContentStr "Do you sell wigs?"))
           (AgentFlow.call_context (Some "t1")) "pending"]).
Proof.
  apply (one_utterance_per_turn ascii_lower flow_ok (Some "t1")
           (AgentFlow.ContentStr "Do you sell wigs?") session0).
  reflexivity.
Defined.

(** X29. Escalation.  When the lookup gives no answer or an empty one,
    the LLM is reachable and has no answer either, and the POST of the
    help request is answered, the agent sends the request for help and
    tells the caller that it checks with its supervisor if the answer
    was 200, and apologises otherwise.  When the POST raises, nothing
    is recorded as sent and the agent apologises. *)
Theorem unanswered_question_escalates (lower : string -> string)
    (e : AgentFlow.env) (track_id : option string)
    (new_message : AgentFlow.message_content) (s : AgentFlow.session) :
  AgentFlow.non_empty
    (fst (Agent.check_knowledge_base lower (AgentFlow.lookup_put_raises e)
            (AgentFlow.flatten new_message) (AgentFlow.knowledge s))) = None ->
  AgentFlow.llm_probe_raises e = false ->
  AgentFlow.non_empty (AgentFlow.ask_openai e) = None ->
  AgentFlow.generate_reply_raises e = false ->
  let s' := AgentFlow.on_user_turn_completed lower e track_id new_message s in
  match AgentFlow.post e with
  | AgentFlow.HttpStatus code _ =>
    AgentFlow.requests s'
    = AgentFlow.requests s
      ++ [AgentFlow.PostHelpRequest track_id (AgentFlow.now e)
            (AgentFlow.flatten new_message) (AgentFlow.call_context track_id)
            "pending"] /\
    AgentFlow.spoken s'
    = AgentFlow.spoken s
      ++ [if bool_decide (code = 200%Z) then AgentFlow.supervisor_line
          else AgentFlow.apology]
  | AgentFlow.HttpRaises =>
    AgentFlow.requests s' = AgentFlow.requests s /\
    AgentFlow.spoken s' = AgentFlow.spoken s ++ [AgentFlow.apology]
  end.
Proof.
  intros Hkb Hprobe Hllm Hgen s'. subst s'.
  unfold AgentFlow.on_user_turn_completed, AgentFlow.create_help_request,
    AgentFlow.speak_response.
  rewrite Hgen.
  destruct (Agent.check_knowledge_base _ _ _ _) as [answer a]. simpl in Hkb.
  rewrite Hkb, Hprobe, Hllm.
  destruct (AgentFlow.post e) as [| code json_id]; simpl; [by split |].
  case_bool_decide; simpl; by split.
Qed.

Lemma unanswered_question_escalates_witness :
  let s' := AgentFlow.on_user_turn_completed ascii_lower flow_ok (Some "t1")
              (AgentFlow.ContentStr "Do you sell wigs?") session0 in
  AgentFlow.requests s'
  = AgentFlow.requests session0
    ++ [AgentFlow.PostHelpRequest (Some "t1") (AgentFlow.now flow_ok)
          (AgentFlow.flatten (AgentFlow.ContentStr "Do you sell wigs?"))
          (AgentFlow.call_context (Some "t1")) "pending"] /\
  AgentFlow.spoken s'
  = AgentFlow.spoken session0
    ++ [if bool_decide (200%Z = 200%Z) then AgentFlow.supervisor_line
        else AgentFlow.apology].
Proof.
  apply (unanswered_question_escalates ascii_lower flow_ok (Some "t1")
           (AgentFlow.ContentStr "Do you sell wigs?") session0); reflexivity.
Defined.

(** ** The agent: loading the knowledge bases *)

Lemma foldl_insert_keeps {A B : Type} (key : A -> string) (val : A -> B)
    (entries : list A) (m : gmap string B) (k : string) :
  (forall y, y ∈ entries -> key y <> k) ->
  foldl (fun m x => <[key x := val x]> m) m entries !! k = m !! k.
Proof.
  revert m. induction entries as [| y entries IH]; intros m Hno; simpl.
  - reflexivity.
  - rewrite IH.
    + apply lookup_insert_ne. apply Hno, list_elem_of_here.
    + intros z Hz. apply Hno. by apply list_elem_of_further.
Qed.

Lemma dict_of_last {A B : Type} (key : A -> string) (val : A -> B)
    (before : list A) (x : A) (after : list A) :
  (forall y, y ∈ after -> key y <> key x) ->
  AgentFlow.dict_of key val (before ++ x :: after) !! key x = Some (val x).
Proof.
  intros Hno. unfold AgentFlow.dict_of. rewrite foldl_app. simpl.
  rewrite foldl_insert_keeps by exact Hno. apply lookup_insert_eq.
Qed.

(** X30. Loading then looking up.  After the predefined listing has
    been fetched with status 200, a lookup in any casing returns the
    answer of the last listed entry whose lower-cased question equals
    the lower-cased query: questions are keyed by their lower-cased
    text, and a later entry under the same key replaces an earlier one.
    This holds whatever the fetch of the learned listing does. *)
Theorem loaded_predefined_last_wins (lower : string -> string)
    (before : list AgentFlow.predefined_wire) (x : AgentFlow.predefined_wire)
    (after : list AgentFlow.predefined_wire)
    (learned : AgentFlow.get_outcome (string * Agent.learned_entry))
    (a : Agent.agent) (query : string) (put_raises : bool) :
  lower (AgentFlow.w_question x) = lower query ->
  (forall y, y ∈ after -> lower (AgentFlow.w_question y) <> lower query) ->
  let a' := AgentFlow.load_knowledge_bases lower
              (AgentFlow.GetStatus 200 (before ++ x :: after)) learned a in
  Agent.check_knowledge_base lower put_raises query a'
  = (Some (AgentFlow.w_answer x), a').
Proof.
  intros Hx Hafter a'.
  assert (Hpre : Agent.predefined_knowledge a' !! lower query
                 = Some {| Agent.p_answer := AgentFlow.w_answer x;
                           Agent.p_confidence := 1;
                           Agent.p_verified := true |}).
  { assert (Hlast := dict_of_last
                         (fun y => lower (AgentFlow.w_question y))
                         (fun y => {| Agent.p_answer := AgentFlow.w_answer y;
                                      Agent.p_confidence := 1;
                                      Agent.p_verified := true |})
                         before x after).
    simpl in Hlast. rewrite Hx in Hlast. specialize (Hlast Hafter).
    subst a'. unfold AgentFlow.load_knowledge_bases.
    rewrite bool_decide_eq_true_2 by reflexivity.
    destruct learned as [| code entries]; [| case_bool_decide]; exact Hlast. }
  unfold Agent.check_knowledge_base. rewrite Hpre. reflexivity.
Qed.

Lemma loaded_predefined_last_wins_witness :
  let a' := AgentFlow.load_knowledge_bases ascii_lower
              (AgentFlow.GetStatus 200 predefined_listing)
              AgentFlow.GetRaises agent0 in
  Agent.check_knowledge_base ascii_lower false "where are you?" a'
  = (Some "14 Main Street", a').
Proof.
  apply (loaded_predefined_last_wins ascii_lower
           [ {| AgentFlow.w_question := "Where are you?";
                AgentFlow.w_answer := "12 Main Street" |} ]
           {| AgentFlow.w_question := "WHERE ARE YOU?";
              AgentFlow.w_answer := "14 Main Street" |}
           [ {| AgentFlow.w_question := "Do you sell wigs?";
                AgentFlow.w_answer := "No" |} ]
           AgentFlow.GetRaises agent0 "where are you?" false).
  - reflexivity.
  - intros y Hy. apply list_elem_of_singleton in Hy. subst y. discriminate.
Defined.
